(** * nexwave: risk-gated execution and position reconciliation

    A shallow embedding of the trading core of the repository:

    - [Risk]      src/nexwave/services/trading_engine/risk_manager.py
    - [Client]    src/nexwave/services/order_management/pacifica_client.py
    - [Exposure]  src/nexwave/services/portfolio/exposure_manager.py
    - [Hedge]     src/nexwave/services/portfolio/hedge_trigger.py
    - [Sizer]     src/nexwave/services/portfolio/position_sizer.py
    - [Regime]    src/nexwave/services/market/regime_detector.py
    - [Engine]    src/nexwave/services/trading_engine/engine.py

    Conventions.  A Python [float] is modelled by an exact rational [Q]
    (no binary rounding, no NaN or infinity); a Python [int] by [Z]; a
    [str] by [string], with [upper]/[lower]/[strip] acting on ASCII; a
    [dict] or [set] keyed by strings by stdpp's [gmap]/[gset]; a
    [datetime] by its number of microseconds since the epoch.  A raised
    exception is the [Raise] branch of [Py.result].  Everything the code
    obtains from outside the process (the clock, the environment, the
    store, the exchange) is an explicit argument of the function that
    reads it. *)

From Stdlib Require Import ZArith QArith Qround Lqa Lia String Ascii List.
From stdpp Require Import gmap strings.
Import ListNotations.

(** ** Python values and built-ins used by the sources *)

Module Py.

Inductive exn : Type :=
| AttributeError (attr : string)
| TypeError
| ZeroDivisionError
| ValueError
| MultipleResultsFound
| IntegrityError
| Exception (msg : string).

Inductive result (A : Type) : Type :=
| Return (a : A)
| Raise (e : exn).
Arguments Return {A} a.
Arguments Raise {A} e.

Definition bind {A B} (r : result A) (k : A -> result B) : result B :=
  match r with
  | Return a => k a
  | Raise e => Raise e
  end.

(** Values an attribute or a [details] entry may hold. *)
Inductive val : Type :=
| VFloat (q : Q)
| VStr (s : string)
| VSet (s : gset string).

Definition datetime := Z.
Definition microseconds_per_day : Z := 86400000000.
(** [d.date()], as a day number. *)
Definition date (d : datetime) : Z := (d / microseconds_per_day)%Z.
(** [d.replace(hour=0, minute=0, second=0, microsecond=0)]. *)
Definition midnight (d : datetime) : datetime := (date d * microseconds_per_day)%Z.
(** [(a - b).total_seconds()]. *)
Definition total_seconds (a b : datetime) : Q := (inject_Z (a - b) / 1000000)%Q.

(** *** Numbers *)

Local Open Scope Q_scope.

Definition Qltb (x y : Q) : bool := negb (Qle_bool y x).
Definition Qleb (x y : Q) : bool := Qle_bool x y.
Definition Qeqb (x y : Q) : bool := Qeq_bool x y.

(** [max(a, b)] of two floats: the first argument wins a tie. *)
Definition max (a b : Q) : Q := if Qltb a b then b else a.

(** [math.floor]. *)
Definition floor (x : Q) : Z := Qfloor x.

(** Nearest integer, ties to the even neighbour: the rounding of the
    built-in [round] and of [Decimal.quantize] under the default
    context. *)
Definition round_half_even (x : Q) : Z :=
  let f := Qfloor x in
  let r := x - inject_Z f in
  if Qltb r (1 # 2) then f
  else if Qltb (1 # 2) r then (f + 1)%Z
  else if Z.even f then f else (f + 1)%Z.

(** Nearest integer, ties away from zero: [ROUND_HALF_UP]. *)
Definition round_half_up (x : Q) : Z :=
  if Qltb x 0 then (- Qfloor (- x + (1 # 2)))%Z else Qfloor (x + (1 # 2)).

Definition pow10 (n : Z) : Q := inject_Z (10 ^ n).

(** [round(x, ndigits)] for [ndigits >= 0]. *)
Definition round (x : Q) (ndigits : Z) : Q :=
  inject_Z (round_half_even (x * pow10 ndigits)) / pow10 ndigits.

(** [x.quantize(Decimal(10) ** -places)] under the default context. *)
Definition quantize (x : Q) (places : Z) : Q :=
  inject_Z (round_half_even (x * pow10 places)) / pow10 places.

(** Smallest [k' >= k] with [d <= n * 10^k'], searched for [fuel] steps. *)
Fixpoint scale_up (fuel : nat) (n d k : Z) : Z :=
  match fuel with
  | O => k
  | S fuel' => if (d <=? n * 10 ^ k)%Z then k else scale_up fuel' n d (k + 1)%Z
  end.

(** Largest [k' >= k] with [d * 10^(k'+1) > n], i.e. the number of times
    [n / d] can still be divided by ten, searched for [fuel] steps. *)
Fixpoint scale_down (fuel : nat) (n d k : Z) : Z :=
  match fuel with
  | O => k
  | S fuel' => if (n <? d * 10 ^ (k + 1))%Z then k else scale_down fuel' n d (k + 1)%Z
  end.

(** [math.floor(math.log10(x))] for [x > 0]. *)
Definition floor_log10 (x : Q) : Z :=
  let n := Qnum x in
  let d := Zpos (Qden x) in
  if (d <=? n)%Z then scale_down (S (Z.to_nat (Z.log2 n))) n d 0
  else (- scale_up (S (Z.to_nat (Z.log2 d))) n d 1)%Z.

(** *** Strings *)

Definition ascii_upper (c : ascii) : ascii :=
  let n := nat_of_ascii c in
  if (Nat.leb 97 n && Nat.leb n 122)%nat then ascii_of_nat (n - 32)%nat else c.

Definition ascii_lower (c : ascii) : ascii :=
  let n := nat_of_ascii c in
  if (Nat.leb 65 n && Nat.leb n 90)%nat then ascii_of_nat (n + 32)%nat else c.

Fixpoint upper (s : string) : string :=
  match s with
  | EmptyString => EmptyString
  | String c r => String (ascii_upper c) (upper r)
  end.

Fixpoint lower (s : string) : string :=
  match s with
  | EmptyString => EmptyString
  | String c r => String (ascii_lower c) (lower r)
  end.

Definition is_space (c : ascii) : bool :=
  let n := nat_of_ascii c in
  (Nat.eqb n 32 || (Nat.leb 9 n && Nat.leb n 13) || (Nat.leb 28 n && Nat.leb n 31))%nat.

Fixpoint lstrip (s : string) : string :=
  match s with
  | String c r => if is_space c then lstrip r else s
  | EmptyString => EmptyString
  end.

Fixpoint rstrip (s : string) : string :=
  match s with
  | EmptyString => EmptyString
  | String c r =>
      match rstrip r with
      | EmptyString => if is_space c then EmptyString else String c EmptyString
      | r' => String c r'
      end
  end.

Definition strip (s : string) : string := rstrip (lstrip s).

(** [s.split(sep)] for a one-character separator. *)
Fixpoint split (sep : ascii) (s : string) : list string :=
  match s with
  | EmptyString => [EmptyString]
  | String c r =>
      if Ascii.eqb c sep then EmptyString :: split sep r
      else match split sep r with
           | [] => [String c EmptyString]
           | w :: ws => String c w :: ws
           end
  end.

(** Truth value of a string: non-empty. *)
Definition truthy_str (s : string) : bool :=
  match s with EmptyString => false | _ => true end.

(** [x or d] on an optional float: [None] and [0.0] are both falsy. *)
Definition or_float (x : option Q) (d : Q) : Q :=
  match x with
  | Some v => if Qeqb v 0 then d else v
  | None => d
  end.

(** The built-in [sum] of a list of floats: a left fold from 0. *)
Definition sum (l : list Q) : Q := fold_left Qplus l 0.

(** [min(a, b)] of two floats: the first argument wins a tie. *)
Definition min (a b : Q) : Q := if Qltb b a then b else a.

End Py.

Notation "x <- c1 ;; c2" := (Py.bind c1 (fun x => c2))
  (at level 100, c1 at next level, right associativity, only parsing).

(** ** Settings and stored rows *)

(** The fields of [nexwave.common.config.Settings] the risk manager reads.
    The engine reloads overrides into the one [settings] object, so the
    current settings are an argument of every function that reads them. *)
Record Settings : Type := {
  max_position_size_usd : Q;
  max_leverage : Q;
  daily_loss_limit_pct : Q;
  min_order_size_usd : Q;
  max_order_size_usd : Q;
  maintenance_margin_ratio : Q;
  min_profit_target_usd : Q;
  trade_cooldown_seconds : Z;
  max_trades_per_symbol_per_day : Z;
  symbol_blacklist : string
}.

(** The defaults declared in [config.py]. *)
Definition default_settings : Settings := {|
  max_position_size_usd := 1000000;
  max_leverage := 5;
  daily_loss_limit_pct := 5;
  min_order_size_usd := 50;
  max_order_size_usd := 100000;
  maintenance_margin_ratio := 0.5;
  min_profit_target_usd := 2;
  trade_cooldown_seconds := 300;
  max_trades_per_symbol_per_day := 10;
  symbol_blacklist := "XPL,ASTER,FARTCOIN,PENGU,CRV,SUI"
|}.

(** A row of the [positions] table ([nexwave.db.models.Position]); the
    nullable columns are options.  Of the [metadata] column the row keeps
    [pos_synced]: whether it is [{"synced_from_pacifica": True}], the
    value [sync_positions_from_pacifica] gives to the rows it creates. *)
Record Position : Type := {
  pos_strategy_id : string;
  pos_symbol : string;
  pos_side : string;
  pos_amount : Q;
  pos_entry_price : Q;
  pos_current_price : option Q;
  pos_unrealized_pnl : option Q;
  pos_realized_pnl : Q;
  pos_opened_at : Py.datetime;
  pos_updated_at : Py.datetime;
  pos_synced : bool
}.

(** What one [async with AsyncSessionLocal() as session] block observes:
    the rows of the table, or [None] when opening the session or one of
    its statements raises. *)
Definition Session : Type := option (list Position).

(** ** risk_manager.py *)

Module Risk.
Import Py.
Local Open Scope Q_scope.

(** The message of a [RiskCheckResult].  The source builds it with an
    f-string; the constructor names the message and carries the values
    the f-string interpolates. *)
Inductive Reason : Type :=
| SymbolBlacklisted (symbol : string)
| SymbolNotBlacklisted
| CooldownActive (symbol : string) (remaining : Q) (cooldown : Z)
| DailyTradeLimitReached (symbol : string) (daily_count limit : Z)
| TradeFrequencyOK
| OrderSizeTooSmall (order_size_usd minimum : Q)
| OrderSizeTooLarge (order_size_usd maximum : Q)
| OrderSizeOK
| UnrealisticPriceMove (required_move_pct target : Q)
| ProfitTargetViable
| PositionLimitExceeded (total_position_usd maximum : Q)
| PositionLimitOK
| LeverageTooHigh (leverage maximum : Q)
| LeverageOK (leverage : Q)
| InvalidPortfolioValue
| DailyLossLimitExceeded (daily_loss_pct limit : Q)
| DailyLossLimitOK
| AllRiskChecksPassed.

Record RiskCheckResult : Type := {
  approved : bool;
  reason : Reason;
  details : option (list (string * val))
}.

Definition reject (r : Reason) : RiskCheckResult :=
  {| approved := false; reason := r; details := None |}.
Definition accept (r : Reason) : RiskCheckResult :=
  {| approved := true; reason := r; details := None |}.

(** A [RiskManager] instance.  The three attributes [__init__] assigns
    are fields; [instance_dict] holds every other attribute bound on the
    instance, and [__init__] binds none. *)
Record RiskManager : Type := {
  last_trade_time : gmap string datetime;
  daily_trade_count : gmap string Z;
  last_reset_date : option datetime;
  instance_dict : gmap string val
}.

Definition __init__ : RiskManager := {|
  last_trade_time := ∅;
  daily_trade_count := ∅;
  last_reset_date := None;
  instance_dict := ∅
|}.

(** [self.name] for a name [__init__] does not assign. *)
Definition getattr (self : RiskManager) (name : string) : result val :=
  match instance_dict self !! name with
  | Some v => Return v
  | None => Raise (AttributeError name)
  end.

(** An operand of [<], [>] or unary minus next to a float. *)
Definition as_float (v : val) : result Q :=
  match v with
  | VFloat q => Return q
  | _ => Raise TypeError
  end.

Fixpoint is_substring (p s : string) : bool :=
  if String.prefix p s then true
  else match s with
       | EmptyString => false
       | String _ r => is_substring p r
       end.

(** [x in container] for a string [x]. *)
Definition contains (x : string) (container : val) : result bool :=
  match container with
  | VSet s => Return (bool_decide (x ∈ s))
  | VStr s => Return (is_substring x s)
  | VFloat _ => Raise TypeError
  end.

(** The dictionary [_limits] returns. *)
Record Limits : Type := {
  lim_max_position_size_usd : Q;
  lim_max_leverage : Q;
  lim_daily_loss_limit_pct : Q;
  lim_min_order_size_usd : Q;
  lim_max_order_size_usd : Q;
  lim_maintenance_margin_ratio : Q;
  lim_min_profit_target_usd : Q;
  lim_trade_cooldown_seconds : Z;
  lim_max_trades_per_symbol_per_day : Z;
  lim_symbol_blacklist : gset string
}.

Definition parse_blacklist (s : string) : gset string :=
  list_to_set
    (map (fun w => upper (strip w))
         (List.filter (fun w => truthy_str (strip w)) (split ","%char s))).

Definition _limits (st : Settings) : Limits := {|
  lim_max_position_size_usd := max_position_size_usd st;
  lim_max_leverage := max_leverage st;
  lim_daily_loss_limit_pct := daily_loss_limit_pct st;
  lim_min_order_size_usd := min_order_size_usd st;
  lim_max_order_size_usd := max_order_size_usd st;
  lim_maintenance_margin_ratio := maintenance_margin_ratio st;
  lim_min_profit_target_usd := min_profit_target_usd st;
  lim_trade_cooldown_seconds := trade_cooldown_seconds st;
  lim_max_trades_per_symbol_per_day := max_trades_per_symbol_per_day st;
  lim_symbol_blacklist := parse_blacklist (symbol_blacklist st)
|}.

(** SQL [SUM] over a nullable column: [NULL] when no row has a value. *)
Definition sql_sum (col : list (option Q)) : option Q :=
  fold_left
    (fun acc x =>
       match x, acc with
       | None, _ => acc
       | Some v, None => Some v
       | Some v, Some a => Some (a + v)
       end)
    col None.

Definition of_strategy (strategy_id : string) (p : Position) : bool :=
  String.eqb (pos_strategy_id p) strategy_id.

(** [getenv] is the value of [PORTFOLIO_VALUE] when it is set. *)
Definition get_portfolio_value
    (getenv : option Q) (session : Session) (strategy_id : string) : Q :=
  match session with
  | Some rows =>
      let initial_cash := match getenv with Some v => v | None => 100000 end in
      let mine := List.filter (of_strategy strategy_id) rows in
      let unrealized_pnl := or_float (sql_sum (map pos_unrealized_pnl mine)) 0 in
      let realized_pnl :=
        or_float (sql_sum (map (fun p => Some (pos_realized_pnl p)) mine)) 0 in
      let portfolio_value := initial_cash + unrealized_pnl + realized_pnl in
      max 0 portfolio_value
  | None => 100000
  end.

Definition get_current_positions
    (session : Session) (strategy_id : string) (symbol : option string)
  : list Position :=
  match session with
  | Some rows =>
      List.filter
        (fun p =>
           of_strategy strategy_id p &&
           match symbol with
           | Some s => if truthy_str s then String.eqb (pos_symbol p) (upper s) else true
           | None => true
           end)
        rows
  | None => []
  end.

Definition calculate_daily_pnl
    (now : datetime) (session : Session) (strategy_id : string) : Q :=
  match session with
  | Some rows =>
      let today_start := midnight now in
      let mine := List.filter (of_strategy strategy_id) rows in
      let today := List.filter (fun p => (today_start <=? pos_updated_at p)%Z) mine in
      let realized_pnl :=
        or_float (sql_sum (map (fun p => Some (pos_realized_pnl p)) today)) 0 in
      let unrealized_pnl := or_float (sql_sum (map pos_unrealized_pnl mine)) 0 in
      realized_pnl + unrealized_pnl
  | None => 0
  end.

Definition reset_daily_counts_if_needed (now : datetime) (self : RiskManager)
  : RiskManager :=
  let today := date now in
  let stale :=
    match last_reset_date self with
    | None => true
    | Some d => negb (Z.eqb (date d) today)
    end in
  if stale then
    {| last_trade_time := last_trade_time self;
       daily_trade_count := ∅;
       last_reset_date := Some now;
       instance_dict := instance_dict self |}
  else self.

Definition check_symbol_blacklist (self : RiskManager) (symbol : string)
  : result RiskCheckResult :=
  blacklist <- getattr self "symbol_blacklist" ;;
  listed <- contains (upper symbol) blacklist ;;
  if listed : bool then Return (reject (SymbolBlacklisted symbol))
  else Return (accept SymbolNotBlacklisted).

Definition check_trade_frequency
    (st : Settings) (now : datetime) (self : RiskManager) (symbol : string)
  : RiskCheckResult * RiskManager :=
  let self := reset_daily_counts_if_needed now self in
  let symbol_upper := upper symbol in
  let limits := _limits st in
  let cooldown := inject_Z (lim_trade_cooldown_seconds limits) in
  let cooling :=
    match last_trade_time self !! symbol_upper with
    | Some t =>
        let time_since_last_trade := total_seconds now t in
        if Qltb time_since_last_trade cooldown
        then Some (cooldown - time_since_last_trade)
        else None
    | None => None
    end in
  match cooling with
  | Some remaining =>
      (reject (CooldownActive symbol remaining (lim_trade_cooldown_seconds limits)),
       self)
  | None =>
      let daily_count := default 0%Z (daily_trade_count self !! symbol_upper) in
      if (lim_max_trades_per_symbol_per_day limits <=? daily_count)%Z
      then (reject (DailyTradeLimitReached symbol daily_count
                      (lim_max_trades_per_symbol_per_day limits)), self)
      else (accept TradeFrequencyOK, self)
  end.

Definition record_trade (now : datetime) (self : RiskManager) (symbol : string)
  : RiskManager :=
  let self := reset_daily_counts_if_needed now self in
  let symbol_upper := upper symbol in
  {| last_trade_time := <[symbol_upper := now]> (last_trade_time self);
     daily_trade_count :=
       <[symbol_upper := (default 0 (daily_trade_count self !! symbol_upper) + 1)%Z]>
         (daily_trade_count self);
     last_reset_date := last_reset_date self;
     instance_dict := instance_dict self |}.

Definition check_order_size (self : RiskManager) (order_amount order_price : Q)
  : result RiskCheckResult :=
  let order_size_usd := order_amount * order_price in
  lo <- Py.bind (getattr self "min_order_size_usd") as_float ;;
  if Qltb order_size_usd lo then Return (reject (OrderSizeTooSmall order_size_usd lo))
  else
    hi <- Py.bind (getattr self "max_order_size_usd") as_float ;;
    if Qltb hi order_size_usd then Return (reject (OrderSizeTooLarge order_size_usd hi))
    else Return (accept OrderSizeOK).

Definition check_profit_viability (st : Settings) (order_amount order_price : Q)
  : result RiskCheckResult :=
  let limits := _limits st in
  let order_size_usd := order_amount * order_price in
  let estimated_fees := order_size_usd * 0.0004 * 2 in
  let min_profit_needed := lim_min_profit_target_usd limits + estimated_fees in
  if Qeqb order_size_usd 0 then Raise ZeroDivisionError
  else
    let required_move_pct := (min_profit_needed / order_size_usd) * 100 in
    if Qltb 5 required_move_pct then
      Return {| approved := false;
                reason := UnrealisticPriceMove required_move_pct
                            (lim_min_profit_target_usd limits);
                details := Some [("order_size_usd"%string, VFloat order_size_usd);
                                 ("estimated_fees"%string, VFloat estimated_fees);
                                 ("min_profit_needed"%string, VFloat min_profit_needed);
                                 ("required_move_pct"%string, VFloat required_move_pct)] |}
    else Return (accept ProfitTargetViable).

(** [pos.get("current_price") or pos.get("entry_price", 0)]. *)
Definition mark_price (p : Position) : Q :=
  or_float (pos_current_price p) (pos_entry_price p).

Definition check_position_limit
    (session : Session) (self : RiskManager)
    (strategy_id symbol : string) (new_position_size_usd : Q)
  : result RiskCheckResult :=
  let current_positions := get_current_positions session strategy_id (Some symbol) in
  let total_position_usd :=
    fold_left
      (fun total p =>
         if String.eqb (upper (pos_symbol p)) (upper symbol)
         then total + pos_amount p * mark_price p
         else total)
      current_positions 0 in
  let total_position_usd := total_position_usd + new_position_size_usd in
  hi <- Py.bind (getattr self "max_position_size_usd") as_float ;;
  if Qltb hi total_position_usd then
    Return {| approved := false;
              reason := PositionLimitExceeded total_position_usd hi;
              details := Some [("current"%string,
                                VFloat (total_position_usd - new_position_size_usd));
                               ("new"%string, VFloat total_position_usd)] |}
  else Return (accept PositionLimitOK).

Definition check_leverage
    (st : Settings) (getenv : option Q) (session_value session_positions : Session)
    (strategy_id : string) (new_position_size_usd : Q)
  : RiskCheckResult :=
  let limits := _limits st in
  let portfolio_value := get_portfolio_value getenv session_value strategy_id in
  let current_positions := get_current_positions session_positions strategy_id None in
  let total_exposure_usd :=
    fold_left (fun total p => total + mark_price p * pos_amount p) current_positions 0 in
  let total_exposure_usd := total_exposure_usd + new_position_size_usd in
  let leverage :=
    if Qltb 0 portfolio_value then total_exposure_usd / portfolio_value else 0 in
  if Qltb (lim_max_leverage limits) leverage then
    {| approved := false;
       reason := LeverageTooHigh leverage (lim_max_leverage limits);
       details := Some [("leverage"%string, VFloat leverage);
                        ("exposure"%string, VFloat total_exposure_usd);
                        ("portfolio"%string, VFloat portfolio_value)] |}
  else accept (LeverageOK leverage).

Definition check_daily_loss_limit
    (getenv : option Q) (now : datetime) (session_pnl session_value : Session)
    (self : RiskManager) (strategy_id : string)
  : result RiskCheckResult :=
  let daily_pnl := calculate_daily_pnl now session_pnl strategy_id in
  let portfolio_value := get_portfolio_value getenv session_value strategy_id in
  if Qleb portfolio_value 0 then Return (reject InvalidPortfolioValue)
  else
    let daily_loss_pct := (daily_pnl / portfolio_value) * 100 in
    limit <- Py.bind (getattr self "daily_loss_limit_pct") as_float ;;
    if Qleb daily_loss_pct (- limit) then
      Return {| approved := false;
                reason := DailyLossLimitExceeded daily_loss_pct limit;
                details := Some [("daily_pnl"%string, VFloat daily_pnl);
                                 ("daily_pnl_pct"%string, VFloat daily_loss_pct)] |}
    else Return (accept DailyLossLimitOK).

(** What a call of [check_order] reads from outside the instance:
    the settings, the environment variable, the clock, and the store,
    [db i] being what the [i]-th session the call opens observes. *)
Record Env : Type := {
  settings : Settings;
  getenv_portfolio_value : option Q;
  utcnow : datetime;
  db : nat -> Session
}.

(** Continue with the next check only when this one approved. *)
Definition and_then (c : RiskCheckResult) (k : result RiskCheckResult)
  : result RiskCheckResult :=
  if approved c then k else Return c.

(** [check_order]: the outcome, and the instance as the call leaves it
    (the frequency check may reset the daily counts). *)
Definition check_order
    (env : Env) (self : RiskManager)
    (strategy_id symbol side : string) (amount price : Q) (order_type : string)
  : result RiskCheckResult * RiskManager :=
  match check_symbol_blacklist self symbol with
  | Raise e => (Raise e, self)
  | Return blacklist_check =>
      if negb (approved blacklist_check) then (Return blacklist_check, self)
      else
        let '(frequency_check, self) :=
          check_trade_frequency (settings env) (utcnow env) self symbol in
        (and_then frequency_check (
           daily_loss_check <-
             check_daily_loss_limit (getenv_portfolio_value env) (utcnow env)
               (db env 0%nat) (db env 1%nat) self strategy_id ;;
           and_then daily_loss_check (
           size_check <- check_order_size self amount price ;;
           and_then size_check (
           profit_check <- check_profit_viability (settings env) amount price ;;
           and_then profit_check (
           let order_size_usd := amount * price in
           position_check <-
             check_position_limit (db env 2%nat) self strategy_id symbol order_size_usd ;;
           and_then position_check (
           let leverage_check :=
             check_leverage (settings env) (getenv_portfolio_value env)
               (db env 3%nat) (db env 4%nat) strategy_id order_size_usd in
           and_then leverage_check (
           Return {| approved := true;
                     reason := AllRiskChecksPassed;
                     details := Some [("order_size_usd"%string, VFloat order_size_usd);
                                      ("symbol"%string, VStr symbol);
                                      ("side"%string, VStr side);
                                      ("order_type"%string, VStr order_type)] |})))))),
         self)
  end.

(** *** Vocabulary of the statements about the daily counts *)

(** The daily counts of the instance were last reset on the day of
    [now]. *)
Definition same_day (now : datetime) (self : RiskManager) : Prop :=
  exists d, last_reset_date self = Some d /\ date d = date now.

(** The instance after [record_trade] has been called for [symbol] at
    each of the times [times], in that order. *)
Definition trades (symbol : string) (times : list datetime) (self : RiskManager)
  : RiskManager :=
  fold_left (fun rm t => record_trade t rm symbol) times self.

End Risk.

(** ** JSON bodies returned by the exchange *)

Module Json.
Import Py.

#[local] Unset Elimination Schemes.
Inductive value : Type :=
| JNull
| JBool (b : bool)
| JNum (q : Q)
| JStr (s : string)
| JList (l : list value)
| JDict (d : list (string * value)).
#[local] Set Elimination Schemes.

(** Truth value of the Python object a JSON value decodes to. *)
Definition truthy (v : value) : bool :=
  match v with
  | JNull => false
  | JBool b => b
  | JNum q => negb (Qeqb q 0)
  | JStr s => truthy_str s
  | JList l => match l with [] => false | _ => true end
  | JDict d => match d with [] => false | _ => true end
  end.

(** [d.get(key)] on the pairs of a decoded object: the last binding of a
    repeated key is the one the decoder keeps. *)
Fixpoint lookup (key : string) (d : list (string * value)) : option value :=
  match d with
  | [] => None
  | (k, v) :: rest =>
      match lookup key rest with
      | Some v' => Some v'
      | None => if String.eqb k key then Some v else None
      end
  end.

(** [obj.get(key)]: [None] is [JNull]; a non-dict has no [get]. *)
Definition get (obj : value) (key : string) : result value :=
  match obj with
  | JDict d => Return (default JNull (lookup key d))
  | _ => Raise (AttributeError "get")
  end.

End Json.

(** ** pacifica_client.py *)

Module Client.
Import Py.
Local Open Scope Q_scope.

Definition tick_size_map : list (string * Q) :=
  [ ("BTC", 0.01); ("ETH", 0.01); ("SOL", 0.01); ("BNB", 0.01); ("ZEC", 0.01);
    ("LTC", 0.01); ("AAVE", 0.01); ("PAXG", 0.01); ("TAO", 0.01);
    ("HYPE", 0.001); ("LINK", 0.001); ("UNI", 0.001); ("AVAX", 0.001);
    ("SUI", 0.001);
    ("DOGE", 0.00001); ("XRP", 0.00001); ("ENA", 0.0001); ("VIRTUAL", 0.0001);
    ("FARTCOIN", 0.0001); ("ASTER", 0.0001); ("XPL", 0.0001); ("MON", 0.00001);
    ("PENGU", 0.00001); ("WLFI", 0.00001); ("LDO", 0.0001); ("CRV", 0.0001);
    ("2Z", 0.0001); ("PUMP", 0.00001);
    ("kPEPE", 0.000001); ("KPEPE", 0.000001); ("kBONK", 0.0001); ("KBONK", 0.0001)
  ]%string.

Definition lot_size_map : list (string * Q) :=
  [ ("BTC", 0.0001); ("ETH", 0.001); ("SOL", 0.01);
    ("HYPE", 0.1); ("ZEC", 0.01); ("BNB", 0.01); ("XRP", 1.0); ("PUMP", 1.0);
    ("AAVE", 0.01);
    ("ENA", 0.1); ("ASTER", 0.1); ("KBONK", 0.1); ("KPEPE", 0.1); ("LTC", 1.0);
    ("PAXG", 0.001); ("VIRTUAL", 0.1); ("SUI", 0.1); ("FARTCOIN", 0.1);
    ("TAO", 0.01); ("DOGE", 1.0); ("XPL", 1.0); ("AVAX", 0.1); ("LINK", 0.1);
    ("UNI", 1.0); ("WLFI", 1.0);
    ("PENGU", 1.0); ("2Z", 0.1); ("MON", 1.0); ("LDO", 0.1); ("CRV", 0.1)
  ]%string.

(** Lookup in a dict literal with distinct keys. *)
Fixpoint dict_lookup (key : string) (d : list (string * Q)) : option Q :=
  match d with
  | [] => None
  | (k, v) :: rest => if String.eqb k key then Some v else dict_lookup key rest
  end.

Definition get_tick_size (symbol : string) : Q :=
  let symbol_upper := upper symbol in
  match dict_lookup symbol_upper tick_size_map with
  | Some t => t
  | None => 0.0001
  end.

Definition get_lot_size (symbol : string) : Q :=
  let symbol_upper := upper symbol in
  match dict_lookup symbol_upper lot_size_map with
  | Some l => l
  | None => 1.0
  end.

(** [max(0, -int(math.floor(math.log10(step))))]. *)
Definition decimal_places (step : Q) : Z := Z.max 0 (- floor_log10 step).

Definition round_to_tick_size (price tick_size : Q) : Q :=
  if Qleb tick_size 0 then price
  else
    let places := decimal_places tick_size in
    let rounded := inject_Z (round_half_up (price / tick_size)) * tick_size in
    quantize rounded places.

Definition round_to_lot_size (amount lot_size : Q) : Q :=
  if Qleb lot_size 0 then amount
  else
    let places := decimal_places lot_size in
    let rounded := inject_Z (floor (amount / lot_size)) * lot_size in
    round rounded places.

(** [stop_loss is not None and stop_loss > 0]. *)
Definition given (x : option Q) : option Q :=
  match x with
  | Some v => if Qltb 0 v then Some v else None
  | None => None
  end.

Definition validate_tpsl
    (symbol side : string) (entry_price : Q) (stop_loss take_profit : option Q)
  : option Q * option Q :=
  match stop_loss, take_profit with
  | None, None => (None, None)
  | _, _ =>
      let tick_size := get_tick_size symbol in
      let is_long := String.eqb (lower side) "bid" in
      let validated_sl :=
        match given stop_loss with
        | Some stop_loss =>
            if is_long then
              if Qleb entry_price stop_loss then None
              else
                let validated_sl := round_to_tick_size stop_loss tick_size in
                if Qleb entry_price validated_sl
                then Some (round_to_tick_size (entry_price - tick_size) tick_size)
                else Some validated_sl
            else
              if Qleb stop_loss entry_price then None
              else
                let validated_sl := round_to_tick_size stop_loss tick_size in
                if Qleb validated_sl entry_price
                then Some (round_to_tick_size (entry_price + tick_size) tick_size)
                else Some validated_sl
        | None => None
        end in
      let validated_tp :=
        match given take_profit with
        | Some take_profit =>
            if is_long then
              if Qleb take_profit entry_price then None
              else
                let validated_tp := round_to_tick_size take_profit tick_size in
                if Qleb validated_tp entry_price
                then Some (round_to_tick_size (entry_price + tick_size) tick_size)
                else Some validated_tp
            else
              if Qleb entry_price take_profit then None
              else
                let validated_tp := round_to_tick_size take_profit tick_size in
                if Qleb entry_price validated_tp
                then Some (round_to_tick_size (entry_price - tick_size) tick_size)
                else Some validated_tp
        | None => None
        end in
      (validated_sl, validated_tp)
  end.

(** The client as [__init__] leaves it: what matters to the order and
    position calls is whether a keypair could be built. *)
Record PacificaClient : Type := {
  keypair : bool
}.

Record StopOrder : Type := {
  stop_price : Q;
  limit_price : Q
}.

(** The JSON payload of [POST /orders/create_market]. *)
Record Payload : Type := {
  pl_symbol : string;
  pl_side : string;
  pl_amount : Q;
  pl_reduce_only : bool;
  pl_slippage_percent : Q;
  pl_client_order_id : string;
  pl_stop_loss : option StopOrder;
  pl_take_profit : option StopOrder
}.

(** How an HTTP request ends: the 30 s (10 s for positions) timeout
    fires, the transport fails, or a response arrives, whose body
    [response.json()] decodes or rejects. *)
Inductive HttpOutcome : Type :=
| Timeout
| TransportError
| Response (status_code : Z) (json : result Json.value).

Definition is_hex (c : ascii) : bool :=
  let n := nat_of_ascii c in
  ((Nat.leb 48 n && Nat.leb n 57) || (Nat.leb 65 n && Nat.leb n 70)
   || (Nat.leb 97 n && Nat.leb n 102))%nat.

Fixpoint drop_hyphens (s : string) : string :=
  match s with
  | EmptyString => EmptyString
  | String c r => if Ascii.eqb c "-" then drop_hyphens r else String c (drop_hyphens r)
  end.

Fixpoint all_hex (s : string) : bool :=
  match s with
  | EmptyString => true
  | String c r => is_hex c && all_hex r
  end.

(** Whether [uuid.UUID(s)] accepts [s]: 32 hexadecimal digits once the
    hyphens are dropped. *)
Definition is_uuid (s : string) : bool :=
  let hex := drop_hyphens s in
  Nat.eqb (String.length hex) 32 && all_hex hex.

(** The stop and limit prices attached for a validated stop or target. *)
Definition stop_order (symbol side : string) (validated : option Q) : option StopOrder :=
  match given validated with
  | Some v =>
      let slippage := 0.001 in
      let limit_price :=
        if String.eqb (lower side) "bid" then v * (1 - slippage) else v * (1 + slippage) in
      let tick_size := get_tick_size symbol in
      Some {| stop_price := v; limit_price := round_to_tick_size limit_price tick_size |}
  | None => None
  end.

(** The payload [create_market_order] builds; [uuid4] is the identifier
    [uuid.uuid4()] would draw. *)
Definition market_order_payload
    (uuid4 : string) (symbol side : string) (amount : Q) (reduce_only : bool)
    (slippage_percent : Q) (client_order_id : option string)
    (stop_loss take_profit entry_price : option Q) : Payload :=
  let client_order_id :=
    match client_order_id with
    | Some c => if truthy_str c then (if is_uuid c then c else uuid4) else uuid4
    | None => uuid4
    end in
  let lot_size := get_lot_size symbol in
  let rounded_amount := round_to_lot_size amount lot_size in
  let '(validated_sl, validated_tp) :=
    match given stop_loss, given take_profit with
    | None, None => (None, None)
    | _, _ =>
        match entry_price with
        | None =>
            let tick_size := get_tick_size symbol in
            (option_map (fun v => round_to_tick_size v tick_size) (given stop_loss),
             option_map (fun v => round_to_tick_size v tick_size) (given take_profit))
        | Some entry_price => validate_tpsl symbol side entry_price stop_loss take_profit
        end
    end in
  {| pl_symbol := upper symbol;
     pl_side := lower side;
     pl_amount := rounded_amount;
     pl_reduce_only := reduce_only;
     pl_slippage_percent := slippage_percent;
     pl_client_order_id := client_order_id;
     pl_stop_loss := stop_order symbol side validated_sl;
     pl_take_profit := stop_order symbol side validated_tp |}.

(** [create_market_order]: [http] is the exchange answering the request. *)
Definition create_market_order
    (self : PacificaClient) (uuid4 : string) (http : Payload -> HttpOutcome)
    (symbol side : string) (amount : Q) (reduce_only : bool)
    (slippage_percent : Q) (client_order_id : option string)
    (stop_loss take_profit entry_price : option Q) : result Json.value :=
  if negb (keypair self) then Raise ValueError
  else
    let payload :=
      market_order_payload uuid4 symbol side amount reduce_only slippage_percent
        client_order_id stop_loss take_profit entry_price in
    match http payload with
    | Response status_code body =>
        if (status_code =? 200)%Z then
          result <- body ;;
          _ <- Json.get result "data" ;;
          Return result
        else Raise (Exception "Pacifica API error")
    | Timeout => Raise (Exception "Pacifica API timeout")
    | TransportError => Raise (Exception "transport error")
    end.

(** An entry of the list [get_positions] returns, with [amount] and
    [entry_price] as [float(...)] reads them. *)
Record ExchangePosition : Type := {
  xp_symbol : string;
  xp_side : string;
  xp_amount : Q;
  xp_entry_price : Q
}.

(** The decoded body of [GET /positions]: an object with [success] and
    [data], a bare list, or something else. *)
Inductive PositionsBody : Type :=
| BodyDict (success : bool) (data : option (list ExchangePosition))
| BodyList (data : list ExchangePosition)
| BodyOther.

Definition get_positions (self : PacificaClient) (http : result PositionsBody)
  : result PositionsBody :=
  if negb (keypair self) then Raise ValueError else http.

(** Truth value of an optional float: [if stop_loss:]. *)
Definition provided (x : option Q) : option Q :=
  match x with
  | Some v => if Qeqb v 0 then None else Some v
  | None => None
  end.

(** The JSON payload of [POST /positions/tpsl]. *)
Record TpslPayload : Type := {
  tpsl_symbol : string;
  tpsl_side : string;
  tpsl_stop_loss : option StopOrder;
  tpsl_take_profit : option StopOrder
}.

(** The entry [set_position_tpsl] adds to the payload for one level.  The
    side is compared as it is passed, not lower-cased. *)
Definition tpsl_level (side : string) (level : option Q) : option StopOrder :=
  match provided level with
  | Some v =>
      let slippage := 0.001 in
      let limit_price :=
        if String.eqb side "bid" then v * (1 - slippage) else v * (1 + slippage) in
      Some {| stop_price := v; limit_price := round limit_price 6 |}
  | None => None
  end.

(** The payload [set_position_tpsl] builds, or the [ValueError] it raises
    before building one. *)
Definition tpsl_payload
    (self : PacificaClient) (symbol side : string) (stop_loss take_profit : option Q)
  : result TpslPayload :=
  if negb (keypair self) then Raise ValueError
  else
    match provided stop_loss, provided take_profit with
    | None, None => Raise ValueError
    | _, _ =>
        Return {| tpsl_symbol := upper symbol;
                  tpsl_side := lower side;
                  tpsl_stop_loss := tpsl_level side stop_loss;
                  tpsl_take_profit := tpsl_level side take_profit |}
    end.

(** [set_position_tpsl]: [http] is the exchange answering the request. *)
Definition set_position_tpsl
    (self : PacificaClient) (http : TpslPayload -> HttpOutcome)
    (symbol side : string) (stop_loss take_profit : option Q) : result Json.value :=
  payload <- tpsl_payload self symbol side stop_loss take_profit ;;
  match http payload with
  | Response status_code body =>
      if (status_code =? 200)%Z then body
      else Raise (Exception "Pacifica API error")
  | Timeout => Raise (Exception "timeout")
  | TransportError => Raise (Exception "transport error")
  end.

End Client.

(** ** exposure_manager.py *)

Module Exposure.
Import Py.
Local Open Scope Q_scope.

Definition HIGH_LONG_EXPOSURE_THRESHOLD : Q := 0.7.
Definition SHORT_EXPOSURE_THRESHOLD : Q := -0.3.

(** The dictionary stored per symbol by [update_position]. *)
Record Entry : Type := {
  side : string;
  size : Q;
  entry_price : Q;
  value : Q
}.

Record ExposureManager : Type := {
  portfolio_value : Q;
  positions : gmap string Entry;
  net_exposure : Q;
  long_exposure : Q;
  short_exposure : Q;
  net_long : Q;
  long_pnl_pct : Q
}.

Definition __init__ (portfolio_value : Q) : ExposureManager := {|
  portfolio_value := portfolio_value;
  positions := ∅;
  net_exposure := 0;
  long_exposure := 0;
  short_exposure := 0;
  net_long := 0;
  long_pnl_pct := 0
|}.

(** One turn of the loop over [self.positions.values()]: the pair is
    [(long_exposure, short_exposure)]. *)
Definition add_position (position : Entry) (acc : Q * Q) : Q * Q :=
  if String.eqb (side position) "LONG"
  then (fst acc + value position, snd acc)
  else (fst acc, snd acc + value position).

Definition calculate_exposure (self : ExposureManager) : ExposureManager :=
  let '(long_exposure, short_exposure) :=
    map_fold (fun _ position acc => add_position position acc) (0, 0) (positions self) in
  let net_exposure := long_exposure - short_exposure in
  {| portfolio_value := portfolio_value self;
     positions := positions self;
     net_exposure := net_exposure;
     long_exposure := long_exposure;
     short_exposure := short_exposure;
     net_long :=
       if Qltb 0 (portfolio_value self)
       then net_exposure / portfolio_value self
       else net_long self;
     long_pnl_pct := long_pnl_pct self |}.

(** [check_thresholds] only writes log lines. *)
Definition check_thresholds (self : ExposureManager) : ExposureManager := self.

Definition update_position
    (self : ExposureManager) (symbol side : string) (size entry_price : Q)
  : ExposureManager :=
  let position_value := size * entry_price in
  let self :=
    {| portfolio_value := portfolio_value self;
       positions :=
         <[symbol := {| side := side; size := size; entry_price := entry_price;
                        value := position_value |}]> (positions self);
       net_exposure := net_exposure self;
       long_exposure := long_exposure self;
       short_exposure := short_exposure self;
       net_long := net_long self;
       long_pnl_pct := long_pnl_pct self |} in
  check_thresholds (calculate_exposure self).

Definition remove_position (self : ExposureManager) (symbol : string)
  : ExposureManager :=
  match positions self !! symbol with
  | Some _ =>
      calculate_exposure
        {| portfolio_value := portfolio_value self;
           positions := delete symbol (positions self);
           net_exposure := net_exposure self;
           long_exposure := long_exposure self;
           short_exposure := short_exposure self;
           net_long := net_long self;
           long_pnl_pct := long_pnl_pct self |}
  | None => self
  end.

Definition get_exposure_state (self : ExposureManager) : gmap string Q :=
  list_to_map
    [ ("net_exposure"%string, net_exposure self);
      ("long_exposure"%string, long_exposure self);
      ("short_exposure"%string, short_exposure self);
      ("net_long"%string, net_long self);
      ("long_pnl_pct"%string, long_pnl_pct self) ].

(** *** Vocabulary of the statements about the ledger *)

(** The instance with its [positions] replaced. *)
Definition with_positions (self : ExposureManager) (m : gmap string Entry)
  : ExposureManager :=
  {| portfolio_value := portfolio_value self;
     positions := m;
     net_exposure := net_exposure self;
     long_exposure := long_exposure self;
     short_exposure := short_exposure self;
     net_long := net_long self;
     long_pnl_pct := long_pnl_pct self |}.

(** The dictionary [update_position] stores for a position. *)
Definition entry (side0 : string) (size0 price0 : Q) : Entry :=
  {| side := side0; size := size0; entry_price := price0; value := size0 * price0 |}.

End Exposure.

(** ** hedge_trigger.py *)

Module Hedge.
Import Py.
Local Open Scope Q_scope.

Inductive HedgeAction : Type :=
| ACTIVATE_MR_SHORTS
| ACTIVATE_MR_LONGS
| NONE.

Record HedgeTrigger : Type := {
  profit_threshold : Q;
  high_exposure_threshold : Q;
  short_threshold : Q
}.

(** [HedgeTrigger()] with the default arguments. *)
Definition __init__ : HedgeTrigger := {|
  profit_threshold := 0.1;
  high_exposure_threshold := 0.7;
  short_threshold := 0.3
|}.

Definition evaluate (self : HedgeTrigger) (exposure_state : gmap string Q)
  : HedgeAction :=
  let long_pnl_pct := default 0 (exposure_state !! "long_pnl_pct"%string) in
  let net_long := default 0 (exposure_state !! "net_long"%string) in
  let short_exposure := default 0 (exposure_state !! "short_exposure"%string) in
  if Qltb (profit_threshold self) long_pnl_pct
     && Qltb (high_exposure_threshold self) net_long
  then ACTIVATE_MR_SHORTS
  else if Qltb (short_threshold self) short_exposure
  then ACTIVATE_MR_LONGS
  else NONE.

(** The placeholder circuit breaker returns its argument. *)
Definition add_circuit_breakers (self : HedgeTrigger) (hedge_action : HedgeAction)
  : HedgeAction := hedge_action.

End Hedge.

(** ** position_sizer.py *)

Module Sizer.
Import Py.
Local Open Scope Q_scope.

Record PositionSizer : Type := {
  account_balance : Q;
  max_positions_per_model : Z;
  max_models : Z
}.

(** [PositionSizer(account_balance)] with the default arguments. *)
Definition __init__ (account_balance : Q) : PositionSizer := {|
  account_balance := account_balance;
  max_positions_per_model := 20;
  max_models := 20
|}.

Definition calculate_position_size
    (self : PositionSizer) (risk_per_trade stop_loss_pct : Q) : Q :=
  if Qleb stop_loss_pct 0 then 0
  else
    let position_size_pct := max 0.005 (min risk_per_trade 0.03) in
    let position_size := (account_balance self * position_size_pct) / stop_loss_pct in
    position_size.

Definition get_max_positions (self : PositionSizer) : Z :=
  (max_positions_per_model self * max_models self)%Z.

End Sizer.

(** ** regime_detector.py *)

Module Regime.
Import Py.
Local Open Scope Q_scope.

Inductive MarketRegime : Type :=
| BULL
| BEAR
| SIDEWAYS.

(** The [close] of a candle as [nexwave.db.queries.get_candles] builds it
    from the column: [float(row[5]) if row[5] else None]. *)
Definition close_of (column : option Q) : option Q :=
  match column with
  | Some v => if Qeqb v 0 then None else Some v
  | None => None
  end.

(** [RegimeDetector.get_candles], reduced to the [close] of each candle:
    [rows] is the [close] column of the rows the query returns, newest
    first, or [None] when the session or the query raises. *)
Definition get_candles (rows : option (list (option Q))) : list (option Q) :=
  match rows with
  | Some l => rev (map close_of l)
  | None => []
  end.

(** [l[-n:]] for [n > 0]. *)
Definition last_n {A} (n : nat) (l : list A) : list A :=
  skipn (length l - n) l.

(** The floats of a list, or the [TypeError] the first [None] causes. *)
Fixpoint floats (data : list (option Q)) : result (list Q) :=
  match data with
  | [] => Return []
  | Some v :: rest => vs <- floats rest ;; Return (v :: vs)
  | None :: _ => Raise TypeError
  end.

(** [statistics.mean]. *)
Definition mean (data : list (option Q)) : result Q :=
  match data with
  | [] => Raise (Exception "StatisticsError")
  | _ =>
      vs <- floats data ;;
      Return (sum vs / inject_Z (Z.of_nat (length vs)))
  end.

Definition detect_regime (rows : option (list (option Q))) : result MarketRegime :=
  let candles := get_candles rows in
  if (length candles <? 50)%nat then Return SIDEWAYS
  else
    let closes := candles in
    ma_20 <- mean (last_n 20 closes) ;;
    ma_50 <- mean (last_n 50 closes) ;;
    if Qltb ma_50 ma_20 then Return BULL
    else if Qltb ma_20 ma_50 then Return BEAR
    else Return SIDEWAYS.

End Regime.

(** ** engine.py *)

Module Engine.
Import Py.
Local Open Scope Q_scope.

(** Modelled from the spec: the enumeration [SignalType] of
    [nexwave/strategies/base_strategy.py], which is not among the sources.
    The spec gives [signal_type] the four values [buy], [sell],
    [close_long], [close_short]; they are the keys of [side_map]. *)
Inductive SignalType : Type :=
| BUY
| SELL
| CLOSE_LONG
| CLOSE_SHORT.

(** [signal_type.value]. *)
Definition value (t : SignalType) : string :=
  match t with
  | BUY => "buy"
  | SELL => "sell"
  | CLOSE_LONG => "close_long"
  | CLOSE_SHORT => "close_short"
  end.

(** Modelled from the spec: the record [TradingSignal] of the same
    missing module, with the fields the engine reads. *)
Record TradingSignal : Type := {
  signal_type : SignalType;
  symbol : string;
  price : Q;
  amount : Q;
  stop_loss : option Q;
  take_profit : option Q;
  confidence : Q
}.

Record TradingEngine : Type := {
  strategy_id : string;
  paper_trading : bool;
  portfolio_value : Q;
  risk_manager : Risk.RiskManager;
  exposure_manager : Exposure.ExposureManager;
  hedge_trigger : Hedge.HedgeTrigger;
  pacifica_client : option Client.PacificaClient
}.

(** [TradingEngine(strategy_id, paper_trading, portfolio_value)]; the
    client is what [connect] managed to build. *)
Definition __init__
    (strategy_id : string) (paper_trading : bool) (portfolio_value : Q)
    (client : option Client.PacificaClient) : TradingEngine := {|
  strategy_id := strategy_id;
  paper_trading := paper_trading;
  portfolio_value := portfolio_value;
  risk_manager := Risk.__init__;
  exposure_manager := Exposure.__init__ portfolio_value;
  hedge_trigger := Hedge.__init__;
  pacifica_client := client
|}.

Definition with_risk_manager (self : TradingEngine) (rm : Risk.RiskManager)
  : TradingEngine :=
  {| strategy_id := strategy_id self;
     paper_trading := paper_trading self;
     portfolio_value := portfolio_value self;
     risk_manager := rm;
     exposure_manager := exposure_manager self;
     hedge_trigger := hedge_trigger self;
     pacifica_client := pacifica_client self |}.

Definition with_exposure_manager (self : TradingEngine) (em : Exposure.ExposureManager)
  : TradingEngine :=
  {| strategy_id := strategy_id self;
     paper_trading := paper_trading self;
     portfolio_value := portfolio_value self;
     risk_manager := risk_manager self;
     exposure_manager := em;
     hedge_trigger := hedge_trigger self;
     pacifica_client := pacifica_client self |}.

Definition side_map : list (string * string) :=
  [ ("buy", "bid"); ("sell", "ask"); ("close_long", "ask"); ("close_short", "bid") ]%string.

Fixpoint side_map_get (key : string) (d : list (string * string)) (dflt : string)
  : string :=
  match d with
  | [] => dflt
  | (k, v) :: rest => if String.eqb k key then v else side_map_get key rest dflt
  end.

(** The store as the block that saves the order finds it: whether the
    commit of the order goes through, what the lookup of the position
    observes, and whether the commit of a new position goes through. *)
Record Store : Type := {
  order_commit : bool;
  position_rows : Session;
  position_commit : bool
}.

(** Everything one call of [create_order] obtains from outside the
    engine: what the risk checks read, the identifiers [uuid.uuid4()]
    draws (in the order they are drawn), the exchange answering the order
    request, the store, and the clock when the trade is recorded. *)
Record World : Type := {
  risk_env : Risk.Env;
  uuid4 : nat -> string;
  exchange : Client.Payload -> Client.HttpOutcome;
  store : Store;
  utcnow_after : datetime
}.

(** The text of the [order_id] column. *)
Inductive OrderId : Type :=
| ExchangeId (order_id : Json.value)
| FailedId (client_order_id : string).

Record OrderRow : Type := {
  or_order_id : OrderId;
  or_client_order_id : string;
  or_strategy_id : string;
  or_symbol : string;
  or_side : string;
  or_order_type : string;
  or_amount : Q;
  or_price : Q;
  or_filled_amount : Q;
  or_status : string
}.

(** What a call of [create_order] does outside the engine: the order
    requests it sends, the protective orders it asks to attach, and the
    rows it commits. *)
Record Effects : Type := {
  requests : list Client.Payload;
  tpsl_requests : list (string * string * option Q * option Q);
  orders : list OrderRow;
  new_positions : list Position
}.

Definition no_effects : Effects :=
  {| requests := []; tpsl_requests := []; orders := []; new_positions := [] |}.

(** [x and x > 0] on an optional float. *)
Definition positive (x : option Q) : option Q := Client.given x.

(** Truth value of an optional float. *)
Definition truthy_float (x : option Q) : bool :=
  match x with
  | Some v => negb (Qeqb v 0)
  | None => false
  end.

(** The exchange order id [create_order] extracts from the response. *)
Definition extract_order_id (response : Json.value) : Json.value :=
  match response with
  | Json.JDict d =>
      if Json.truthy (default Json.JNull (Json.lookup "success" d)) then
        match Json.lookup "data" d with
        | None => Json.JNull
        | Some (Json.JDict data) => default Json.JNull (Json.lookup "order_id" data)
        | Some _ => default Json.JNull (Json.lookup "order_id" d)
        end
      else Json.JNull
  | _ => Json.JNull
  end.

(** The rows the save block commits. *)
Definition save_order
    (self : TradingEngine) (st : Store) (now : datetime) (signal : TradingSignal)
    (order_side client_order_id : string) (rounded_amount : Q)
    (pacifica_order_id : Json.value) (is_closing : bool)
  : list OrderRow * list Position :=
  if negb (order_commit st) then ([], [])
  else
    let order :=
      {| or_order_id :=
           if Json.truthy pacifica_order_id then ExchangeId pacifica_order_id
           else FailedId client_order_id;
         or_client_order_id := client_order_id;
         or_strategy_id := strategy_id self;
         or_symbol := symbol signal;
         or_side := order_side;
         or_order_type := "market";
         or_amount := rounded_amount;
         or_price := price signal;
         or_filled_amount := 0;
         or_status := if Json.truthy pacifica_order_id then "submitted" else "failed" |} in
    if Json.truthy pacifica_order_id && negb is_closing then
      match position_rows st with
      | Some rows =>
          match
            List.filter
              (fun p => String.eqb (pos_strategy_id p) (strategy_id self)
                        && String.eqb (pos_symbol p) (symbol signal))
              rows
          with
          | [] =>
              if position_commit st then
                ([order],
                 [ {| pos_strategy_id := strategy_id self;
                      pos_symbol := symbol signal;
                      pos_side := order_side;
                      pos_amount := rounded_amount;
                      pos_entry_price := price signal;
                      pos_current_price := Some (price signal);
                      pos_unrealized_pnl := Some 0;
                      pos_realized_pnl := 0;
                      pos_opened_at := now;
                      pos_updated_at := now;
                      pos_synced := false |} ])
              else ([order], [])
          | _ => ([order], [])
          end
      | None => ([order], [])
      end
    else ([order], []).

(** [create_order]: the returned client order id, the risk manager as
    the call leaves it, and the effects. *)
Definition create_order (self : TradingEngine) (w : World) (signal : TradingSignal)
  : option string * Risk.RiskManager * Effects :=
  let order_side := side_map_get (value (signal_type signal)) side_map "bid" in
  let '(risk_check, rm) :=
    Risk.check_order (risk_env w) (risk_manager self) (strategy_id self)
      (symbol signal) order_side (amount signal) (price signal) "market" in
  match risk_check with
  | Raise _ => (None, rm, no_effects)
  | Return risk_check =>
      if negb (Risk.approved risk_check) then (None, rm, no_effects)
      else
        let client_order_id := uuid4 w 0%nat in
        let is_closing :=
          match signal_type signal with
          | CLOSE_LONG | CLOSE_SHORT => true
          | _ => false
          end in
        if paper_trading self then (Some client_order_id, rm, no_effects)
        else
          match pacifica_client self with
          | None => (None, rm, no_effects)
          | Some client =>
              let rounded_amount := round (amount signal) 2 in
              let stop_loss := if is_closing then None else positive (stop_loss signal) in
              let take_profit :=
                if is_closing then None else positive (take_profit signal) in
              let sent :=
                if Client.keypair client then
                  [ Client.market_order_payload (uuid4 w 1%nat) (symbol signal) order_side
                      rounded_amount is_closing 0.5 (Some client_order_id)
                      stop_loss take_profit (Some (price signal)) ]
                else [] in
              match
                Client.create_market_order client (uuid4 w 1%nat) (exchange w)
                  (symbol signal) order_side rounded_amount is_closing 0.5
                  (Some client_order_id) stop_loss take_profit (Some (price signal))
              with
              | Raise _ =>
                  (None, rm,
                   {| requests := sent; tpsl_requests := []; orders := [];
                      new_positions := [] |})
              | Return response =>
                  let pacifica_order_id := extract_order_id response in
                  let attach :=
                    if negb is_closing && Json.truthy pacifica_order_id
                       && (truthy_float (Engine.stop_loss signal)
                           || truthy_float (Engine.take_profit signal))
                    then [ (symbol signal, order_side, Engine.stop_loss signal,
                            Engine.take_profit signal) ]
                    else [] in
                  let '(saved_orders, saved_positions) :=
                    save_order self (store w) (Risk.utcnow (risk_env w)) signal order_side
                      client_order_id rounded_amount pacifica_order_id is_closing in
                  (Some client_order_id, rm,
                   {| requests := sent; tpsl_requests := attach;
                      orders := saved_orders; new_positions := saved_positions |})
              end
          end
  end.

(** One turn of a loop of [process_signals] over a strategy: the symbol
    of the strategy, whether market data was found, the signal the
    strategy returns (or the exception it raises), and the world the
    order is created in. *)
Record Turn : Type := {
  turn_symbol : string;
  market_data : bool;
  generate_signal : result (option TradingSignal);
  world : World
}.

(** The body of the loop over the momentum strategies; [record] tells
    whether the loop records the trade (the hedge loops do not). *)
Definition process_turn (record : bool) (acc : TradingEngine * list Effects) (t : Turn)
  : TradingEngine * list Effects :=
  let '(self, log) := acc in
  if negb (market_data t) then (self, log)
  else
    match generate_signal t with
    | Return (Some signal) =>
        let '(order_id, rm, eff) := create_order self (world t) signal in
        let self := with_risk_manager self rm in
        match order_id with
        | Some id =>
            if truthy_str id then
              let em :=
                Exposure.update_position (exposure_manager self) (symbol signal)
                  (value (signal_type signal)) (amount signal) (price signal) in
              let self := with_exposure_manager self em in
              let self :=
                if record then
                  with_risk_manager self
                    (Risk.record_trade (utcnow_after (world t)) (risk_manager self)
                       (turn_symbol t))
                else self in
              (self, log ++ [eff])
            else (self, log ++ [eff])
        | None => (self, log ++ [eff])
        end
    | Return None => (self, log)
    | Raise _ => (self, log)
    end.

(** [process_signals] once the regime detection has returned (its result
    is only logged): the momentum loop, the hedge decision, and the loop
    over the hedge family the decision selects. *)
Definition process_signals
    (self : TradingEngine) (momentum mr_long_hedge mr_short_hedge : list Turn)
  : TradingEngine * list Effects :=
  let '(self, log) := fold_left (process_turn true) momentum (self, []) in
  let exposure_state := Exposure.get_exposure_state (exposure_manager self) in
  let hedge_action := Hedge.evaluate (hedge_trigger self) exposure_state in
  let hedge_action := Hedge.add_circuit_breakers (hedge_trigger self) hedge_action in
  match hedge_action with
  | Hedge.ACTIVATE_MR_LONGS => fold_left (process_turn false) mr_long_hedge (self, log)
  | Hedge.ACTIVATE_MR_SHORTS => fold_left (process_turn false) mr_short_hedge (self, log)
  | Hedge.NONE => (self, log)
  end.

(** *** Reconciliation *)

(** The counts of the closing log line of [sync_positions_from_pacifica]. *)
Record SyncReport : Type := {
  active : nat;
  updated_count : nat;
  created_count : nat;
  deleted_count : nat
}.

(** How a run ends: it returns early without touching the store, it
    raises (the exception is logged and nothing is committed), or it
    commits the table and logs the report. *)
Inductive SyncOutcome : Type :=
| Skipped
| Failed (e : exn)
| Synced (table : list Position) (report : SyncReport).

Definition exchange_positions (response : Client.PositionsBody)
  : list Client.ExchangePosition :=
  match response with
  | Client.BodyDict success data =>
      if success then match data with Some l => l | None => [] end else []
  | Client.BodyList l => l
  | Client.BodyOther => []
  end.

(** [{p.get('symbol') for p in pacifica_positions if float(p.get('amount', 0)) > 0}]. *)
Definition pacifica_symbols (pacifica_positions : list Client.ExchangePosition)
  : gset string :=
  list_to_set
    (map Client.xp_symbol
         (List.filter (fun p => Qltb 0 (Client.xp_amount p)) pacifica_positions)).

Definition is_row (self : TradingEngine) (symbol : string) (p : Position) : bool :=
  String.eqb (pos_strategy_id p) (strategy_id self) && String.eqb (pos_symbol p) symbol.

(** The session between the two loops and the commit.  The session
    factory is built with [autoflush=False], so every [SELECT] reads the
    table as it was when the session opened; [loaded] are those rows as
    objects, with the attribute writes made so far, and [added] the
    objects passed to [session.add]. *)
Record Pending : Type := {
  loaded : list Position;
  added : list Position;
  n_updated : nat;
  n_created : nat
}.

Definition overwrite (now : datetime) (x : Client.ExchangePosition) (p : Position)
  : Position :=
  {| pos_strategy_id := pos_strategy_id p;
     pos_symbol := pos_symbol p;
     pos_side := Client.xp_side x;
     pos_amount := Client.xp_amount x;
     pos_entry_price := Client.xp_entry_price x;
     pos_current_price := pos_current_price p;
     pos_unrealized_pnl := pos_unrealized_pnl p;
     pos_realized_pnl := pos_realized_pnl p;
     pos_opened_at := pos_opened_at p;
     pos_updated_at := now;
     pos_synced := pos_synced p |}.

Definition new_position (self : TradingEngine) (now : datetime)
    (x : Client.ExchangePosition) : Position :=
  {| pos_strategy_id := strategy_id self;
     pos_symbol := Client.xp_symbol x;
     pos_side := Client.xp_side x;
     pos_amount := Client.xp_amount x;
     pos_entry_price := Client.xp_entry_price x;
     pos_current_price := Some (Client.xp_entry_price x);
     pos_unrealized_pnl := Some 0;
     pos_realized_pnl := 0;
     pos_opened_at := now;
     pos_updated_at := now;
     pos_synced := true |}.

(** The body of the loop over [pacifica_positions]; [table] is the
    table as the session reads it. *)
Definition sync_one
    (self : TradingEngine) (now : datetime) (table : list Position)
    (st : Pending) (pac_pos : Client.ExchangePosition) : result Pending :=
  let symbol := Client.xp_symbol pac_pos in
  if Qeqb (Client.xp_amount pac_pos) 0 then Return st
  else
    match List.filter (is_row self symbol) table with
    | [] =>
        Return {| loaded := loaded st;
                  added := added st ++ [new_position self now pac_pos];
                  n_updated := n_updated st;
                  n_created := S (n_created st) |}
    | [_] =>
        Return {| loaded :=
                    map (fun p => if is_row self symbol p then overwrite now pac_pos p else p)
                        (loaded st);
                  added := added st;
                  n_updated := S (n_updated st);
                  n_created := n_created st |}
    | _ => Raise MultipleResultsFound
    end.

Fixpoint sync_loop
    (self : TradingEngine) (now : datetime) (table : list Position)
    (st : Pending) (pacifica_positions : list Client.ExchangePosition)
  : result Pending :=
  match pacifica_positions with
  | [] => Return st
  | pac_pos :: rest =>
      st <- sync_one self now table st pac_pos ;;
      sync_loop self now table st rest
  end.

(** A row the first loop passes to [session.delete]. *)
Definition is_ghost (self : TradingEngine) (symbols : gset string) (p : Position)
  : bool :=
  String.eqb (pos_strategy_id p) (strategy_id self)
  && negb (bool_decide (pos_symbol p ∈ symbols)).

(** [sync_positions_from_pacifica]: [http] is the answer to the
    positions request and [session] the table the session reads, or
    [None] when the session or its commit raises. *)
Definition sync_positions_from_pacifica
    (self : TradingEngine) (now : datetime)
    (http : result Client.PositionsBody) (session : Session) : SyncOutcome :=
  match pacifica_client self with
  | None => Skipped
  | Some client =>
      if negb (Client.keypair client) then Skipped
      else
        match Client.get_positions client http with
        | Raise e => Failed e
        | Return response =>
            let pacifica_positions := exchange_positions response in
            match session with
            | None => Failed (Exception "store")
            | Some table =>
                let symbols := pacifica_symbols pacifica_positions in
                let deleted_count := length (List.filter (is_ghost self symbols) table) in
                match
                  sync_loop self now table
                    {| loaded := table; added := []; n_updated := 0; n_created := 0 |}
                    pacifica_positions
                with
                | Raise e => Failed e
                | Return st =>
                    if bool_decide (NoDup (map pos_symbol (added st))) then
                      Synced
                        (List.filter (fun p => negb (is_ghost self symbols p)) (loaded st)
                         ++ added st)
                        {| active := length pacifica_positions;
                           updated_count := n_updated st;
                           created_count := n_created st;
                           deleted_count := deleted_count |}
                    else Failed IntegrityError
                end
            end
        end
  end.

(** *** Marking positions to market *)

(** The three assignments [update_positions] makes on a row, for a
    market price [current_price] read at [now]. *)
Definition mark_to_market (now : datetime) (current_price : Q) (position : Position)
  : Position :=
  let unrealized_pnl :=
    if String.eqb (pos_side position) "ask"
    then (pos_entry_price position - current_price) * pos_amount position
    else (current_price - pos_entry_price position) * pos_amount position in
  {| pos_strategy_id := pos_strategy_id position;
     pos_symbol := pos_symbol position;
     pos_side := pos_side position;
     pos_amount := pos_amount position;
     pos_entry_price := pos_entry_price position;
     pos_current_price := Some current_price;
     pos_unrealized_pnl := Some unrealized_pnl;
     pos_realized_pnl := pos_realized_pnl position;
     pos_opened_at := pos_opened_at position;
     pos_updated_at := now;
     pos_synced := pos_synced position |}.

(** The loop of [update_positions] over the rows of the strategy, the
    other rows of the table staying in place.  [get_market_data symbol] is
    the [price] of the dictionary [get_market_data] returns for the
    symbol, or [None] when it returns [None]; [utcnow i] is the clock when
    the [i]-th row of the strategy is reached. *)
Fixpoint update_rows
    (self : TradingEngine) (utcnow : nat -> datetime)
    (get_market_data : string -> option Q) (i : nat) (table : list Position)
  : list Position :=
  match table with
  | [] => []
  | position :: rest =>
      if String.eqb (pos_strategy_id position) (strategy_id self) then
        let position :=
          match get_market_data (pos_symbol position) with
          | None => position
          | Some current_price =>
              if Qleb current_price 0 then position
              else mark_to_market (utcnow i) current_price position
          end in
        position :: update_rows self utcnow get_market_data (S i) rest
      else position :: update_rows self utcnow get_market_data i rest
  end.

(** [update_positions]: the table it commits, or [None] when it commits
    nothing (the strategy has no row, or the session raises). *)
Definition update_positions
    (self : TradingEngine) (utcnow : nat -> datetime)
    (get_market_data : string -> option Q) (session : Session)
  : option (list Position) :=
  match session with
  | None => None
  | Some table =>
      match List.filter (fun p => String.eqb (pos_strategy_id p) (strategy_id self)) table with
      | [] => None
      | _ => Some (update_rows self utcnow get_market_data 0 table)
      end
  end.

(** *** Vocabulary of the statements about submissions *)

(** The exchange answered with an explicit success carrying an order id:
    status 200, an object body whose [success] is true, and an order id
    where [create_order] looks for it. *)
Definition explicit_success (answer : Client.HttpOutcome) : Prop :=
  exists d,
    answer = Client.Response 200 (Return (Json.JDict d))
    /\ Json.truthy (default Json.JNull (Json.lookup "success" d)) = true
    /\ Json.truthy (extract_order_id (Json.JDict d)) = true.

(** *** Vocabulary of the statements about reconciliation *)

(** An entry the exchange reports as an open position: its amount is
    positive. *)
Definition reported (x : Client.ExchangePosition) : bool :=
  Qltb 0 (Client.xp_amount x).

(** The exchange's answer is a set of positions: no amount is negative
    and no symbol is reported twice. *)
Definition exchange_set (xs : list Client.ExchangePosition) : Prop :=
  Forall (fun x => 0 <= Client.xp_amount x) xs
  /\ NoDup (map Client.xp_symbol (List.filter reported xs)).

(** The rows of this engine's strategy for a symbol. *)
Definition rows_of (self : TradingEngine) (symbol : string) (table : list Position)
  : list Position :=
  List.filter (is_row self symbol) table.

(** The constraint [uq_positions_strategy_symbol], for this strategy. *)
Definition unique_rows (self : TradingEngine) (table : list Position) : Prop :=
  forall symbol, (length (rows_of self symbol table) <= 1)%nat.

(** The row with its [updated_at] set to [now] when it belongs to this
    strategy. *)
Definition touch (self : TradingEngine) (now : datetime) (p : Position) : Position :=
  if String.eqb (pos_strategy_id p) (strategy_id self) then
    {| pos_strategy_id := pos_strategy_id p;
       pos_symbol := pos_symbol p;
       pos_side := pos_side p;
       pos_amount := pos_amount p;
       pos_entry_price := pos_entry_price p;
       pos_current_price := pos_current_price p;
       pos_unrealized_pnl := pos_unrealized_pnl p;
       pos_realized_pnl := pos_realized_pnl p;
       pos_opened_at := pos_opened_at p;
       pos_updated_at := now;
       pos_synced := pos_synced p |}
  else p.

(** The entries the second loop does not skip. *)
Definition nonzero (x : Client.ExchangePosition) : bool :=
  negb (Qeqb (Client.xp_amount x) 0).

(** The write the second loop makes on a loaded row for entry [x]. *)
Definition write (self : TradingEngine) (now : datetime)
    (p : Position) (x : Client.ExchangePosition) : Position :=
  if nonzero x && is_row self (Client.xp_symbol x) p then overwrite now x p else p.

(** An entry for which the second loop finds no row, and one for which
    it finds a row. *)
Definition fresh (self : TradingEngine) (table : list Position)
    (x : Client.ExchangePosition) : bool :=
  nonzero x
  && match rows_of self (Client.xp_symbol x) table with [] => true | _ => false end.

Definition known (self : TradingEngine) (table : list Position)
    (x : Client.ExchangePosition) : bool :=
  nonzero x
  && match rows_of self (Client.xp_symbol x) table with [] => false | _ => true end.

(** The table and the report of a run that commits, in closed form:
    the rows that are not ghosts, each with the writes of the entries for
    its symbol, followed by a new row per entry without a row. *)
Definition synced_table (self : TradingEngine) (now : datetime)
    (table : list Position) (xs : list Client.ExchangePosition) : list Position :=
  List.filter (fun p => negb (is_ghost self (pacifica_symbols xs) p))
    (map (fun p => fold_left (write self now) xs p) table)
  ++ map (new_position self now) (List.filter (fresh self table) xs).

Definition synced_report (self : TradingEngine)
    (table : list Position) (xs : list Client.ExchangePosition) : SyncReport :=
  {| active := length xs;
     updated_count := length (List.filter (known self table) xs);
     created_count := length (List.filter (fresh self table) xs);
     deleted_count := length (List.filter (is_ghost self (pacifica_symbols xs)) table) |}.

(** *** Vocabulary of the statements about order requests *)

(** [is_closing], [order_side] and the request of [create_order], as
    functions of the signal. *)
Definition is_closing (signal : TradingSignal) : bool :=
  match signal_type signal with
  | CLOSE_LONG | CLOSE_SHORT => true
  | _ => false
  end.

Definition order_side (signal : TradingSignal) : string :=
  side_map_get (value (signal_type signal)) side_map "bid".

Definition request_of (w : World) (signal : TradingSignal) : Client.Payload :=
  Client.market_order_payload (uuid4 w 1%nat) (symbol signal) (order_side signal)
    (round (amount signal) 2) (is_closing signal) 0.5 (Some (uuid4 w 0%nat))
    (if is_closing signal then None else positive (stop_loss signal))
    (if is_closing signal then None else positive (take_profit signal))
    (Some (price signal)).

(** *** Vocabulary of the statements about stored rows *)

(** A row of this engine's strategy, and a row of another one. *)
Definition own (self : TradingEngine) (p : Position) : bool :=
  String.eqb (pos_strategy_id p) (strategy_id self).

Definition foreign (self : TradingEngine) (p : Position) : bool := negb (own self p).

(** The columns of the unique constraint. *)
Definition key (p : Position) : string * string := (pos_strategy_id p, pos_symbol p).

(** [q] holds what [p] holds: the columns [update_positions] never
    writes are equal. *)
Definition same_holding (p q : Position) : Prop :=
  pos_strategy_id q = pos_strategy_id p
  /\ pos_symbol q = pos_symbol p
  /\ pos_side q = pos_side p
  /\ pos_amount q = pos_amount p
  /\ pos_entry_price q = pos_entry_price p
  /\ pos_realized_pnl q = pos_realized_pnl p
  /\ pos_opened_at q = pos_opened_at p
  /\ pos_synced q = pos_synced p.

(** The market data has a positive price for the symbol of the row. *)
Definition priced (get_market_data : string -> option Q) (p : Position) : Prop :=
  exists current_price,
    get_market_data (pos_symbol p) = Some current_price /\ 0 < current_price.

(** The row with its [updated_at] replaced. *)
Definition with_updated_at (now : datetime) (p : Position) : Position :=
  {| pos_strategy_id := pos_strategy_id p;
     pos_symbol := pos_symbol p;
     pos_side := pos_side p;
     pos_amount := pos_amount p;
     pos_entry_price := pos_entry_price p;
     pos_current_price := pos_current_price p;
     pos_unrealized_pnl := pos_unrealized_pnl p;
     pos_realized_pnl := pos_realized_pnl p;
     pos_opened_at := pos_opened_at p;
     pos_updated_at := now;
     pos_synced := pos_synced p |}.

(** *** How the engine's bookkeeping is counted *)


End Engine.

(** ** Concrete inputs used by the examples and witnesses below *)

Module Scenario.
Import Py.
Local Open Scope Q_scope.

(** A [RiskManager] on which a caller has bound the five attributes the
    checks read from the instance, with the values of [st]. *)
Definition with_limits (st : Settings) : Risk.RiskManager :=
  {| Risk.last_trade_time := ∅;
     Risk.daily_trade_count := ∅;
     Risk.last_reset_date := None;
     Risk.instance_dict :=
       list_to_map
         [ ("symbol_blacklist"%string, VSet (Risk.parse_blacklist (symbol_blacklist st)));
           ("min_order_size_usd"%string, VFloat (min_order_size_usd st));
           ("max_order_size_usd"%string, VFloat (max_order_size_usd st));
           ("max_position_size_usd"%string, VFloat (max_position_size_usd st));
           ("daily_loss_limit_pct"%string, VFloat (daily_loss_limit_pct st)) ] |}.

(** 2023-11-14 22:13:20 UTC. *)
Definition t0 : datetime := 1700000000000000%Z.

(** Default settings, [PORTFOLIO_VALUE] unset, every session raising. *)
Definition store_down : Risk.Env :=
  {| Risk.settings := default_settings;
     Risk.getenv_portfolio_value := None;
     Risk.utcnow := t0;
     Risk.db := fun _ => None |}.

(** Default settings over an empty [positions] table. *)
Definition store_empty : Risk.Env :=
  {| Risk.settings := default_settings;
     Risk.getenv_portfolio_value := None;
     Risk.utcnow := t0;
     Risk.db := fun _ => Some [] |}.

(** An exposure snapshot with [net_long = 0.8] and [long_pnl_pct = 0.15]. *)
Definition winning_longs : gmap string Q :=
  list_to_map
    [ ("net_exposure"%string, 80000); ("long_exposure"%string, 80000);
      ("short_exposure"%string, 0); ("net_long"%string, 0.8);
      ("long_pnl_pct"%string, 0.15) ].

Definition uuid : string := "6f1c2a9e-3b7d-4c58-9a41-0d2e5f7b8c13".

(** A live engine with a usable client, whose risk manager has the limit
    attributes bound. *)
Definition live_engine : Engine.TradingEngine :=
  Engine.with_risk_manager
    (Engine.__init__ "s1" false 100000 (Some {| Client.keypair := true |}))
    (with_limits default_settings).

(** The exchange answering 200 with an order id. *)
Definition accepted : Client.HttpOutcome :=
  Client.Response 200
    (Return (Json.JDict [ ("success"%string, Json.JBool true);
                          ("data"%string, Json.JDict [("order_id"%string, Json.JNum 42)]) ])).

(** The exchange answering 200 with a body that reports a failure. *)
Definition refused : Client.HttpOutcome :=
  Client.Response 200
    (Return (Json.JDict [ ("success"%string, Json.JBool false);
                          ("error"%string, Json.JStr "insufficient margin") ])).

Definition world_of (answer : Client.HttpOutcome) : Engine.World :=
  {| Engine.risk_env := store_empty;
     Engine.uuid4 := fun _ => uuid;
     Engine.exchange := fun _ => answer;
     Engine.store :=
       {| Engine.order_commit := true;
          Engine.position_rows := Some [];
          Engine.position_commit := true |};
     Engine.utcnow_after := (t0 + 2000000)%Z |}.

(** A buy of 999.996 DOGE at 0.1. *)
Definition buy_doge : Engine.TradingSignal :=
  {| Engine.signal_type := Engine.BUY;
     Engine.symbol := "DOGE";
     Engine.price := 0.1;
     Engine.amount := 999.996;
     Engine.stop_loss := None;
     Engine.take_profit := None;
     Engine.confidence := 0.8 |}.


Definition turn_of (answer : Client.HttpOutcome) : Engine.Turn :=
  {| Engine.turn_symbol := "DOGE";
     Engine.market_data := true;
     Engine.generate_signal := Return (Some buy_doge);
     Engine.world := world_of answer |}.

(** The reconciliation scenario: locally BTC 1 and SOL 5; on the
    exchange ETH 2 at 3000 and SOL 7 at 150. *)
Definition local_row (symbol : string) (amount : Q) : Position :=
  {| pos_strategy_id := "s1";
     pos_symbol := symbol;
     pos_side := "bid";
     pos_amount := amount;
     pos_entry_price := 100;
     pos_current_price := Some 101;
     pos_unrealized_pnl := Some 1;
     pos_realized_pnl := 0;
     pos_opened_at := (t0 - 1000000)%Z;
     pos_updated_at := (t0 - 1000000)%Z;
     pos_synced := false |}.

Definition exchange_entry (symbol : string) (amount entry_price : Q)
  : Client.ExchangePosition :=
  {| Client.xp_symbol := symbol;
     Client.xp_side := "ask";
     Client.xp_amount := amount;
     Client.xp_entry_price := entry_price |}.

Definition local_table : list Position := [local_row "BTC" 1; local_row "SOL" 5].

Definition eth : Client.ExchangePosition := exchange_entry "ETH" 2 3000.
Definition sol : Client.ExchangePosition := exchange_entry "SOL" 7 150.

Definition exchange_body : Client.PositionsBody :=
  Client.BodyDict true (Some [eth; sol]).

(** The closing of a DOGE long, with a stop the strategy left on the
    signal. *)
Definition close_doge : Engine.TradingSignal :=
  {| Engine.signal_type := Engine.CLOSE_LONG;
     Engine.symbol := "DOGE";
     Engine.price := 0.1;
     Engine.amount := 999.996;
     Engine.stop_loss := Some 0.09;
     Engine.take_profit := None;
     Engine.confidence := 0.8 |}.

(** A buy of 1 SOL at 1000 with a stop at 950 and a target at 1100. *)
Definition buy_sol_protected : Engine.TradingSignal :=
  {| Engine.signal_type := Engine.BUY;
     Engine.symbol := "SOL";
     Engine.price := 1000;
     Engine.amount := 1;
     Engine.stop_loss := Some 950;
     Engine.take_profit := Some 1100;
     Engine.confidence := 0.8 |}.

(** A buy of DOGE at 0.1 whose stop, 0.2, lies above the price. *)
Definition buy_doge_stop_above : Engine.TradingSignal :=
  {| Engine.signal_type := Engine.BUY;
     Engine.symbol := "DOGE";
     Engine.price := 0.1;
     Engine.amount := 999.996;
     Engine.stop_loss := Some 0.2;
     Engine.take_profit := None;
     Engine.confidence := 0.8 |}.

(** A paper-trading engine without a client. *)
Definition paper_engine : Engine.TradingEngine :=
  Engine.with_risk_manager (Engine.__init__ "s1" true 100000 None)
    (with_limits default_settings).

(** Every symbol quoted at 110, and a clock that stands at [t0]. *)
Definition quotes (symbol : string) : option Q := Some 110.
Definition clock (i : nat) : datetime := t0.

(** A row of another strategy. *)
Definition other_row : Position :=
  {| pos_strategy_id := "s2";
     pos_symbol := "BTC";
     pos_side := "ask";
     pos_amount := 3;
     pos_entry_price := 100;
     pos_current_price := None;
     pos_unrealized_pnl := None;
     pos_realized_pnl := 0;
     pos_opened_at := (t0 - 1000000)%Z;
     pos_updated_at := (t0 - 1000000)%Z;
     pos_synced := false |}.

Definition shared_table : list Position := other_row :: local_table.

(** Fifty daily closes, newest first: twenty at 110, then thirty at 100. *)
Definition recent_closes : list Q := repeat 110 20.
Definition older_closes : list Q := repeat 100 30.

End Scenario.

(** * Properties *)

(** ** Comparisons and rounding *)

Module PyFacts.
Import Py.
Local Open Scope Q_scope.

Lemma Qltb_lt x y : Qltb x y = true <-> x < y.
Proof.
  unfold Qltb. rewrite negb_true_iff, <- not_true_iff_false, Qle_bool_iff.
  split; [apply Qnot_le_lt | apply Qlt_not_le].
Qed.

Lemma Qltb_ge x y : Qltb x y = false <-> y <= x.
Proof. unfold Qltb. rewrite negb_false_iff. apply Qle_bool_iff. Qed.

Lemma Qleb_le x y : Qleb x y = true <-> x <= y.
Proof. apply Qle_bool_iff. Qed.

Lemma Qleb_gt x y : Qleb x y = false <-> y < x.
Proof.
  unfold Qleb. rewrite <- not_true_iff_false, Qle_bool_iff.
  split; [apply Qnot_le_lt | apply Qlt_not_le].
Qed.

Lemma Qeqb_eq x y : Qeqb x y = true <-> x == y.
Proof. apply Qeq_bool_iff. Qed.

Lemma Qeqb_neq x y : Qeqb x y = false <-> ~ x == y.
Proof.
  unfold Qeqb. rewrite <- not_true_iff_false, Qeq_bool_iff. reflexivity.
Qed.

Lemma round_half_even_Z q n : q == inject_Z n -> round_half_even q = n.
Proof.
  intros H. unfold round_half_even.
  rewrite (Qfloor_comp _ _ H), Qfloor_Z.
  destruct (Qltb (q - inject_Z n) (1 # 2)) eqn:E; [reflexivity|].
  apply Qltb_ge in E. exfalso. lra.
Qed.

Lemma round_half_up_bounds y :
  y - (1 # 2) <= inject_Z (round_half_up y) /\ inject_Z (round_half_up y) <= y + (1 # 2).
Proof.
  unfold round_half_up. destruct (Qltb y 0) eqn:E.
  - pose proof (Qfloor_le (- y + (1 # 2))) as H1.
    pose proof (Qlt_floor (- y + (1 # 2))) as H2.
    rewrite inject_Z_plus in H2. rewrite inject_Z_opp.
    change (inject_Z 1) with 1 in H2. split; lra.
  - pose proof (Qfloor_le (y + (1 # 2))) as H1.
    pose proof (Qlt_floor (y + (1 # 2))) as H2.
    rewrite inject_Z_plus in H2. change (inject_Z 1) with 1 in H2. split; lra.
Qed.

Lemma quantize_multiple t places n :
  t * pow10 places == 1 ->
  quantize (inject_Z n * t) places == inject_Z n * t.
Proof.
  intros H. unfold quantize.
  assert (Hp : ~ pow10 places == 0).
  { intros E. rewrite E in H. lra. }
  rewrite (round_half_even_Z (inject_Z n * t * pow10 places) n).
  - transitivity (inject_Z n * (t * pow10 places) / pow10 places).
    + rewrite H. field. exact Hp.
    + field. exact Hp.
  - transitivity (inject_Z n * (t * pow10 places)); [ring|]. rewrite H. ring.
Qed.

End PyFacts.

(** ** The risk manager *)

Module RiskFacts.
Import Py Risk.
Local Open Scope Q_scope.

(** Without the attribute, the blacklist check raises. *)
Lemma check_symbol_blacklist_unbound self symbol :
  instance_dict self !! "symbol_blacklist"%string = None ->
  check_symbol_blacklist self symbol = Raise (AttributeError "symbol_blacklist").
Proof.
  intros H. unfold check_symbol_blacklist, getattr. rewrite H. reflexivity.
Qed.

Lemma check_order_unbound env self strategy_id symbol side amount price order_type :
  instance_dict self !! "symbol_blacklist"%string = None ->
  check_order env self strategy_id symbol side amount price order_type
  = (Raise (AttributeError "symbol_blacklist"), self).
Proof.
  intros H. unfold check_order.
  rewrite (check_symbol_blacklist_unbound _ _ H). reflexivity.
Qed.

(** No method of the class binds a new attribute. *)
Lemma reset_daily_counts_instance_dict now self :
  instance_dict (reset_daily_counts_if_needed now self) = instance_dict self.
Proof.
  unfold reset_daily_counts_if_needed.
  destruct (last_reset_date self) as [d|]; [destruct (negb _)|]; reflexivity.
Qed.

Lemma record_trade_instance_dict now self symbol :
  instance_dict (record_trade now self symbol) = instance_dict self.
Proof. unfold record_trade. simpl. apply reset_daily_counts_instance_dict. Qed.

Lemma check_trade_frequency_instance_dict st now self symbol :
  instance_dict (snd (check_trade_frequency st now self symbol)) = instance_dict self.
Proof.
  unfold check_trade_frequency.
  set (self' := reset_daily_counts_if_needed now self).
  assert (E : instance_dict self' = instance_dict self)
    by apply reset_daily_counts_instance_dict.
  destruct (last_trade_time self' !! upper symbol) as [t|].
  - destruct (Qltb _ _); simpl; [exact E|].
    destruct (_ <=? _)%Z; exact E.
  - destruct (_ <=? _)%Z; exact E.
Qed.

Lemma check_order_instance_dict env self strategy_id symbol side amount price order_type :
  instance_dict (snd (check_order env self strategy_id symbol side amount price order_type))
  = instance_dict self.
Proof.
  unfold check_order.
  destruct (check_symbol_blacklist self symbol) as [c|e]; [|reflexivity].
  destruct (negb (approved c)); [reflexivity|].
  pose proof (check_trade_frequency_instance_dict (settings env) (utcnow env) self symbol) as E.
  destruct (check_trade_frequency _ _ _ _) as [fc self']. exact E.
Qed.

(** With the attribute bound to a set, a listed symbol is rejected at
    the first step, whatever the other arguments. *)
Lemma check_order_listed env self bl strategy_id symbol side amount price order_type :
  instance_dict self !! "symbol_blacklist"%string = Some (VSet bl) ->
  upper symbol ∈ bl ->
  check_order env self strategy_id symbol side amount price order_type
  = (Return (reject (SymbolBlacklisted symbol)), self).
Proof.
  intros H Hin. unfold check_order, check_symbol_blacklist, getattr.
  rewrite H. simpl. rewrite bool_decide_eq_true_2 by exact Hin. reflexivity.
Qed.

(** C1 (code defect).  [check_symbol_blacklist] reads the attribute
    [self.symbol_blacklist], which [__init__] never assigns: the
    configured blacklist only exists as [_limits()["symbol_blacklist"]].
    On a freshly built risk manager, [check_order] therefore raises
    [AttributeError] for every symbol, in particular for ["XPL"], which
    the default configuration blacklists; it does not return a
    not-approved result. *)
Theorem check_order_blacklisted_raises :
  "XPL"%string ∈ lim_symbol_blacklist (_limits default_settings)
  /\ forall env strategy_id symbol side amount price order_type,
       check_order env __init__ strategy_id symbol side amount price order_type
       = (Raise (AttributeError "symbol_blacklist"), __init__).
Proof.
  split.
  - cbv [_limits lim_symbol_blacklist parse_blacklist].
    apply elem_of_list_to_set, list_elem_of_In. vm_compute. auto.
  - intros. apply check_order_unbound. reflexivity.
Qed.

(** *** Faults of the store *)

(** The three readers catch every exception of their session. *)
Lemma get_portfolio_value_fault getenv strategy_id :
  get_portfolio_value getenv None strategy_id = 100000.
Proof. reflexivity. Qed.

Lemma get_current_positions_fault strategy_id symbol :
  get_current_positions None strategy_id symbol = [].
Proof. reflexivity. Qed.

Lemma calculate_daily_pnl_fault now strategy_id :
  calculate_daily_pnl now None strategy_id = 0.
Proof. reflexivity. Qed.















End RiskFacts.

(** ** The exchange adapter *)

Module ClientFacts.
Import Py PyFacts Client.
Local Open Scope Q_scope.

(** *** Tick rounding and the validation of stops and targets *)

(** On a decimal tick, rounding moves a price by at most half a tick. *)
Lemma round_to_tick_size_near p t :
  0 < t -> t * pow10 (decimal_places t) == 1 ->
  p - t / 2 <= round_to_tick_size p t /\ round_to_tick_size p t <= p + t / 2.
Proof.
  intros Ht Hd. unfold round_to_tick_size.
  destruct (Qleb t 0) eqn:E; [apply Qleb_le in E; lra|].
  rewrite quantize_multiple by exact Hd.
  destruct (round_half_up_bounds (p / t)) as [H1 H2].
  assert (Hp : p == p / t * t) by (field; lra).
  split.
  - apply (Qmult_le_compat_r _ _ t) in H1; [|lra].
    assert (X : p - t / 2 == (p / t - (1 # 2)) * t) by (field; lra).
    rewrite X. exact H1.
  - apply (Qmult_le_compat_r _ _ t) in H2; [|lra].
    assert (X : p + t / 2 == (p / t + (1 # 2)) * t) by (field; lra).
    rewrite X. exact H2.
Qed.

Lemma dict_lookup_In key d v : dict_lookup key d = Some v -> In v (map snd d).
Proof.
  induction d as [|[k x] d IH]; simpl; [discriminate|].
  destruct (String.eqb k key); [intros [= <-]; auto|auto].
Qed.

Lemma get_tick_size_decimal symbol :
  0 < get_tick_size symbol
  /\ get_tick_size symbol * pow10 (decimal_places (get_tick_size symbol)) == 1.
Proof.
  unfold get_tick_size.
  destruct (dict_lookup (upper symbol) tick_size_map) as [t|] eqn:E.
  - apply dict_lookup_In in E. simpl in E.
    repeat (destruct E as [<-|E]; [split; reflexivity|]). contradiction.
  - split; reflexivity.
Qed.
(** The validated stop, and the validated target, as expressions of the
    requested values. *)
Lemma validate_tpsl_stop symbol side entry_price sl tp :
  fst (validate_tpsl symbol side entry_price (Some sl) tp)
  = let tick_size := get_tick_size symbol in
    if Qltb 0 sl then
      if String.eqb (lower side) "bid" then
        if Qleb entry_price sl then None
        else if Qleb entry_price (round_to_tick_size sl tick_size)
             then Some (round_to_tick_size (entry_price - tick_size) tick_size)
             else Some (round_to_tick_size sl tick_size)
      else
        if Qleb sl entry_price then None
        else if Qleb (round_to_tick_size sl tick_size) entry_price
             then Some (round_to_tick_size (entry_price + tick_size) tick_size)
             else Some (round_to_tick_size sl tick_size)
    else None.
Proof.
  unfold validate_tpsl, given. destruct tp; simpl; destruct (Qltb 0 sl); reflexivity.
Qed.

Lemma validate_tpsl_target symbol side entry_price sl tp :
  snd (validate_tpsl symbol side entry_price sl (Some tp))
  = let tick_size := get_tick_size symbol in
    if Qltb 0 tp then
      if String.eqb (lower side) "bid" then
        if Qleb tp entry_price then None
        else if Qleb (round_to_tick_size tp tick_size) entry_price
             then Some (round_to_tick_size (entry_price + tick_size) tick_size)
             else Some (round_to_tick_size tp tick_size)
      else
        if Qleb entry_price tp then None
        else if Qleb entry_price (round_to_tick_size tp tick_size)
             then Some (round_to_tick_size (entry_price - tick_size) tick_size)
             else Some (round_to_tick_size tp tick_size)
    else None.
Proof.
  unfold validate_tpsl, given. destruct sl; simpl; destruct (Qltb 0 tp); reflexivity.
Qed.

(** One tick away from the entry, rounded: strictly on the far side. *)
Lemma nudge_below symbol entry_price :
  round_to_tick_size (entry_price - get_tick_size symbol) (get_tick_size symbol)
  < entry_price.
Proof.
  destruct (get_tick_size_decimal symbol) as [Ht Hd].
  destruct (round_to_tick_size_near (entry_price - get_tick_size symbol) _ Ht Hd) as [_ H].
  assert (X : get_tick_size symbol / 2 == get_tick_size symbol * (1 # 2)) by field.
  rewrite X in H. lra.
Qed.

Lemma nudge_above symbol entry_price :
  entry_price
  < round_to_tick_size (entry_price + get_tick_size symbol) (get_tick_size symbol).
Proof.
  destruct (get_tick_size_decimal symbol) as [Ht Hd].
  destruct (round_to_tick_size_near (entry_price + get_tick_size symbol) _ Ht Hd) as [H _].
  assert (X : get_tick_size symbol / 2 == get_tick_size symbol * (1 # 2)) by field.
  rewrite X in H. lra.
Qed.

#[local] Ltac decide_comparisons :=
  repeat match goal with
         | H : ?a <= ?b |- context [Qleb ?a ?b] =>
             rewrite (proj2 (Qleb_le a b) H)
         | H : ?a < ?b |- context [Qleb ?b ?a] =>
             rewrite (proj2 (Qleb_gt b a) H)
         | H : ?a < ?b |- context [Qltb ?a ?b] =>
             rewrite (proj2 (Qltb_lt a b) H)
         end.

(** C8.  For a long position (side [bid]) a requested stop at or above
    the entry, or a requested target at or below it, is dropped: the
    validated value is [None].  A positive request on the correct side of
    the entry that tick rounding carries onto or across the entry is not
    dropped: the validated value is the price one tick beyond the entry,
    rounded to the tick grid, and it lies strictly on the correct side.
    For a short position (any other side) the same holds with the sides
    exchanged. *)
Theorem validate_tpsl_sides symbol side entry_price :
  let tick := get_tick_size symbol in
  let sl_of sl tp := fst (validate_tpsl symbol side entry_price (Some sl) tp) in
  let tp_of sl tp := snd (validate_tpsl symbol side entry_price sl (Some tp)) in
  (lower side = "bid"%string ->
     (forall sl tp, entry_price <= sl -> sl_of sl tp = None)
     /\ (forall sl tp,
           0 < sl -> sl < entry_price -> entry_price <= round_to_tick_size sl tick ->
           sl_of sl tp = Some (round_to_tick_size (entry_price - tick) tick)
           /\ round_to_tick_size (entry_price - tick) tick < entry_price)
     /\ (forall sl tp, tp <= entry_price -> tp_of sl tp = None)
     /\ (forall sl tp,
           0 < tp -> entry_price < tp -> round_to_tick_size tp tick <= entry_price ->
           tp_of sl tp = Some (round_to_tick_size (entry_price + tick) tick)
           /\ entry_price < round_to_tick_size (entry_price + tick) tick))
  /\ (lower side <> "bid"%string ->
      (forall sl tp, sl <= entry_price -> sl_of sl tp = None)
      /\ (forall sl tp,
            0 < sl -> entry_price < sl -> round_to_tick_size sl tick <= entry_price ->
            sl_of sl tp = Some (round_to_tick_size (entry_price + tick) tick)
            /\ entry_price < round_to_tick_size (entry_price + tick) tick)
      /\ (forall sl tp, entry_price <= tp -> tp_of sl tp = None)
      /\ (forall sl tp,
            0 < tp -> tp < entry_price -> entry_price <= round_to_tick_size tp tick ->
            tp_of sl tp = Some (round_to_tick_size (entry_price - tick) tick)
            /\ round_to_tick_size (entry_price - tick) tick < entry_price)).
Proof.
  intros tick sl_of tp_of. subst sl_of tp_of. cbv beta.
  split; intros Hside.
  - apply String.eqb_eq in Hside.
    repeat split; intros; try split;
      rewrite ?validate_tpsl_stop, ?validate_tpsl_target; cbv zeta; fold tick;
      rewrite ?Hside; decide_comparisons;
      try reflexivity; try apply nudge_below; try apply nudge_above;
      destruct (Qltb 0 _); reflexivity.
  - apply String.eqb_neq in Hside.
    repeat split; intros; try split;
      rewrite ?validate_tpsl_stop, ?validate_tpsl_target; cbv zeta; fold tick;
      rewrite ?Hside; decide_comparisons;
      try reflexivity; try apply nudge_below; try apply nudge_above;
      destruct (Qltb 0 _); reflexivity.
Qed.

(** A long BTC position entered at 100: a stop at 101 is dropped; a stop
    at 99.999, which rounds to 100.00, is moved to 99.99. *)
Lemma validate_tpsl_sides_witness :
  (lower "bid" = "bid"%string
   /\ 100 <= 101
   /\ 0 < 99.999 /\ 99.999 < 100
   /\ 100 <= round_to_tick_size 99.999 (get_tick_size "BTC"))
  /\ fst (validate_tpsl "BTC" "bid" 100 (Some 101) None) = None
  /\ fst (validate_tpsl "BTC" "bid" 100 (Some 99.999) None)
     = Some (round_to_tick_size (100 - get_tick_size "BTC") (get_tick_size "BTC"))
  /\ round_to_tick_size (100 - get_tick_size "BTC") (get_tick_size "BTC") < 100
  /\ round_to_tick_size (100 - get_tick_size "BTC") (get_tick_size "BTC") == 99.99.
Proof.
  assert (H : lower "bid" = "bid"%string
              /\ 100 <= 101
              /\ 0 < 99.999 /\ 99.999 < 100
              /\ 100 <= round_to_tick_size 99.999 (get_tick_size "BTC"))
    by (repeat split; vm_compute; congruence).
  split; [exact H|].
  destruct H as (Hside & Habove & Hpos & Hbelow & Hround).
  destruct (proj1 (validate_tpsl_sides "BTC" "bid" 100) Hside) as (Drop & Nudge & _).
  split; [exact (Drop 101 None Habove)|].
  destruct (Nudge 99.999 None Hpos Hbelow Hround) as [E L].
  split; [exact E|]. split; [exact L|]. vm_compute. reflexivity.
Defined.

(** *** Lot rounding *)

Lemma round_multiple t places n :
  t * pow10 places == 1 ->
  round (inject_Z n * t) places == inject_Z n * t.
Proof. exact (quantize_multiple t places n). Qed.

Lemma get_lot_size_decimal symbol :
  0 < get_lot_size symbol
  /\ get_lot_size symbol * pow10 (decimal_places (get_lot_size symbol)) == 1.
Proof.
  unfold get_lot_size.
  destruct (dict_lookup (upper symbol) lot_size_map) as [t|] eqn:E.
  - apply dict_lookup_In in E. simpl in E.
    repeat (destruct E as [<-|E]; [split; reflexivity|]). contradiction.
  - split; reflexivity.
Qed.

(** The adapter by itself rounds toward zero on the lot grid of the
    symbol: the result is a whole number of lots and does not exceed the
    amount it is given. *)
Lemma round_to_lot_size_floor symbol amount :
  let lot_size := get_lot_size symbol in
  round_to_lot_size amount lot_size <= amount
  /\ round_to_lot_size amount lot_size
     == inject_Z (floor (amount / lot_size)) * lot_size.
Proof.
  intros lot_size. destruct (get_lot_size_decimal symbol) as [Hl Hd].
  fold lot_size in Hl, Hd. unfold round_to_lot_size.
  destruct (Qleb lot_size 0) eqn:E; [apply Qleb_le in E; lra|].
  rewrite round_multiple by exact Hd. split; [|reflexivity].
  pose proof (Qfloor_le (amount / lot_size)) as F.
  apply (Qmult_le_compat_r _ _ lot_size) in F; [|lra].
  assert (X : amount / lot_size * lot_size == amount) by (field; lra).
  rewrite X in F. exact F.
Qed.

(** [lot_size = 0.01] and [0.1234] give [0.12]. *)
Example round_to_lot_size_example : round_to_lot_size 0.1234 0.01 == 0.12.
Proof. reflexivity. Qed.

End ClientFacts.

(** ** The hedge decision *)

Module HedgeFacts.
Import Py PyFacts Hedge.
Local Open Scope Q_scope.

(** On the snapshot of an exposure manager, the decision reads the three
    stored fields and nothing else: the portfolio value plays no part, so
    [short_exposure] is compared as stored, a sum of position values. *)
Lemma evaluate_snapshot self em :
  evaluate self (Exposure.get_exposure_state em)
  = if Qltb (profit_threshold self) (Exposure.long_pnl_pct em)
       && Qltb (high_exposure_threshold self) (Exposure.net_long em)
    then ACTIVATE_MR_SHORTS
    else if Qltb (short_threshold self) (Exposure.short_exposure em)
    then ACTIVATE_MR_LONGS
    else NONE.
Proof. reflexivity. Qed.

(** C9.  For every snapshot, [evaluate] returns [ACTIVATE_MR_SHORTS] when
    [long_pnl_pct > profit_threshold] and [net_long >
    high_exposure_threshold]; otherwise [ACTIVATE_MR_LONGS] when
    [short_exposure] exceeds the short threshold; otherwise [NONE].  A
    key the snapshot lacks reads as 0.0. *)
Theorem evaluate_decision (self : HedgeTrigger) (exposure_state : gmap string Q) :
  let long_pnl_pct := default 0 (exposure_state !! "long_pnl_pct"%string) in
  let net_long := default 0 (exposure_state !! "net_long"%string) in
  let short_exposure := default 0 (exposure_state !! "short_exposure"%string) in
  let over_extended :=
    profit_threshold self < long_pnl_pct /\ high_exposure_threshold self < net_long in
  (over_extended -> evaluate self exposure_state = ACTIVATE_MR_SHORTS)
  /\ (~ over_extended -> short_threshold self < short_exposure ->
      evaluate self exposure_state = ACTIVATE_MR_LONGS)
  /\ (~ over_extended -> ~ short_threshold self < short_exposure ->
      evaluate self exposure_state = NONE).
Proof.
  intros long_pnl_pct net_long short_exposure over_extended.
  unfold evaluate. fold long_pnl_pct net_long short_exposure.
  destruct (Qltb (profit_threshold self) long_pnl_pct) eqn:P;
    destruct (Qltb (high_exposure_threshold self) net_long) eqn:N;
    destruct (Qltb (short_threshold self) short_exposure) eqn:S; simpl;
    first [apply Qltb_lt in P | apply Qltb_ge in P];
    first [apply Qltb_lt in N | apply Qltb_ge in N];
    first [apply Qltb_lt in S | apply Qltb_ge in S];
    unfold over_extended;
    repeat split; intros; try reflexivity; exfalso; intuition lra.
Qed.

(** With the default thresholds, [net_long = 0.8] and [long_pnl_pct =
    0.15] activate the mean-reversion shorts. *)
Lemma evaluate_decision_witness :
  (profit_threshold __init__ < 0.15 /\ high_exposure_threshold __init__ < 0.8)
  /\ evaluate __init__ Scenario.winning_longs = ACTIVATE_MR_SHORTS.
Proof.
  assert (H : profit_threshold __init__ < 0.15 /\ high_exposure_threshold __init__ < 0.8)
    by (split; vm_compute; reflexivity).
  split; [exact H|].
  exact (proj1 (evaluate_decision __init__ Scenario.winning_longs) H).
Defined.

End HedgeFacts.

(** ** The exposure ledger *)

Module ExposureFacts.
Import Py PyFacts Exposure.
Local Open Scope Q_scope.






Lemma calculate_exposure_positions self :
  positions (calculate_exposure self) = positions self.
Proof.
  unfold calculate_exposure. destruct (map_fold _ _ _). reflexivity.
Qed.

Lemma update_position_positions self symbol side0 size0 entry_price0 :
  positions (update_position self symbol side0 size0 entry_price0)
  = <[symbol := {| side := side0; size := size0; entry_price := entry_price0;
                   value := size0 * entry_price0 |}]> (positions self).
Proof.
  unfold update_position, check_thresholds. rewrite calculate_exposure_positions.
  reflexivity.
Qed.

End ExposureFacts.

(** ** The engine *)

Module EngineFacts.
Import Py PyFacts Engine.
Local Open Scope Q_scope.

(** *** Orders and the answer of the exchange *)

Lemma create_market_order_returns client uuid http symbol side amount reduce_only
      slippage cid sl tp entry response :
  Client.create_market_order client uuid http symbol side amount reduce_only slippage
    cid sl tp entry = Return response ->
  Client.keypair client = true
  /\ http (Client.market_order_payload uuid symbol side amount reduce_only slippage
             cid sl tp entry)
     = Client.Response 200 (Return response)
  /\ exists d, response = Json.JDict d.
Proof.
  unfold Client.create_market_order.
  destruct (Client.keypair client); simpl; [|discriminate].
  destruct (http _) as [| |status body]; try discriminate.
  destruct (status =? 200)%Z eqn:S; [|discriminate].
  apply Z.eqb_eq in S. subst status.
  destruct body as [r|e]; simpl; [|discriminate].
  destruct r; simpl; try discriminate.
  intros [= <-]. repeat split. eauto.
Qed.

Lemma truthy_extract_order_id response :
  Json.truthy (extract_order_id response) = true ->
  exists d, response = Json.JDict d
            /\ Json.truthy (default Json.JNull (Json.lookup "success" d)) = true.
Proof.
  destruct response; simpl; try discriminate.
  destruct (Json.truthy (default Json.JNull (Json.lookup "success" d))) eqn:E;
    [eauto|discriminate].
Qed.

Lemma save_order_rows self st now signal order_side cid rounded id is_closing o :
  In o (fst (save_order self st now signal order_side cid rounded id is_closing)) ->
  or_status o = (if Json.truthy id then "submitted" else "failed")%string
  /\ or_order_id o = (if Json.truthy id then ExchangeId id else FailedId cid)
  /\ or_client_order_id o = cid.
Proof.
  unfold save_order.
  destruct (negb (order_commit st)); [simpl; contradiction|].
  cbv zeta.
  destruct (Json.truthy id && negb is_closing);
    [destruct (position_rows st) as [rows|];
     [destruct (List.filter _ rows); [destruct (position_commit st)|]|]|];
    simpl; intros [<-|[]]; repeat split.
Qed.

Lemma create_order_orders self w signal o :
  In o (orders (snd (create_order self w signal))) ->
  exists payload response,
    requests (snd (create_order self w signal)) = [payload]
    /\ exchange w payload = Client.Response 200 (Return response)
    /\ or_status o
       = (if Json.truthy (extract_order_id response) then "submitted" else "failed")%string
    /\ or_order_id o
       = (if Json.truthy (extract_order_id response)
          then ExchangeId (extract_order_id response)
          else FailedId (or_client_order_id o)).
Proof.
  unfold create_order.
  destruct (Risk.check_order _ _ _ _ _ _ _ _) as [[rc|e] rm];
    cbn [snd orders no_effects In]; [|contradiction].
  destruct (negb (Risk.approved rc)); cbn [snd orders no_effects In]; [contradiction|].
  destruct (paper_trading self); cbn [snd orders no_effects In]; [contradiction|].
  destruct (pacifica_client self) as [client|]; cbn [snd orders no_effects In];
    [|contradiction].
  destruct (Client.create_market_order _ _ _ _ _ _ _ _ _ _ _ _) as [response|e] eqn:E;
    cbn [snd orders no_effects In]; [|contradiction].
  apply create_market_order_returns in E. destruct E as (K & X & _).
  rewrite K.
  match goal with
  | |- context [save_order ?a ?b ?c ?d ?e ?f ?g ?h ?i] =>
      pose proof (save_order_rows a b c d e f g h i o) as R;
      destruct (save_order a b c d e f g h i) as [saved_orders saved_positions]
  end.
  cbn [snd fst orders requests] in *. intros Hin.
  destruct (R Hin) as (H1 & H2 & H3).
  eexists _, response. repeat split; [exact X|exact H1|rewrite H3; exact H2].
Qed.

Lemma explicit_success_of_truthy_id payload w response :
  exchange w payload = Client.Response 200 (Return response) ->
  Json.truthy (extract_order_id response) = true ->
  explicit_success (exchange w payload).
Proof.
  intros X T. destruct (truthy_extract_order_id _ T) as (d & -> & Hs).
  exists d. repeat split; assumption.
Qed.

(** A timeout, a transport failure, a status other than 200 and a body
    that does not decode are not explicit successes. *)
Lemma not_explicit_success answer :
  answer = Client.Timeout \/ answer = Client.TransportError
  \/ (exists status body, answer = Client.Response status body /\ status <> 200%Z)
  \/ (exists status e, answer = Client.Response status (Raise e)) ->
  ~ explicit_success answer.
Proof.
  intros H (d & E & _). subst answer.
  destruct H as [H|[H|[(st & b & H & Hne)|(st & e & H)]]]; try discriminate.
  injection H as <- _. contradiction.
Qed.

(** C4.  An order row with status [submitted] is committed only after
    the exchange answered the order request with an explicit success that
    carries an order id, and the row holds that id.  When the answer is
    anything else (a timeout, a transport or HTTP error, a body that
    reports a failure or carries no order id), every row the call commits
    has status [failed]. *)
Theorem submitted_only_on_explicit_success self w signal :
  let eff := snd (create_order self w signal) in
  (forall o,
     In o (orders eff) -> or_status o = "submitted"%string ->
     exists payload id,
       requests eff = [payload]
       /\ explicit_success (exchange w payload)
       /\ or_order_id o = ExchangeId id /\ Json.truthy id = true)
  /\ ((forall payload, In payload (requests eff) -> ~ explicit_success (exchange w payload)) ->
      forall o, In o (orders eff) -> or_status o = "failed"%string).
Proof.
  cbv zeta. split.
  - intros o Hin Hst.
    destruct (create_order_orders self w signal o Hin) as (payload & response & R & X & S & I).
    destruct (Json.truthy (extract_order_id response)) eqn:T;
      [|rewrite S in Hst; discriminate].
    exists payload, (extract_order_id response). repeat split; try assumption.
    eapply explicit_success_of_truthy_id; eassumption.
  - intros Hno o Hin.
    destruct (create_order_orders self w signal o Hin) as (payload & response & R & X & S & I).
    destruct (Json.truthy (extract_order_id response)) eqn:T; [|exact S].
    exfalso. apply (Hno payload).
    + rewrite R. left. reflexivity.
    + eapply explicit_success_of_truthy_id; eassumption.
Qed.

(** The live engine of the scenarios: an accepted order is committed as
    [submitted]; a refused one as [failed]. *)
Lemma submitted_only_on_explicit_success_witness :
  (exists o,
     In o (orders (snd (create_order Scenario.live_engine
                          (Scenario.world_of Scenario.accepted) Scenario.buy_doge)))
     /\ or_status o = "submitted"%string
     /\ or_order_id o = ExchangeId (Json.JNum 42))
  /\ (forall o,
        In o (orders (snd (create_order Scenario.live_engine
                             (Scenario.world_of Scenario.refused) Scenario.buy_doge))) ->
        or_status o = "failed"%string).
Proof.
  split.
  - pose proof (proj1 (submitted_only_on_explicit_success Scenario.live_engine
                         (Scenario.world_of Scenario.accepted) Scenario.buy_doge)) as H.
    cbv zeta in H.
    assert (E : exists o rest,
               orders (snd (create_order Scenario.live_engine
                              (Scenario.world_of Scenario.accepted) Scenario.buy_doge))
               = o :: rest
               /\ or_status o = "submitted"%string
               /\ or_order_id o = ExchangeId (Json.JNum 42))
      by (vm_compute; eexists _, _; repeat split).
    destruct E as (o & rest & E & St & Id).
    assert (Hin : In o (orders (snd (create_order Scenario.live_engine
                              (Scenario.world_of Scenario.accepted) Scenario.buy_doge))))
      by (rewrite E; left; reflexivity).
    destruct (H o Hin St) as (payload & id & _ & _ & _ & _).
    exists o. repeat split; assumption.
  - apply (proj2 (submitted_only_on_explicit_success Scenario.live_engine
                    (Scenario.world_of Scenario.refused) Scenario.buy_doge)).
    intros payload _ (d & E & Hs & _).
    vm_compute in E. injection E as <-. vm_compute in Hs. discriminate.
Defined.

(** *** The amount that reaches the exchange *)

Lemma create_order_request_amount self w signal payload :
  In payload (requests (snd (create_order self w signal))) ->
  Client.pl_amount payload
  = Client.round_to_lot_size (round (amount signal) 2)
      (Client.get_lot_size (symbol signal)).
Proof.
  unfold create_order.
  destruct (Risk.check_order _ _ _ _ _ _ _ _) as [[rc|e] rm];
    cbn [snd requests no_effects In]; [|contradiction].
  destruct (negb (Risk.approved rc)); cbn [snd requests no_effects In]; [contradiction|].
  destruct (paper_trading self); cbn [snd requests no_effects In]; [contradiction|].
  destruct (pacifica_client self) as [client|]; cbn [snd requests no_effects In];
    [|contradiction].
  assert (G : forall sent : list Client.Payload,
             sent = (if Client.keypair client then
                       [Client.market_order_payload (uuid4 w 1%nat) (symbol signal)
                          (side_map_get (value (signal_type signal)) side_map "bid")
                          (round (amount signal) 2)
                          match signal_type signal with
                          | CLOSE_LONG | CLOSE_SHORT => true
                          | _ => false
                          end 0.5 (Some (uuid4 w 0%nat))
                          (if match signal_type signal with
                              | CLOSE_LONG | CLOSE_SHORT => true
                              | _ => false
                              end then None else positive (stop_loss signal))
                          (if match signal_type signal with
                              | CLOSE_LONG | CLOSE_SHORT => true
                              | _ => false
                              end then None else positive (take_profit signal))
                          (Some (price signal))]
                     else []) ->
             In payload sent ->
             Client.pl_amount payload
             = Client.round_to_lot_size (round (amount signal) 2)
                 (Client.get_lot_size (symbol signal))).
  { intros sent ->. destruct (Client.keypair client); [|contradiction].
    intros [<-|[]]. unfold Client.market_order_payload.
    destruct (match Client.given _, Client.given _ with
              | None, None => _ | _, _ => _ end). reflexivity. }
  destruct (Client.create_market_order _ _ _ _ _ _ _ _ _ _ _ _) as [response|e].
  - destruct (save_order _ _ _ _ _ _ _ _ _). cbn [snd requests]. apply G. reflexivity.
  - cbn [snd requests]. apply G. reflexivity.
Qed.


(** *** When a trade is recorded *)

Lemma check_trade_frequency_last_trade_time st now self symbol :
  Risk.last_trade_time (snd (Risk.check_trade_frequency st now self symbol))
  = Risk.last_trade_time self.
Proof.
  unfold Risk.check_trade_frequency.
  assert (E : Risk.last_trade_time (Risk.reset_daily_counts_if_needed now self)
              = Risk.last_trade_time self).
  { unfold Risk.reset_daily_counts_if_needed.
    destruct (Risk.last_reset_date self) as [d|]; [destruct (negb _)|]; reflexivity. }
  destruct (Risk.last_trade_time _ !! upper symbol) as [t|].
  - destruct (Qltb _ _); cbn [snd]; [exact E|].
    destruct (_ <=? _)%Z; exact E.
  - destruct (_ <=? _)%Z; exact E.
Qed.

(** Evaluating an order never starts a cooldown. *)
Lemma check_order_last_trade_time env self strategy_id symbol side amount price order_type :
  Risk.last_trade_time
    (snd (Risk.check_order env self strategy_id symbol side amount price order_type))
  = Risk.last_trade_time self.
Proof.
  unfold Risk.check_order.
  destruct (Risk.check_symbol_blacklist self symbol) as [c|e]; [|reflexivity].
  destruct (negb (Risk.approved c)); [reflexivity|].
  pose proof (check_trade_frequency_last_trade_time
                (Risk.settings env) (Risk.utcnow env) self symbol) as E.
  destruct (Risk.check_trade_frequency _ _ _ _) as [fc self']. exact E.
Qed.

(** Evaluating an order never counts a trade: the daily counts are left
    as they are, or cleared when the day has changed. *)
Lemma check_order_daily_trade_count env self strategy_id symbol side amount price order_type :
  Risk.daily_trade_count
    (snd (Risk.check_order env self strategy_id symbol side amount price order_type))
  = Risk.daily_trade_count self
  \/ Risk.daily_trade_count
       (snd (Risk.check_order env self strategy_id symbol side amount price order_type))
     = ∅.
Proof.
  unfold Risk.check_order.
  destruct (Risk.check_symbol_blacklist self symbol) as [c|e]; [|left; reflexivity].
  destruct (negb (Risk.approved c)); [left; reflexivity|].
  assert (E : Risk.daily_trade_count
                (snd (Risk.check_trade_frequency (Risk.settings env) (Risk.utcnow env)
                        self symbol))
              = Risk.daily_trade_count (Risk.reset_daily_counts_if_needed
                                          (Risk.utcnow env) self)).
  { unfold Risk.check_trade_frequency.
    destruct (Risk.last_trade_time _ !! upper symbol) as [t|].
    - destruct (Qltb _ _); cbn [snd]; [reflexivity|].
      destruct (_ <=? _)%Z; reflexivity.
    - destruct (_ <=? _)%Z; reflexivity. }
  destruct (Risk.check_trade_frequency _ _ _ _) as [fc self']. cbn [snd] in *.
  rewrite E. unfold Risk.reset_daily_counts_if_needed.
  destruct (Risk.last_reset_date self) as [d|]; [destruct (negb _)|]; auto.
Qed.

(** A signal the gate rejects, or on which the gate raises, yields no
    order id and no effect. *)
Lemma create_order_not_approved self w signal :
  (forall d,
     fst (Risk.check_order (risk_env w) (risk_manager self) (strategy_id self)
            (symbol signal) (side_map_get (value (signal_type signal)) side_map "bid")
            (amount signal) (price signal) "market") = Return d ->
     Risk.approved d = false) ->
  fst (fst (create_order self w signal)) = None
  /\ snd (create_order self w signal) = no_effects.
Proof.
  intros H. unfold create_order.
  destruct (Risk.check_order _ _ _ _ _ _ _ _) as [[rc|e] rm]; [|split; reflexivity].
  cbn [fst] in H. rewrite (H rc eq_refl). split; reflexivity.
Qed.

(** A request that raises (timeout, transport failure, status other than
    200, undecodable body) yields no order id and commits nothing. *)
Lemma create_order_request_raises self w signal :
  paper_trading self = false ->
  (forall payload, exists e,
     match exchange w payload with
     | Client.Response status body =>
         if (status =? 200)%Z then body = Raise e else True
     | _ => True
     end) ->
  fst (fst (create_order self w signal)) = None
  /\ orders (snd (create_order self w signal)) = []
  /\ new_positions (snd (create_order self w signal)) = [].
Proof.
  intros Hlive Hx. unfold create_order.
  destruct (Risk.check_order _ _ _ _ _ _ _ _) as [[rc|e] rm]; [|repeat split].
  destruct (negb (Risk.approved rc)); [repeat split|].
  rewrite Hlive.
  destruct (pacifica_client self) as [client|]; [|repeat split].
  destruct (Client.create_market_order _ _ _ _ _ _ _ _ _ _ _ _) as [response|e] eqn:E;
    [|repeat split].
  apply create_market_order_returns in E. destruct E as (_ & X & _).
  match type of X with
  | exchange w ?p = _ => destruct (Hx p) as [e He]; rewrite X in He
  end.
  simpl in He. discriminate.
Qed.

(** In paper-trading mode an approved signal yields a client order id
    without any request to the exchange and without any committed row. *)
Lemma create_order_paper_trading self w signal rc :
  fst (Risk.check_order (risk_env w) (risk_manager self) (strategy_id self)
         (symbol signal) (side_map_get (value (signal_type signal)) side_map "bid")
         (amount signal) (price signal) "market") = Return rc ->
  Risk.approved rc = true ->
  paper_trading self = true ->
  fst (fst (create_order self w signal)) = Some (uuid4 w 0%nat)
  /\ snd (create_order self w signal) = no_effects.
Proof.
  intros Hrc Happ Hpaper. unfold create_order.
  destruct (Risk.check_order _ _ _ _ _ _ _ _) as [r rm]. cbn [fst] in Hrc. subst r.
  rewrite Happ, Hpaper. split; reflexivity.
Qed.

(** The momentum loop records the trade exactly when [create_order]
    returns an order id; otherwise the risk manager is the one the
    evaluation left, with the cooldown timers untouched. *)
Lemma process_turn_without_order self log t signal :
  market_data t = true ->
  generate_signal t = Return (Some signal) ->
  fst (fst (create_order self (world t) signal)) = None ->
  risk_manager (fst (process_turn true (self, log) t))
  = snd (fst (create_order self (world t) signal))
  /\ Risk.last_trade_time (risk_manager (fst (process_turn true (self, log) t)))
     = Risk.last_trade_time (risk_manager self)
  /\ exposure_manager (fst (process_turn true (self, log) t)) = exposure_manager self.
Proof.
  intros Hm Hs Hn. unfold process_turn. rewrite Hm, Hs. cbn [negb].
  pose proof (check_order_last_trade_time (risk_env (world t)) (risk_manager self)
                (strategy_id self) (symbol signal)
                (side_map_get (value (signal_type signal)) side_map "bid")
                (amount signal) (price signal) "market") as L.
  assert (R : snd (fst (create_order self (world t) signal))
              = snd (Risk.check_order (risk_env (world t)) (risk_manager self)
                       (strategy_id self) (symbol signal)
                       (side_map_get (value (signal_type signal)) side_map "bid")
                       (amount signal) (price signal) "market")).
  { unfold create_order.
    destruct (Risk.check_order _ _ _ _ _ _ _ _) as [[rc|e] rm]; [|reflexivity].
    destruct (negb (Risk.approved rc)); [reflexivity|].
    destruct (paper_trading self); [reflexivity|].
    destruct (pacifica_client self); [|reflexivity].
    destruct (Client.create_market_order _ _ _ _ _ _ _ _ _ _ _ _); [|reflexivity].
    destruct (save_order _ _ _ _ _ _ _ _ _). reflexivity. }
  destruct (create_order self (world t) signal) as [[order_id rm] eff].
  cbn [fst snd] in *. subst order_id. cbn [fst risk_manager with_risk_manager
                                          exposure_manager].
  repeat split. rewrite R. exact L.
Qed.

(** With an order id, the momentum loop records the trade. *)
Lemma process_turn_with_order self log t signal id :
  market_data t = true ->
  generate_signal t = Return (Some signal) ->
  fst (fst (create_order self (world t) signal)) = Some id ->
  truthy_str id = true ->
  risk_manager (fst (process_turn true (self, log) t))
  = Risk.record_trade (utcnow_after (world t))
      (snd (fst (create_order self (world t) signal))) (turn_symbol t).
Proof.
  intros Hm Hs Hid Ht. unfold process_turn. rewrite Hm, Hs. cbn [negb].
  destruct (create_order self (world t) signal) as [[order_id rm] eff].
  cbn [fst snd] in *. subst order_id. rewrite Ht. reflexivity.
Qed.

(** An approved order of a live engine that the exchange answers with
    status 200 and an object without a true [success]: the order is
    committed as failed, if at all, and the client order id is returned
    all the same. *)
Lemma create_order_refused self w signal rc client d :
  fst (Risk.check_order (risk_env w) (risk_manager self) (strategy_id self)
         (symbol signal) (side_map_get (value (signal_type signal)) side_map "bid")
         (amount signal) (price signal) "market") = Return rc ->
  Risk.approved rc = true ->
  paper_trading self = false ->
  pacifica_client self = Some client ->
  Client.keypair client = true ->
  (forall payload, exchange w payload = Client.Response 200 (Return (Json.JDict d))) ->
  Json.truthy (default Json.JNull (Json.lookup "success" d)) = false ->
  fst (fst (create_order self w signal)) = Some (uuid4 w 0%nat)
  /\ forall o, In o (orders (snd (create_order self w signal))) ->
               or_status o = "failed"%string.
Proof.
  intros Hrc Happ Hlive Hc Hk Hx Hs. split.
  - unfold create_order.
    destruct (Risk.check_order _ _ _ _ _ _ _ _) as [r rm]. cbn [fst] in Hrc. subst r.
    rewrite Happ, Hlive, Hc. cbn [negb].
    unfold Client.create_market_order. rewrite Hk, Hx. cbn [negb Z.eqb Pos.eqb Py.bind Json.get].
    destruct (save_order _ _ _ _ _ _ _ _ _). reflexivity.
  - intros o Ho.
    destruct (create_order_orders self w signal o Ho) as (payload & response & _ & X & S & _).
    rewrite Hx in X. injection X as <-. rewrite S. cbn [extract_order_id].
    rewrite Hs. reflexivity.
Qed.


(** *** What the engine records in the exposure ledger *)








End EngineFacts.

(** ** Reconciliation *)

Module SyncFacts.
Import Py PyFacts Engine.
Local Open Scope Q_scope.

(** Generalities on [List.filter]. *)
Lemma filter_filter_comm {A} (P Q : A -> bool) l :
  List.filter P (List.filter Q l) = List.filter Q (List.filter P l).
Proof.
  induction l as [|a l IH]; [reflexivity|]. simpl.
  destruct (Q a) eqn:EQ, (P a) eqn:EP; simpl; rewrite ?EQ, ?EP, IH; reflexivity.
Qed.

Lemma filter_filter_andb {A} (P Q : A -> bool) l :
  List.filter P (List.filter Q l) = List.filter (fun a => Q a && P a) l.
Proof.
  induction l as [|a l IH]; [reflexivity|]. simpl.
  destruct (Q a) eqn:EQ; simpl; [destruct (P a)|]; rewrite IH; reflexivity.
Qed.

Lemma filter_none {A} (P : A -> bool) l :
  (forall a, In a l -> P a = false) -> List.filter P l = [].
Proof.
  induction l as [|a l IH]; intros H; [reflexivity|]. simpl.
  rewrite (H a) by (left; reflexivity). apply IH. intros b Hb. apply H. right. exact Hb.
Qed.

Lemma filter_all {A} (P : A -> bool) l :
  (forall a, In a l -> P a = true) -> List.filter P l = l.
Proof.
  induction l as [|a l IH]; intros H; [reflexivity|]. simpl.
  rewrite (H a) by (left; reflexivity). f_equal. apply IH. intros b Hb. apply H. right. exact Hb.
Qed.

Lemma filter_map_commute {A B} (P : B -> bool) (Q : A -> bool) (f : A -> B) l :
  (forall a, P (f a) = Q a) ->
  List.filter P (map f l) = map f (List.filter Q l).
Proof.
  intros H. induction l as [|a l IH]; [reflexivity|]. simpl.
  rewrite H. destruct (Q a); simpl; rewrite IH; reflexivity.
Qed.

(** Among entries with distinct keys, at most one has a given key. *)
Lemma filter_key_unique {A} (k : A -> string) (s : string) l :
  List.NoDup (map k l) ->
  List.filter (fun a => String.eqb (k a) s) l = []
  \/ exists a, List.filter (fun a => String.eqb (k a) s) l = [a].
Proof.
  induction l as [|a l IH]; intros H; [left; reflexivity|].
  simpl in H. apply NoDup_cons_iff in H. destruct H as [Hnin Hnd]. simpl.
  destruct (String.eqb_spec (k a) s) as [E|E].
  - right. exists a. f_equal. apply filter_none. intros b Hb.
    apply String.eqb_neq. intros Eb. apply Hnin. rewrite E, <- Eb.
    apply in_map. exact Hb.
  - apply IH. exact Hnd.
Qed.

Lemma NoDup_map_filter_weaken {A} (k : A -> string) (P Q : A -> bool) l :
  (forall a, Q a = true -> P a = true) ->
  List.NoDup (map k (List.filter P l)) -> List.NoDup (map k (List.filter Q l)).
Proof.
  intros HQP. induction l as [|a l IH]; intros H; [constructor|]. simpl in *.
  destruct (Q a) eqn:EQ.
  - rewrite (HQP a EQ) in H. simpl in *. apply NoDup_cons_iff in H. destruct H as [Hnin Hnd].
    apply NoDup_cons_iff. split; [|apply IH, Hnd].
    intros Hin. apply Hnin. apply in_map_iff in Hin. destruct Hin as (b & Eb & Hb).
    apply in_map_iff. exists b. split; [exact Eb|].
    apply filter_In in Hb. apply filter_In. destruct Hb as [Hb1 Hb2]. split; auto.
  - destruct (P a); [|apply IH, H].
    simpl in H. apply NoDup_cons_iff in H. apply IH, H.
Qed.

Section Sync.
Variable self : TradingEngine.
Variable now : datetime.
Variable table : list Position.
Hypothesis Hunique : unique_rows self table.

Abbreviation write := (Engine.write self now).
Abbreviation fresh := (Engine.fresh self table).
Abbreviation known := (Engine.known self table).


Lemma is_row_new_position x symbol :
  is_row self symbol (new_position self now x) = String.eqb (Client.xp_symbol x) symbol.
Proof. unfold is_row, new_position. simpl. rewrite String.eqb_refl. reflexivity. Qed.

Lemma is_row_symbol symbol p : is_row self symbol p = true -> pos_symbol p = symbol.
Proof.
  unfold is_row. intros H. apply andb_prop in H. apply String.eqb_eq, H.
Qed.

Lemma is_row_overwrite_eq s x p :
  is_row self s (overwrite now x p) = is_row self s p.
Proof. reflexivity. Qed.

Lemma is_row_write s p x : is_row self s (write p x) = is_row self s p.
Proof. unfold Engine.write. destruct (_ && _); reflexivity. Qed.

Lemma is_row_writes s xs p : is_row self s (fold_left write xs p) = is_row self s p.
Proof.
  revert p. induction xs as [|x xs IH]; intros p; [reflexivity|].
  simpl. rewrite IH. apply is_row_write.
Qed.

Lemma is_ghost_writes symbols xs p :
  is_ghost self symbols (fold_left write xs p) = is_ghost self symbols p.
Proof.
  revert p. induction xs as [|x xs IH]; intros p; [reflexivity|].
  simpl. rewrite IH. unfold Engine.write. destruct (_ && _); reflexivity.
Qed.

(** The loop, in closed form: every loaded object receives the writes of
    the entries for its symbol, in order; the entries without a row are
    added. *)
Lemma sync_loop_closed xs : forall st,
  (exists f, loaded st = map f table /\ forall s p, is_row self s (f p) = is_row self s p) ->
  sync_loop self now table st xs
  = Return {| loaded := map (fun p => fold_left write xs p) (loaded st);
              added := added st ++ map (new_position self now) (List.filter fresh xs);
              n_updated := n_updated st + length (List.filter known xs);
              n_created := n_created st + length (List.filter fresh xs) |}.
Proof.
  induction xs as [|x xs IH]; intros st (f & Hl & Hf).
  - simpl. rewrite map_id, app_nil_r, !Nat.add_0_r. destruct st; reflexivity.
  - cbn [sync_loop List.filter]. unfold sync_one.
    destruct (Qeqb (Client.xp_amount x) 0) eqn:Z.
    + assert (F : fresh x = false) by (unfold Engine.fresh, nonzero; rewrite Z; reflexivity).
      assert (K : known x = false) by (unfold Engine.known, nonzero; rewrite Z; reflexivity).
      rewrite F, K. cbn [Py.bind]. rewrite IH by eauto. f_equal. f_equal.
      apply map_ext. intros p. cbn [fold_left].
      assert (W : write p x = p) by (unfold Engine.write, nonzero; rewrite Z; reflexivity).
      rewrite W. reflexivity.
    + fold (rows_of self (Client.xp_symbol x) table).
      pose proof (Hunique (Client.xp_symbol x)) as U.
      destruct (rows_of self (Client.xp_symbol x) table) as [|r [|r' rest]] eqn:R.
      * assert (F : fresh x = true) by (unfold Engine.fresh, nonzero; rewrite Z, R; reflexivity).
        assert (K : known x = false) by (unfold Engine.known, nonzero; rewrite Z, R; reflexivity).
        rewrite F, K. cbn [Py.bind].
        rewrite IH by (cbn [loaded]; eauto). cbn [loaded added n_updated n_created].
        f_equal. f_equal.
        -- rewrite Hl, !map_map. apply map_ext_in. intros p Hp. cbn [fold_left].
           f_equal. unfold Engine.write. rewrite Hf.
           assert (E : is_row self (Client.xp_symbol x) p = false).
           { destruct (is_row self (Client.xp_symbol x) p) eqn:E; [|reflexivity].
             assert (In p (rows_of self (Client.xp_symbol x) table))
               by (apply filter_In; split; assumption).
             rewrite R in H. contradiction. }
           rewrite E, andb_false_r. reflexivity.
        -- cbn [map length]. rewrite <- app_assoc. reflexivity.
        -- cbn [length]. lia.
      * assert (F : fresh x = false) by (unfold Engine.fresh, nonzero; rewrite Z, R; reflexivity).
        assert (K : known x = true) by (unfold Engine.known, nonzero; rewrite Z, R; reflexivity).
        rewrite F, K. cbn [Py.bind].
        rewrite IH.
        2:{ cbn [loaded]. exists (fun p => write (f p) x). split.
            - rewrite Hl, map_map. apply map_ext. intros p. unfold Engine.write, nonzero.
              rewrite Z. reflexivity.
            - intros s p. rewrite is_row_write. apply Hf. }
        cbn [loaded added n_updated n_created]. f_equal. f_equal.
        -- rewrite map_map. apply map_ext. intros p. cbn [fold_left]. f_equal.
           unfold Engine.write, nonzero. rewrite Z. reflexivity.
        -- cbn [length]. lia.
      * cbn [length] in U. lia.
Qed.

(** The writes a loaded object receives. *)
Lemma writes_none xs p :
  (forall x, In x xs -> nonzero x = true -> is_row self (Client.xp_symbol x) p = false) ->
  fold_left write xs p = p.
Proof.
  induction xs as [|y ys IH]; intros H; [reflexivity|]. cbn [fold_left].
  assert (W : write p y = p).
  { unfold Engine.write. destruct (nonzero y) eqn:N; [|reflexivity].
    rewrite (H y) by (auto; left; reflexivity). reflexivity. }
  rewrite W. apply IH. intros x Hx. apply H. right. exact Hx.
Qed.

Lemma writes_hit xs x p :
  List.NoDup (map Client.xp_symbol (List.filter nonzero xs)) ->
  In x xs -> nonzero x = true -> is_row self (Client.xp_symbol x) p = true ->
  fold_left write xs p = overwrite now x p.
Proof.
  induction xs as [|y ys IH]; intros Hnd Hin Hnz Hrow; [contradiction|].
  cbn [fold_left]. cbn [List.filter] in Hnd.
  destruct (nonzero y && is_row self (Client.xp_symbol y) p) eqn:C.
  - apply andb_prop in C. destruct C as [Ny Ry]. rewrite Ny in Hnd. cbn [map] in Hnd.
    apply NoDup_cons_iff in Hnd. destruct Hnd as [Hnin Hnd].
    assert (Es : Client.xp_symbol x = Client.xp_symbol y).
    { rewrite <- (is_row_symbol _ _ Hrow). apply is_row_symbol. exact Ry. }
    destruct Hin as [->|Hin].
    + unfold Engine.write at 2. rewrite Ny, Ry. cbn [andb]. apply writes_none.
      intros z Hz Nz. rewrite is_row_overwrite_eq.
      destruct (is_row self (Client.xp_symbol z) p) eqn:Rz; [|reflexivity].
      exfalso. apply Hnin. apply in_map_iff. exists z. split.
      * rewrite <- (is_row_symbol _ _ Rz). apply is_row_symbol. exact Ry.
      * apply filter_In. split; assumption.
    + exfalso. apply Hnin. apply in_map_iff. exists x. split; [exact Es|].
      apply filter_In. split; assumption.
  - assert (W : write p y = p) by (unfold Engine.write; rewrite C; reflexivity).
    rewrite W. apply IH; try assumption.
    + destruct (nonzero y); [|exact Hnd]. cbn [map] in Hnd.
      apply NoDup_cons_iff in Hnd. apply Hnd.
    + destruct Hin as [->|Hin]; [|exact Hin].
      rewrite Hnz, Hrow in C. discriminate.
Qed.

Variable xs : list Client.ExchangePosition.
Hypothesis Hset : exchange_set xs.

Lemma nonzero_reported x : 0 <= Client.xp_amount x -> nonzero x = reported x.
Proof.
  intros H. unfold nonzero, reported.
  destruct (Qeqb (Client.xp_amount x) 0) eqn:Z; cbn [negb]; symmetry.
  - apply Qeqb_eq in Z. apply Qltb_ge. lra.
  - apply Qeqb_neq in Z. apply Qltb_lt.
    destruct (Qlt_le_dec 0 (Client.xp_amount x)) as [L|L]; [exact L|].
    exfalso. apply Z. lra.
Qed.

Lemma nonzero_reported_in x : In x xs -> nonzero x = reported x.
Proof.
  intros H. apply nonzero_reported. destruct Hset as [Hpos _].
  rewrite Forall_forall in Hpos. apply Hpos, list_elem_of_In, H.
Qed.

Lemma NoDup_nonzero : List.NoDup (map Client.xp_symbol (List.filter nonzero xs)).
Proof.
  destruct Hset as [_ Hnd]. apply NoDup_ListNoDup in Hnd.
  rewrite (filter_ext_in nonzero reported xs nonzero_reported_in). exact Hnd.
Qed.

Lemma elem_of_pacifica_symbols s :
  s ∈ pacifica_symbols xs
  <-> exists x, In x xs /\ reported x = true /\ Client.xp_symbol x = s.
Proof.
  unfold pacifica_symbols. rewrite elem_of_list_to_set, list_elem_of_In, in_map_iff.
  split.
  - intros (x & E & Hx). apply filter_In in Hx. destruct Hx. eauto.
  - intros (x & Hx & R & E). exists x. split; [exact E|]. apply filter_In. auto.
Qed.

Lemma fresh_nonzero x : fresh x = true -> nonzero x = true.
Proof. unfold Engine.fresh. intros H. apply andb_prop in H. apply H. Qed.

Lemma sync_loop_run :
  sync_loop self now table
    {| loaded := table; added := []; n_updated := 0; n_created := 0 |} xs
  = Return {| loaded := map (fun p => fold_left write xs p) table;
              added := map (new_position self now) (List.filter fresh xs);
              n_updated := length (List.filter known xs);
              n_created := length (List.filter fresh xs) |}.
Proof.
  rewrite sync_loop_closed; [reflexivity|].
  exists (fun p => p). split; [symmetry; apply map_id|reflexivity].
Qed.

Lemma NoDup_added :
  NoDup (map pos_symbol (map (new_position self now) (List.filter fresh xs))).
Proof.
  rewrite map_map. cbn [new_position pos_symbol]. apply NoDup_ListNoDup.
  apply (NoDup_map_filter_weaken Client.xp_symbol nonzero fresh xs fresh_nonzero).
  exact NoDup_nonzero.
Qed.

End Sync.

Lemma sync_run self now table client body :
  pacifica_client self = Some client ->
  Client.keypair client = true ->
  unique_rows self table ->
  exchange_set (exchange_positions body) ->
  sync_positions_from_pacifica self now (Return body) (Some table)
  = Synced (synced_table self now table (exchange_positions body))
           (synced_report self table (exchange_positions body)).
Proof.
  intros Hc Hk Hu Hs. unfold sync_positions_from_pacifica, Client.get_positions.
  rewrite Hc, Hk. cbn [negb].
  rewrite (sync_loop_run self now table Hu). cbn [added loaded n_updated n_created].
  rewrite bool_decide_eq_true_2 by (apply NoDup_added; assumption).
  reflexivity.
Qed.

Lemma rows_of_synced self now table xs s :
  unique_rows self table ->
  exchange_set xs ->
  rows_of self s (synced_table self now table xs)
  = match List.filter (fun x => reported x && String.eqb (Client.xp_symbol x) s) xs with
    | [] => []
    | x :: _ =>
        match rows_of self s table with
        | [] => [new_position self now x]
        | p :: _ => [overwrite now x p]
        end
    end.
Proof.
  intros Hu Hs.
  (* the entries for [s] *)
  assert (EX : List.filter (fun x => reported x && String.eqb (Client.xp_symbol x) s) xs
               = List.filter (fun x => String.eqb (Client.xp_symbol x) s)
                   (List.filter nonzero xs)).
  { rewrite filter_filter_andb. apply filter_ext_in. intros x Hx.
    rewrite (nonzero_reported_in xs Hs x Hx). reflexivity. }
  assert (HX : forall x, In x (List.filter
                   (fun x => reported x && String.eqb (Client.xp_symbol x) s) xs) ->
               In x xs /\ reported x = true /\ nonzero x = true
               /\ Client.xp_symbol x = s).
  { intros x Hx. apply filter_In in Hx. destruct Hx as [Hin C].
    apply andb_prop in C. destruct C as [C1 C2]. apply String.eqb_eq in C2.
    repeat split; try assumption. rewrite (nonzero_reported_in xs Hs x Hin). exact C1. }
  pose proof (filter_key_unique Client.xp_symbol s _ (NoDup_nonzero xs Hs)) as UX.
  rewrite <- EX in UX. clear EX.
  (* the two parts of the committed table *)
  unfold synced_table, rows_of at 1. rewrite List.filter_app.
  rewrite filter_filter_comm.
  rewrite (filter_map_commute (is_row self s) (is_row self s)
             (fun p => fold_left (write self now) xs p))
    by (intros p; apply is_row_writes).
  rewrite (filter_map_commute (is_row self s)
             (fun x => String.eqb (Client.xp_symbol x) s) (new_position self now))
    by (intros x; apply is_row_new_position).
  rewrite filter_filter_andb.
  fold (rows_of self s table).
  pose proof (Hu s) as UR.
  assert (HR : forall p, In p (rows_of self s table) -> is_row self s p = true).
  { intros p Hp. apply filter_In in Hp. apply Hp. }
  assert (Hghost : forall p, is_row self s p = true ->
             is_ghost self (pacifica_symbols xs) (fold_left (write self now) xs p)
             = negb (bool_decide (s ∈ pacifica_symbols xs))).
  { intros p Hp. rewrite is_ghost_writes. unfold is_ghost.
    unfold is_row in Hp. apply andb_prop in Hp. destruct Hp as [Hp1 Hp2].
    apply String.eqb_eq in Hp2. rewrite Hp1, Hp2. reflexivity. }
  destruct UX as [X0|[x X1]].
  - (* the exchange does not report [s] *)
    rewrite X0.
    assert (Hnot : bool_decide (s ∈ pacifica_symbols xs) = false).
    { apply bool_decide_eq_false_2. intros Hin.
      apply elem_of_pacifica_symbols in Hin. destruct Hin as (x & Hx & R & E).
      assert (Hin : In x (List.filter
                (fun x => reported x && String.eqb (Client.xp_symbol x) s) xs)).
      { apply filter_In. split; [exact Hx|]. rewrite R, E, String.eqb_refl. reflexivity. }
      rewrite X0 in Hin. contradiction. }
    rewrite (filter_none (fun x => fresh self table x && _) xs).
    2:{ intros x Hx. destruct (fresh self table x && _) eqn:C; [|reflexivity].
        exfalso. apply andb_prop in C. destruct C as [C1 C2].
        assert (Hin : In x (List.filter
                  (fun x => reported x && String.eqb (Client.xp_symbol x) s) xs)).
        { apply filter_In. split; [exact Hx|].
          rewrite <- (nonzero_reported_in xs Hs x Hx), (fresh_nonzero _ _ _ C1), C2.
          reflexivity. }
        rewrite X0 in Hin. contradiction. }
    cbn [map]. rewrite app_nil_r.
    destruct (rows_of self s table) as [|p [|p' rest]]; [reflexivity| |cbn [length] in UR; lia].
    cbn [map List.filter]. rewrite Hghost by (apply HR; left; reflexivity).
    rewrite Hnot. reflexivity.
  - (* the exchange reports [s], with entry [x] *)
    rewrite X1.
    destruct (HX x) as (Hin & Rx & Nx & Ex); [rewrite X1; left; reflexivity|].
    assert (Hyes : bool_decide (s ∈ pacifica_symbols xs) = true).
    { apply bool_decide_eq_true_2. apply elem_of_pacifica_symbols. eauto. }
    destruct (rows_of self s table) as [|p [|p' rest]] eqn:R; [| |cbn [length] in UR; lia].
    + cbn [map List.filter app].
      rewrite (filter_ext_in
                 (fun x => fresh self table x && String.eqb (Client.xp_symbol x) s)
                 (fun x => reported x && String.eqb (Client.xp_symbol x) s) xs).
      * rewrite X1. reflexivity.
      * intros y Hy. destruct (String.eqb_spec (Client.xp_symbol y) s) as [E|E];
          [|rewrite !andb_false_r; reflexivity].
        rewrite !andb_true_r. unfold Engine.fresh. rewrite E, R, andb_true_r.
        apply nonzero_reported_in with (xs := xs); assumption.
    + cbn [map List.filter]. rewrite Hghost by (apply HR; left; reflexivity).
      rewrite Hyes. cbn [negb].
      rewrite (filter_none (fun x => fresh self table x && _) xs).
      2:{ intros y Hy. destruct (String.eqb_spec (Client.xp_symbol y) s) as [E|E];
            [|apply andb_false_r].
          unfold Engine.fresh. rewrite E, R, andb_false_r. reflexivity. }
      cbn [map app]. f_equal.
      apply writes_hit; try assumption.
      * apply NoDup_nonzero. exact Hs.
      * rewrite Ex. apply HR. left. reflexivity.
Qed.

(** The entries of a set for the symbol of one of them. *)
Lemma entries_of_reported xs x :
  exchange_set xs -> In x xs -> reported x = true ->
  List.filter (fun y => reported y && String.eqb (Client.xp_symbol y) (Client.xp_symbol x)) xs
  = [x].
Proof.
  intros Hs Hin R.
  assert (Hx : In x (List.filter
              (fun y => reported y && String.eqb (Client.xp_symbol y) (Client.xp_symbol x)) xs)).
  { apply filter_In. split; [exact Hin|]. rewrite R, String.eqb_refl. reflexivity. }
  assert (E : List.filter
                (fun y => reported y && String.eqb (Client.xp_symbol y) (Client.xp_symbol x)) xs
              = List.filter (fun y => String.eqb (Client.xp_symbol y) (Client.xp_symbol x))
                  (List.filter nonzero xs)).
  { rewrite filter_filter_andb. apply filter_ext_in. intros y Hy.
    rewrite (nonzero_reported_in xs Hs y Hy). reflexivity. }
  destruct (filter_key_unique Client.xp_symbol (Client.xp_symbol x) _ (NoDup_nonzero xs Hs))
    as [U|[y U]]; rewrite <- E in U; rewrite U in Hx |- *.
  - contradiction.
  - destruct Hx as [->|[]]. reflexivity.
Qed.

Lemma entries_of_unreported xs s :
  (forall x, In x xs -> reported x = true -> Client.xp_symbol x <> s) ->
  List.filter (fun y => reported y && String.eqb (Client.xp_symbol y) s) xs = [].
Proof.
  intros H. apply filter_none. intros x Hx.
  destruct (reported x) eqn:R; [|reflexivity].
  cbn [andb]. apply String.eqb_neq. apply H; assumption.
Qed.

Lemma unique_rows_cases self table s :
  unique_rows self table ->
  rows_of self s table = [] \/ exists p, rows_of self s table = [p].
Proof.
  intros H. specialize (H s).
  destruct (rows_of self s table) as [|p [|p' rest]]; [left; reflexivity|right; eauto|].
  cbn [length] in H. lia.
Qed.

(** C5.  Let the exchange answer with a set of positions (no negative
    amount, no symbol twice) and let the table satisfy its unique
    constraint.  One run commits a table in which: a symbol the exchange
    does not report has no row of this strategy left; a reported symbol
    that had no row has exactly one, created with the exchange's side,
    amount and entry price; a reported symbol that had a row has exactly
    that row, with side, amount and entry price overwritten by the
    exchange's. *)
Theorem sync_reconciles self now table client body :
  let xs := exchange_positions body in
  pacifica_client self = Some client ->
  Client.keypair client = true ->
  unique_rows self table ->
  exchange_set xs ->
  exists table' report,
    sync_positions_from_pacifica self now (Return body) (Some table)
    = Synced table' report
    /\ (forall s,
          (forall x, In x xs -> reported x = true -> Client.xp_symbol x <> s) ->
          rows_of self s table' = [])
    /\ (forall x,
          In x xs -> reported x = true ->
          rows_of self (Client.xp_symbol x) table = [] ->
          exists r,
            rows_of self (Client.xp_symbol x) table' = [r]
            /\ pos_side r = Client.xp_side x
            /\ pos_amount r = Client.xp_amount x
            /\ pos_entry_price r = Client.xp_entry_price x)
    /\ (forall x p,
          In x xs -> reported x = true ->
          In p (rows_of self (Client.xp_symbol x) table) ->
          exists r,
            rows_of self (Client.xp_symbol x) table' = [r]
            /\ pos_side r = Client.xp_side x
            /\ pos_amount r = Client.xp_amount x
            /\ pos_entry_price r = Client.xp_entry_price x
            /\ r = overwrite now x p).
Proof.
  intros xs Hc Hk Hu Hs.
  exists (synced_table self now table xs), (synced_report self table xs).
  split; [apply (sync_run self now table client body); assumption|].
  split; [|split].
  - intros s Hno. rewrite rows_of_synced by assumption.
    rewrite entries_of_unreported by exact Hno. reflexivity.
  - intros x Hin R Hnone. rewrite rows_of_synced by assumption.
    rewrite entries_of_reported by assumption. rewrite Hnone.
    eexists. split; [reflexivity|]. repeat split.
  - intros x p Hin R Hp. rewrite rows_of_synced by assumption.
    rewrite entries_of_reported by assumption.
    destruct (unique_rows_cases self table (Client.xp_symbol x) Hu) as [E|[q E]];
      rewrite E in Hp |- *; [contradiction|].
    destruct Hp as [->|[]]. eexists. split; [reflexivity|]. repeat split.
Qed.

Lemma is_row_own self p :
  pos_strategy_id p = strategy_id self -> is_row self (pos_symbol p) p = true.
Proof. intros H. unfold is_row. rewrite H, !String.eqb_refl. reflexivity. Qed.

Lemma is_row_strategy self s p :
  is_row self s p = true -> pos_strategy_id p = strategy_id self.
Proof. unfold is_row. intros H. apply andb_prop in H. apply String.eqb_eq, H. Qed.

Lemma unique_rows_synced self now table xs :
  unique_rows self table -> exchange_set xs ->
  unique_rows self (synced_table self now table xs).
Proof.
  intros Hu Hs s. rewrite rows_of_synced by assumption.
  destruct (List.filter _ xs); [cbn; lia|].
  destruct (rows_of self s table); cbn; lia.
Qed.

(** Where a row of this strategy in the committed table comes from. *)
Lemma synced_row_origin self now table xs q :
  unique_rows self table -> exchange_set xs ->
  In q (synced_table self now table xs) ->
  pos_strategy_id q = strategy_id self ->
  exists x,
    In x xs /\ reported x = true /\ Client.xp_symbol x = pos_symbol q
    /\ (q = new_position self now x \/ exists p, q = overwrite now x p).
Proof.
  intros Hu Hs Hq Hmine.
  assert (Hin : In q (rows_of self (pos_symbol q) (synced_table self now table xs))).
  { apply filter_In. split; [exact Hq|apply is_row_own, Hmine]. }
  rewrite rows_of_synced in Hin by assumption.
  destruct (List.filter _ xs) as [|x X] eqn:EX; [contradiction|].
  assert (Hx : In x (List.filter
                (fun x => reported x && String.eqb (Client.xp_symbol x) (pos_symbol q)) xs))
    by (rewrite EX; left; reflexivity).
  apply filter_In in Hx. destruct Hx as [Hx C]. apply andb_prop in C.
  destruct C as [R E]. apply String.eqb_eq in E.
  exists x. repeat split; try assumption.
  destruct (rows_of self (pos_symbol q) table) as [|p rest];
    destruct Hin as [<-|[]]; [left; reflexivity|right; eauto].
Qed.

Lemma rows_of_synced_reported self now table xs x :
  unique_rows self table -> exchange_set xs ->
  In x xs -> reported x = true ->
  rows_of self (Client.xp_symbol x) (synced_table self now table xs) <> [].
Proof.
  intros Hu Hs Hin R. rewrite rows_of_synced by assumption.
  rewrite entries_of_reported by assumption.
  destruct (rows_of self (Client.xp_symbol x) table); discriminate.
Qed.

(** A second run on the table the first run committed. *)
Lemma second_run_table self now1 now2 table xs :
  unique_rows self table -> exchange_set xs ->
  let table1 := synced_table self now1 table xs in
  synced_table self now2 table1 xs = map (touch self now2) table1
  /\ synced_report self table1 xs
     = {| active := length xs;
          updated_count := length (List.filter reported xs);
          created_count := 0;
          deleted_count := 0 |}.
Proof.
  intros Hu Hs table1.
  assert (Hfresh : List.filter (fresh self table1) xs = []).
  { apply filter_none. intros x Hx. unfold fresh.
    destruct (nonzero x) eqn:N; [|reflexivity]. cbn [andb].
    rewrite (nonzero_reported_in xs Hs x Hx) in N.
    pose proof (rows_of_synced_reported self now1 table xs x Hu Hs Hx N) as NE.
    fold table1 in NE. destruct (rows_of self (Client.xp_symbol x) table1);
      [contradiction|reflexivity]. }
  assert (Hknown : List.filter (known self table1) xs = List.filter reported xs).
  { apply filter_ext_in. intros x Hx. unfold known.
    rewrite (nonzero_reported_in xs Hs x Hx).
    destruct (reported x) eqn:R; [|reflexivity]. cbn [andb].
    pose proof (rows_of_synced_reported self now1 table xs x Hu Hs Hx R) as NE.
    fold table1 in NE. destruct (rows_of self (Client.xp_symbol x) table1);
      [contradiction|reflexivity]. }
  assert (Hghost : forall q, In q table1 ->
             is_ghost self (pacifica_symbols xs) q = false).
  { intros q Hq. unfold is_ghost.
    destruct (String.eqb_spec (pos_strategy_id q) (strategy_id self)) as [E|E];
      [|reflexivity].
    destruct (synced_row_origin self now1 table xs q Hu Hs Hq E) as (x & Hx & R & Es & _).
    cbn [andb]. rewrite bool_decide_eq_true_2; [reflexivity|].
    apply elem_of_pacifica_symbols. eauto. }
  split.
  - unfold synced_table at 1. rewrite Hfresh. cbn [map]. rewrite app_nil_r.
    rewrite filter_all.
    2:{ intros q' Hq'. apply in_map_iff in Hq'. destruct Hq' as (q & <- & Hq).
        rewrite is_ghost_writes, (Hghost q Hq). reflexivity. }
    apply map_ext_in. intros q Hq. unfold touch.
    destruct (String.eqb_spec (pos_strategy_id q) (strategy_id self)) as [E|E].
    + destruct (synced_row_origin self now1 table xs q Hu Hs Hq E)
        as (x & Hx & R & Es & Hform).
      rewrite (writes_hit self now2 xs x q).
      * destruct Hform as [->|[p ->]]; reflexivity.
      * apply NoDup_nonzero, Hs.
      * exact Hx.
      * rewrite (nonzero_reported_in xs Hs x Hx). exact R.
      * rewrite Es. apply is_row_own, E.
    + apply writes_none. intros x _ _.
      destruct (is_row self (Client.xp_symbol x) q) eqn:C; [|reflexivity].
      exfalso. apply E. eapply is_row_strategy, C.
  - unfold synced_report. rewrite Hfresh, Hknown.
    rewrite (filter_none (is_ghost self (pacifica_symbols xs)) table1 Hghost).
    reflexivity.
Qed.

(** C6, as amended.  Under the same conditions, a second run with the
    same answer of the exchange creates nothing and deletes nothing, and
    it leaves every row as the first run committed it, apart from
    [updated_at]; it rewrites, and reports as updated, one row per
    position the exchange reports. *)
Theorem sync_twice self now1 now2 table client body :
  let xs := exchange_positions body in
  pacifica_client self = Some client ->
  Client.keypair client = true ->
  unique_rows self table ->
  exchange_set xs ->
  exists table1 report1,
    sync_positions_from_pacifica self now1 (Return body) (Some table)
    = Synced table1 report1
    /\ sync_positions_from_pacifica self now2 (Return body) (Some table1)
       = Synced (map (touch self now2) table1)
           {| active := length xs;
              updated_count := length (List.filter reported xs);
              created_count := 0;
              deleted_count := 0 |}.
Proof.
  intros xs Hc Hk Hu Hs.
  exists (synced_table self now1 table xs), (synced_report self table xs).
  split; [apply (sync_run self now1 table client body); assumption|].
  rewrite (sync_run self now2 _ client body); try assumption.
  - fold xs. destruct (second_run_table self now1 now2 table xs Hu Hs) as [-> ->].
    reflexivity.
  - apply unique_rows_synced; assumption.
Qed.

(** The constraint holds when the rows of the strategy have distinct
    symbols. *)
Lemma unique_rows_intro self table :
  List.NoDup
    (map pos_symbol
       (List.filter (fun p => String.eqb (pos_strategy_id p) (strategy_id self)) table)) ->
  unique_rows self table.
Proof.
  intros H s. unfold rows_of.
  rewrite (filter_ext (is_row self s)
             (fun p => String.eqb (pos_strategy_id p) (strategy_id self)
                       && String.eqb (pos_symbol p) s)) by reflexivity.
  rewrite <- filter_filter_andb.
  destruct (filter_key_unique pos_symbol s _ H) as [->|[a ->]]; cbn; lia.
Qed.

(** The scenario: BTC is deleted, ETH is created with amount 2 at 3000,
    and SOL 5 becomes SOL 7. *)
Lemma sync_reconciles_witness :
  exists table' report,
    sync_positions_from_pacifica Scenario.live_engine Scenario.t0
      (Return Scenario.exchange_body) (Some Scenario.local_table)
    = Synced table' report
    /\ rows_of Scenario.live_engine "BTC" table' = []
    /\ (exists r, rows_of Scenario.live_engine "ETH" table' = [r]
                  /\ pos_amount r = 2 /\ pos_entry_price r = 3000)
    /\ (exists r, rows_of Scenario.live_engine "SOL" table' = [r]
                  /\ pos_amount r = 7).
Proof.
  assert (Hu : unique_rows Scenario.live_engine Scenario.local_table).
  { apply unique_rows_intro. vm_compute.
    repeat constructor; cbn; intuition discriminate. }
  assert (Hs : exchange_set (exchange_positions Scenario.exchange_body)).
  { split.
    - repeat constructor; vm_compute; discriminate.
    - apply NoDup_ListNoDup. vm_compute.
      repeat constructor; cbn; intuition discriminate. }
  destruct (sync_reconciles Scenario.live_engine Scenario.t0 Scenario.local_table
              {| Client.keypair := true |} Scenario.exchange_body
              eq_refl eq_refl Hu Hs)
    as (table' & report & Run & Gone & Created & Overwritten).
  exists table', report. split; [exact Run|]. split; [|split].
  - apply Gone. cbn. intros x [<-|[<-|[]]] _; discriminate.
  - destruct (Created Scenario.eth) as (r & Hr & _ & Ha & He);
      [cbn; auto|reflexivity|reflexivity|].
    exists r. repeat split; assumption.
  - destruct (Overwritten Scenario.sol (Scenario.local_row "SOL" 5))
      as (r & Hr & _ & Ha & _); [cbn; auto|reflexivity|cbn; auto|].
    exists r. repeat split; assumption.
Defined.

(** C6, counterexample.  With SOL 7 on the exchange and an empty table,
    the first run creates the row and the second run, with the exchange
    unchanged, reports one update. *)
Lemma second_run_reports_an_update :
  exists table1 report1 table2 report2,
    sync_positions_from_pacifica Scenario.live_engine Scenario.t0
      (Return (Client.BodyList [Scenario.sol])) (Some [])
    = Synced table1 report1
    /\ sync_positions_from_pacifica Scenario.live_engine (Scenario.t0 + 60000000)%Z
         (Return (Client.BodyList [Scenario.sol])) (Some table1)
       = Synced table2 report2
    /\ created_count report1 = 1%nat
    /\ updated_count report2 = 1%nat.
Proof.
  eexists _, _, _, _. split; [vm_compute; reflexivity|].
  split; [vm_compute; reflexivity|]. split; reflexivity.
Qed.

(** The scenario, run twice: the second run reports two updates, no
    creation and no deletion. *)
Lemma sync_twice_witness :
  exists table1 report1,
    sync_positions_from_pacifica Scenario.live_engine Scenario.t0
      (Return Scenario.exchange_body) (Some Scenario.local_table)
    = Synced table1 report1
    /\ sync_positions_from_pacifica Scenario.live_engine (Scenario.t0 + 60000000)%Z
         (Return Scenario.exchange_body) (Some table1)
       = Synced (map (touch Scenario.live_engine (Scenario.t0 + 60000000)%Z) table1)
           {| active := 2; updated_count := 2; created_count := 0; deleted_count := 0 |}.
Proof.
  assert (Hu : unique_rows Scenario.live_engine Scenario.local_table).
  { apply unique_rows_intro. vm_compute.
    repeat constructor; cbn; intuition discriminate. }
  assert (Hs : exchange_set (exchange_positions Scenario.exchange_body)).
  { split.
    - repeat constructor; vm_compute; discriminate.
    - apply NoDup_ListNoDup. vm_compute.
      repeat constructor; cbn; intuition discriminate. }
  exact (sync_twice Scenario.live_engine Scenario.t0 (Scenario.t0 + 60000000)%Z
           Scenario.local_table {| Client.keypair := true |} Scenario.exchange_body
           eq_refl eq_refl Hu Hs).
Defined.

End SyncFacts.

(** ** The risk checks one by one *)

Module RiskLaws.
Import Py PyFacts Risk.
Local Open Scope Q_scope.

(** *** Cooldown and daily counts *)

Lemma reset_last_trade_time now self :
  last_trade_time (reset_daily_counts_if_needed now self) = last_trade_time self.
Proof.
  unfold reset_daily_counts_if_needed.
  destruct (last_reset_date self) as [d|]; [destruct (negb _)|]; reflexivity.
Qed.

Lemma record_trade_last_trade_time t self s :
  last_trade_time (record_trade t self s) !! upper s = Some t.
Proof. unfold record_trade. cbn [last_trade_time]. apply lookup_insert_eq. Qed.

Lemma check_symbol_blacklist_bound self bl symbol :
  instance_dict self !! "symbol_blacklist"%string = Some (VSet bl) ->
  check_symbol_blacklist self symbol
  = if bool_decide (upper symbol ∈ bl) then Return (reject (SymbolBlacklisted symbol))
    else Return (accept SymbolNotBlacklisted).
Proof.
  intros H. unfold check_symbol_blacklist, getattr. rewrite H. reflexivity.
Qed.

(** X1.  A trade recorded for a symbol at [t] blocks every order for
    that symbol, in any letter case, while fewer than
    [trade_cooldown_seconds] have passed since [t]: [check_order] returns
    the cooldown rejection with the remaining time, whatever the amount,
    the price and the state of the store, which it does not read. *)
Theorem cooldown_blocks_orders
    env self t strategy_id traded symbol side amount price order_type bl :
  instance_dict self !! "symbol_blacklist"%string = Some (VSet bl) ->
  upper symbol ∉ bl ->
  upper symbol = upper traded ->
  total_seconds (utcnow env) t < inject_Z (trade_cooldown_seconds (settings env)) ->
  fst (check_order env (record_trade t self traded) strategy_id symbol side amount price
         order_type)
  = Return (reject (CooldownActive symbol
                      (inject_Z (trade_cooldown_seconds (settings env))
                       - total_seconds (utcnow env) t)
                      (trade_cooldown_seconds (settings env)))).
Proof.
  intros Hbl Hfree Hsame Hcool. unfold check_order.
  rewrite (check_symbol_blacklist_bound _ bl)
    by (rewrite RiskFacts.record_trade_instance_dict; exact Hbl).
  rewrite bool_decide_eq_false_2 by exact Hfree. cbn [approved accept negb].
  unfold check_trade_frequency.
  rewrite reset_last_trade_time, Hsame, record_trade_last_trade_time.
  cbn [_limits lim_trade_cooldown_seconds].
  rewrite (proj2 (Qltb_lt _ _) Hcool). reflexivity.
Qed.

(** A trade in ["sol"] one minute ago blocks an order of zero notional
    for ["SOL"] while every session raises. *)
Lemma cooldown_blocks_orders_witness :
  let blacklist := parse_blacklist (symbol_blacklist default_settings) in
  (instance_dict (Scenario.with_limits default_settings) !! "symbol_blacklist"%string
   = Some (VSet blacklist)
   /\ (upper "SOL" ∉ blacklist)
   /\ upper "SOL" = upper "sol"
   /\ total_seconds Scenario.t0 (Scenario.t0 - 60000000)%Z < inject_Z 300)
  /\ fst (check_order Scenario.store_down
            (record_trade (Scenario.t0 - 60000000)%Z
               (Scenario.with_limits default_settings) "sol")
            "s1" "SOL" "bid" 0 0 "market")
     = Return (reject (CooldownActive "SOL"
                         (inject_Z 300
                          - total_seconds Scenario.t0 (Scenario.t0 - 60000000)%Z)
                         300)).
Proof.
  intros blacklist.
  assert (H : instance_dict (Scenario.with_limits default_settings)
                !! "symbol_blacklist"%string = Some (VSet blacklist)
              /\ (upper "SOL" ∉ blacklist)
              /\ upper "SOL" = upper "sol"
              /\ total_seconds Scenario.t0 (Scenario.t0 - 60000000)%Z < inject_Z 300).
  { split; [reflexivity|]. split; [|split; [reflexivity|vm_compute; reflexivity]].
    unfold blacklist, parse_blacklist. rewrite elem_of_list_to_set, list_elem_of_In.
    vm_compute. intuition discriminate. }
  split; [exact H|]. destruct H as (Hbl & Hfree & Hsame & Hcool).
  exact (cooldown_blocks_orders Scenario.store_down (Scenario.with_limits default_settings)
           (Scenario.t0 - 60000000)%Z "s1" "sol" "SOL" "bid" 0 0 "market" blacklist
           Hbl Hfree Hsame Hcool).
Defined.

Lemma reset_same_day now self :
  same_day now self -> reset_daily_counts_if_needed now self = self.
Proof.
  intros (d & E & D). unfold reset_daily_counts_if_needed.
  rewrite E, D, Z.eqb_refl. reflexivity.
Qed.

Lemma reset_makes_same_day now self : same_day now (reset_daily_counts_if_needed now self).
Proof.
  unfold reset_daily_counts_if_needed.
  destruct (last_reset_date self) as [d|] eqn:E; cbn.
  - destruct (Z.eqb_spec (date d) (date now)) as [D|D]; cbn.
    + exists d. auto.
    + exists now. auto.
  - exists now. auto.
Qed.

Lemma same_day_day t now self : date t = date now -> same_day t self -> same_day now self.
Proof. intros D (d & E & D'). exists d. split; [exact E|congruence]. Qed.

Lemma record_trade_same_day t now self s :
  date t = date now -> same_day now (record_trade t self s).
Proof.
  intros D. destruct (reset_makes_same_day t self) as (d & E & D').
  exists d. unfold record_trade. cbn. split; [exact E|congruence].
Qed.

Lemma record_trade_count_same_day t self s :
  same_day t self ->
  daily_trade_count (record_trade t self s) !! upper s
  = Some (default 0 (daily_trade_count self !! upper s) + 1)%Z.
Proof.
  intros H. unfold record_trade. rewrite (reset_same_day _ _ H). cbn.
  apply lookup_insert_eq.
Qed.

Lemma record_trade_count_fresh t s :
  daily_trade_count (record_trade t Risk.__init__ s) !! upper s = Some 1%Z.
Proof. unfold record_trade. cbn. rewrite lookup_insert_eq. reflexivity. Qed.

(** Trades of one day add up. *)
Lemma trades_same_day now s ts : forall self,
  Forall (fun t => date t = date now) ts -> same_day now self ->
  same_day now (trades s ts self)
  /\ default 0%Z (daily_trade_count (trades s ts self) !! upper s)
     = (default 0 (daily_trade_count self !! upper s) + Z.of_nat (length ts))%Z.
Proof.
  unfold trades.
  induction ts as [|t ts IH]; intros self Hts Hself.
  - split; [exact Hself|]. cbn. lia.
  - inversion Hts as [|? ? D Hts']; subst. cbn [fold_left].
    assert (S1 : same_day now (record_trade t self s))
      by (apply record_trade_same_day; exact D).
    destruct (IH _ Hts' S1) as [A B]. split; [exact A|].
    rewrite B.
    rewrite record_trade_count_same_day
      by (apply (same_day_day now); [congruence|exact Hself]).
    cbn [from_option id length]. lia.
Qed.

Lemma trades_last_trade_time s ts : forall self t,
  last_trade_time self !! upper s = Some t ->
  exists t', last_trade_time (trades s ts self) !! upper s = Some t' /\ In t' (t :: ts).
Proof.
  unfold trades.
  induction ts as [|t1 ts IH]; intros self t H; cbn [fold_left].
  - exists t. split; [exact H|left; reflexivity].
  - destruct (IH (record_trade t1 self s) t1 (record_trade_last_trade_time _ _ _))
      as (t' & E & I).
    exists t'. split; [exact E|right; exact I].
Qed.

(** X2.  Starting from a fresh risk manager, once as many trades have
    been recorded for a symbol on one UTC day as
    [max_trades_per_symbol_per_day] allows, the frequency check rejects
    the symbol for the rest of that day, whether or not the cooldown has
    passed. *)
Theorem daily_cap st now symbol t ts :
  Forall (fun t => date t = date now) (t :: ts) ->
  (max_trades_per_symbol_per_day st <= Z.of_nat (length (t :: ts)))%Z ->
  approved (fst (check_trade_frequency st now (trades symbol (t :: ts) Risk.__init__)
                   symbol))
  = false.
Proof.
  intros Hts Hcap.
  inversion Hts as [|? ? D Hts']; subst.
  assert (S1 : same_day now (record_trade t Risk.__init__ symbol))
    by (apply record_trade_same_day; exact D).
  destruct (trades_same_day now symbol ts _ Hts' S1) as [A B].
  change (trades symbol ts (record_trade t Risk.__init__ symbol))
    with (trades symbol (t :: ts) Risk.__init__) in A, B.
  set (rm := trades symbol (t :: ts) Risk.__init__) in *.
  rewrite record_trade_count_fresh in B. cbn [from_option id] in B.
  unfold check_trade_frequency. rewrite (reset_same_day _ _ A).
  cbn [_limits lim_max_trades_per_symbol_per_day lim_trade_cooldown_seconds].
  rewrite B.
  assert (L : (max_trades_per_symbol_per_day st <=? 1 + Z.of_nat (length ts))%Z = true).
  { apply Z.leb_le. cbn [length] in Hcap. lia. }
  rewrite L.
  destruct (last_trade_time rm !! upper symbol) as [t'|]; [destruct (Qltb _ _)|];
    reflexivity.
Qed.

(** Ten trades in SOL on the day of [t0], the last one an hour before
    the check: the default cap of ten is reached. *)
Lemma daily_cap_witness :
  let now := (Scenario.t0 + 3600000000)%Z in
  (Forall (fun t => date t = date now) (repeat Scenario.t0 10)
   /\ (max_trades_per_symbol_per_day default_settings
       <= Z.of_nat (length (repeat Scenario.t0 10)))%Z)
  /\ approved
       (fst (check_trade_frequency default_settings now
               (trades "SOL" (repeat Scenario.t0 10) Risk.__init__) "SOL"))
     = false.
Proof.
  intros now.
  assert (H : Forall (fun t => date t = date now) (repeat Scenario.t0 10)
              /\ (max_trades_per_symbol_per_day default_settings
                  <= Z.of_nat (length (repeat Scenario.t0 10)))%Z)
    by (split; [repeat constructor|vm_compute; discriminate]).
  split; [exact H|]. destruct H as [Hday Hcap].
  exact (daily_cap default_settings now "SOL" Scenario.t0 (repeat Scenario.t0 9)
           Hday Hcap).
Defined.

(** X3.  The daily counts last one UTC day: on a later day, once the
    cooldown has passed since every recorded trade, the frequency check
    approves the symbol again, however many trades were recorded for it
    the day before. *)
Theorem daily_counts_reset_next_day st now later symbol t ts :
  Forall (fun t => date t = date now) (t :: ts) ->
  date later <> date now ->
  Forall (fun t => inject_Z (trade_cooldown_seconds st) <= total_seconds later t)
    (t :: ts) ->
  (0 < max_trades_per_symbol_per_day st)%Z ->
  fst (check_trade_frequency st later (trades symbol (t :: ts) Risk.__init__) symbol)
  = accept TradeFrequencyOK.
Proof.
  intros Hts Hday Hcool Hmax.
  inversion Hts as [|? ? D Hts']; subst.
  assert (S1 : same_day now (record_trade t Risk.__init__ symbol))
    by (apply record_trade_same_day; exact D).
  destruct (trades_same_day now symbol ts _ Hts' S1) as [(d & E & Dd) _].
  destruct (trades_last_trade_time symbol ts _ t
              (record_trade_last_trade_time t Risk.__init__ symbol)) as (t' & L & I).
  change (trades symbol ts (record_trade t Risk.__init__ symbol))
    with (trades symbol (t :: ts) Risk.__init__) in E, L.
  set (rm := trades symbol (t :: ts) Risk.__init__) in *.
  unfold check_trade_frequency.
  rewrite reset_last_trade_time, L.
  rewrite List.Forall_forall in Hcool. specialize (Hcool t' I).
  cbn [_limits lim_max_trades_per_symbol_per_day lim_trade_cooldown_seconds].
  rewrite (proj2 (Qltb_ge _ _) Hcool).
  unfold reset_daily_counts_if_needed. rewrite E.
  destruct (Z.eqb_spec (date d) (date later)) as [X|X]; [exfalso; congruence|].
  cbn. rewrite lookup_empty. cbn.
  destruct (Z.leb_spec (max_trades_per_symbol_per_day st) 0); [lia|reflexivity].
Qed.

(** Ten trades in SOL on the day of [t0]; a day later the symbol is
    free again. *)
Lemma daily_counts_reset_next_day_witness :
  let later := (Scenario.t0 + 86400000000)%Z in
  (Forall (fun t => date t = date Scenario.t0) (repeat Scenario.t0 10)
   /\ date later <> date Scenario.t0
   /\ Forall (fun t => inject_Z (trade_cooldown_seconds default_settings)
                       <= total_seconds later t) (repeat Scenario.t0 10)
   /\ (0 < max_trades_per_symbol_per_day default_settings)%Z)
  /\ fst (check_trade_frequency default_settings later
            (trades "SOL" (repeat Scenario.t0 10) Risk.__init__) "SOL")
     = accept TradeFrequencyOK.
Proof.
  intros later.
  assert (H : Forall (fun t => date t = date Scenario.t0) (repeat Scenario.t0 10)
              /\ date later <> date Scenario.t0
              /\ Forall (fun t => inject_Z (trade_cooldown_seconds default_settings)
                                  <= total_seconds later t) (repeat Scenario.t0 10)
              /\ (0 < max_trades_per_symbol_per_day default_settings)%Z).
  { split; [repeat constructor|]. split; [vm_compute; discriminate|].
    split; [repeat constructor; vm_compute; discriminate|reflexivity]. }
  split; [exact H|]. destruct H as (Hday & Hlater & Hcool & Hmax).
  exact (daily_counts_reset_next_day default_settings Scenario.t0 later "SOL"
           Scenario.t0 (repeat Scenario.t0 9) Hday Hlater Hcool Hmax).
Defined.

(** *** What an approval implies *)

Lemma and_then_approved c k r :
  and_then c k = Return r -> approved r = true -> approved c = true /\ k = Return r.
Proof.
  unfold and_then. destruct (approved c) eqn:E; [auto|].
  intros [= <-] A. congruence.
Qed.

Lemma bind_return {A B} (c : result A) (k : A -> result B) r :
  Py.bind c k = Return r -> exists a, c = Return a /\ k a = Return r.
Proof. destruct c as [a|e]; [|discriminate]. intros H. exists a. auto. Qed.

(** An approval of [check_order] is an approval of each of the seven
    checks. *)
Lemma check_order_approved env self strategy_id symbol side amount price order_type rc :
  fst (check_order env self strategy_id symbol side amount price order_type) = Return rc ->
  approved rc = true ->
  let rm := snd (check_trade_frequency (settings env) (utcnow env) self symbol) in
  exists bl dl sz pf pl,
    check_symbol_blacklist self symbol = Return bl /\ approved bl = true
    /\ approved (fst (check_trade_frequency (settings env) (utcnow env) self symbol))
       = true
    /\ check_daily_loss_limit (getenv_portfolio_value env) (utcnow env)
         (db env 0%nat) (db env 1%nat) rm strategy_id = Return dl
    /\ approved dl = true
    /\ check_order_size rm amount price = Return sz /\ approved sz = true
    /\ check_profit_viability (settings env) amount price = Return pf
    /\ approved pf = true
    /\ check_position_limit (db env 2%nat) rm strategy_id symbol (amount * price)
       = Return pl
    /\ approved pl = true
    /\ approved (check_leverage (settings env) (getenv_portfolio_value env)
                   (db env 3%nat) (db env 4%nat) strategy_id (amount * price)) = true.
Proof.
  unfold check_order.
  destruct (check_symbol_blacklist self symbol) as [bl|e] eqn:Ebl; [|discriminate].
  destruct (approved bl) eqn:Abl; cbn [negb]; [|cbn; intros [= <-] A; congruence].
  destruct (check_trade_frequency (settings env) (utcnow env) self symbol) as [fr rm]
    eqn:Efr.
  cbn [fst snd]. intros H A.
  apply and_then_approved in H; [|exact A]. destruct H as [Afr H].
  apply bind_return in H. destruct H as (dl & Edl & H).
  apply and_then_approved in H; [|exact A]. destruct H as [Adl H].
  apply bind_return in H. destruct H as (sz & Esz & H).
  apply and_then_approved in H; [|exact A]. destruct H as [Asz H].
  apply bind_return in H. destruct H as (pf & Epf & H).
  apply and_then_approved in H; [|exact A]. destruct H as [Apf H].
  apply bind_return in H. destruct H as (pl & Epl & H).
  apply and_then_approved in H; [|exact A]. destruct H as [Apl H].
  apply and_then_approved in H; [|exact A]. destruct H as [Alv H].
  exists bl, dl, sz, pf, pl. repeat split; assumption || reflexivity.
Qed.

(** X4.  On an instance that has the two size attributes bound, an
    order [check_order] approves has a notional [amount * price] between
    [min_order_size_usd] and [max_order_size_usd], bounds included. *)
Theorem approved_order_within_size_bounds
    env self strategy_id symbol side amount price order_type lo hi rc :
  instance_dict self !! "min_order_size_usd"%string = Some (VFloat lo) ->
  instance_dict self !! "max_order_size_usd"%string = Some (VFloat hi) ->
  fst (check_order env self strategy_id symbol side amount price order_type) = Return rc ->
  approved rc = true ->
  lo <= amount * price /\ amount * price <= hi.
Proof.
  intros Hlo Hhi H A.
  destruct (check_order_approved _ _ _ _ _ _ _ _ _ H A)
    as (bl & dl & sz & pf & pl & _ & _ & _ & _ & _ & Esz & Asz & _).
  revert Esz. unfold check_order_size, getattr.
  rewrite (RiskFacts.check_trade_frequency_instance_dict (settings env) (utcnow env)
             self symbol), Hlo, Hhi.
  cbn [Py.bind as_float].
  destruct (Qltb (amount * price) lo) eqn:L; [intros [= <-]; discriminate|].
  destruct (Qltb hi (amount * price)) eqn:U; [intros [= <-]; discriminate|].
  intros _. apply Qltb_ge in L, U. auto.
Qed.

(** One SOL at 1000 over an empty table is approved, and 1000 lies
    between 50 and 100000. *)
Lemma approved_order_within_size_bounds_witness :
  (exists rc,
     fst (check_order Scenario.store_empty (Scenario.with_limits default_settings)
            "s1" "SOL" "bid" 1 1000 "market") = Return rc
     /\ approved rc = true)
  /\ 50 <= 1 * 1000 /\ 1 * 1000 <= 100000.
Proof.
  assert (E : exists rc,
             fst (check_order Scenario.store_empty (Scenario.with_limits default_settings)
                    "s1" "SOL" "bid" 1 1000 "market") = Return rc
             /\ approved rc = true)
    by (vm_compute; eexists; split; reflexivity).
  split; [exact E|]. destruct E as (rc & E & A).
  apply (approved_order_within_size_bounds Scenario.store_empty
           (Scenario.with_limits default_settings) "s1" "SOL" "bid" 1 1000 "market"
           50 100000 rc); [reflexivity|reflexivity|exact E|exact A].
Defined.

(** X5.  No order of zero notional is ever approved: when
    [amount * price] is zero, [check_order] either returns a rejection of
    an earlier check or raises (the profit check divides by the
    notional). *)
Theorem zero_notional_never_approved
    env self strategy_id symbol side amount price order_type rc :
  amount * price == 0 ->
  fst (check_order env self strategy_id symbol side amount price order_type) = Return rc ->
  approved rc = false.
Proof.
  intros Z H. destruct (approved rc) eqn:A; [|reflexivity]. exfalso.
  destruct (check_order_approved _ _ _ _ _ _ _ _ _ H A)
    as (bl & dl & sz & pf & pl & _ & _ & _ & _ & _ & _ & _ & Epf & _).
  revert Epf. unfold check_profit_viability.
  rewrite (proj2 (Qeqb_eq _ _) Z). discriminate.
Qed.

(** An order for no SOL at all is rejected (as too small, with the
    default minimum of 50). *)
Lemma zero_notional_never_approved_witness :
  0 * 1000 == 0
  /\ exists rc,
       fst (check_order Scenario.store_empty (Scenario.with_limits default_settings)
              "s1" "SOL" "bid" 0 1000 "market") = Return rc
       /\ approved rc = false.
Proof.
  assert (Z : 0 * 1000 == 0) by reflexivity.
  split; [exact Z|].
  assert (E : exists rc,
             fst (check_order Scenario.store_empty (Scenario.with_limits default_settings)
                    "s1" "SOL" "bid" 0 1000 "market") = Return rc)
    by (vm_compute; eexists; reflexivity).
  destruct E as (rc & E). exists rc. split; [exact E|].
  exact (zero_notional_never_approved Scenario.store_empty
           (Scenario.with_limits default_settings) "s1" "SOL" "bid" 0 1000 "market" rc Z E).
Defined.

(** *** The thresholds of the single checks *)

(** X6.  The profit check raises [ZeroDivisionError] on a zero notional;
    on a positive notional it approves exactly when
    [min_profit_target_usd] is at most 4.92 % of the notional (the 5 %
    move less the 0.08 % round-trip fee). *)
Theorem profit_viability_threshold st amount price :
  let order_size_usd := amount * price in
  (order_size_usd == 0 -> check_profit_viability st amount price = Raise ZeroDivisionError)
  /\ (0 < order_size_usd ->
      exists r, check_profit_viability st amount price = Return r
                /\ (approved r = true
                    <-> min_profit_target_usd st <= 0.0492 * order_size_usd)).
Proof.
  intros usd. unfold check_profit_viability. fold usd.
  cbn [_limits lim_min_profit_target_usd]. split.
  - intros Z. rewrite (proj2 (Qeqb_eq _ _) Z). reflexivity.
  - intros P. assert (N : ~ usd == 0) by lra.
    rewrite (proj2 (Qeqb_neq _ _) N).
    set (move := (min_profit_target_usd st + usd * 0.0004 * 2) / usd * 100).
    assert (M : move * usd == (min_profit_target_usd st + usd * 0.0004 * 2) * 100)
      by (unfold move; field; exact N).
    destruct (Qltb 5 move) eqn:E; eexists; (split; [reflexivity|]); cbn [approved accept].
    + apply Qltb_lt in E. split; [discriminate|]. intros H. exfalso.
      assert (5 * usd < move * usd) by (apply Qmult_lt_compat_r; assumption). lra.
    + apply Qltb_ge in E. split; [|reflexivity]. intros _.
      assert (move * usd <= 5 * usd) by (apply Qmult_le_compat_r; lra). lra.
Qed.

(** With the default target of 2 USD, an order of 40 USD is not viable
    (4.92 % of 40 is 1.968) and one of 41 USD is (2.0172). *)
Lemma profit_viability_threshold_witness :
  (0 < 1 * 40 /\ 0 < 1 * 41 /\ 0 * 41 == 0)
  /\ (exists r, check_profit_viability default_settings 1 40 = Return r
                /\ approved r = false)
  /\ (exists r, check_profit_viability default_settings 1 41 = Return r
                /\ approved r = true)
  /\ check_profit_viability default_settings 0 41 = Raise ZeroDivisionError.
Proof.
  assert (H : 0 < 1 * 40 /\ 0 < 1 * 41 /\ 0 * 41 == 0) by (repeat split).
  split; [exact H|]. destruct H as (H40 & H41 & H0).
  split; [|split].
  - destruct (proj2 (profit_viability_threshold default_settings 1 40) H40)
      as (r & E & A).
    exists r. split; [exact E|].
    destruct (approved r); [|reflexivity].
    exfalso. assert (X : 2 <= 0.0492 * (1 * 40)) by (apply A; reflexivity).
    vm_compute in X. apply X. reflexivity.
  - destruct (proj2 (profit_viability_threshold default_settings 1 41) H41)
      as (r & E & A).
    exists r. split; [exact E|]. apply A. vm_compute. discriminate.
  - exact (proj1 (profit_viability_threshold default_settings 0 41) H0).
Defined.

Lemma fold_left_sum {A} (f : A -> Q) l : forall a,
  fold_left (fun total p => total + f p) l a = fold_left Qplus (map f l) a.
Proof. induction l as [|x l IH]; intros a; cbn; [reflexivity|apply IH]. Qed.

(** X7.  The portfolio value the checks use is never negative.  With a
    positive portfolio value the leverage check approves exactly when
    the marked value of the strategy's positions plus the new order is at
    most [max_leverage] times the portfolio value, the bound included;
    with a portfolio value of zero the leverage counts as 0 and every
    order passes. *)
Theorem leverage_bound
    st getenv session_value session_positions strategy_id order_size_usd :
  let portfolio_value := get_portfolio_value getenv session_value strategy_id in
  let exposure :=
    sum (map (fun p => mark_price p * pos_amount p)
             (get_current_positions session_positions strategy_id None)) in
  let check := check_leverage st getenv session_value session_positions strategy_id
                 order_size_usd in
  0 <= portfolio_value
  /\ (0 < portfolio_value ->
      (approved check = true
       <-> exposure + order_size_usd <= max_leverage st * portfolio_value))
  /\ (portfolio_value == 0 -> 0 <= max_leverage st -> approved check = true).
Proof.
  intros pv exposure check.
  assert (Hpv : 0 <= pv).
  { unfold pv, get_portfolio_value. destruct session_value; [|lra].
    unfold Py.max. destruct (Qltb 0 _) eqn:E; [apply Qltb_lt in E|]; lra. }
  split; [exact Hpv|].
  unfold check, check_leverage. fold pv. rewrite fold_left_sum.
  fold (sum (map (fun p => mark_price p * pos_amount p)
               (get_current_positions session_positions strategy_id None))).
  fold exposure. cbn [_limits lim_max_leverage]. split.
  - intros P. rewrite (proj2 (Qltb_lt _ _) P).
    assert (X : (exposure + order_size_usd) / pv * pv == exposure + order_size_usd)
      by (field; lra).
    destruct (Qltb _ _) eqn:E; cbn [approved accept].
    + apply Qltb_lt in E. split; [discriminate|]. intros H. exfalso.
      assert (max_leverage st * pv < (exposure + order_size_usd) / pv * pv)
        by (apply Qmult_lt_compat_r; assumption). lra.
    + apply Qltb_ge in E. split; [|reflexivity]. intros _.
      assert ((exposure + order_size_usd) / pv * pv <= max_leverage st * pv)
        by (apply Qmult_le_compat_r; lra). lra.
  - intros Z L. assert (N : Qltb 0 pv = false) by (apply Qltb_ge; lra). rewrite N.
    rewrite (proj2 (Qltb_ge _ _) L). reflexivity.
Qed.

(** A portfolio of 100 000 without positions and [max_leverage = 5]: an
    order of 500 000 passes and one of 600 000 does not.  With
    [PORTFOLIO_VALUE=0] an order of 600 000 passes. *)
Lemma leverage_bound_witness :
  (0 < get_portfolio_value None (Some []) "s1"
   /\ get_portfolio_value (Some 0) (Some []) "s1" == 0
   /\ 0 <= max_leverage default_settings)
  /\ approved (check_leverage default_settings None (Some []) (Some []) "s1" 500000)
     = true
  /\ approved (check_leverage default_settings None (Some []) (Some []) "s1" 600000)
     = false
  /\ approved (check_leverage default_settings (Some 0) (Some []) (Some []) "s1" 600000)
     = true.
Proof.
  assert (H : 0 < get_portfolio_value None (Some []) "s1"
              /\ get_portfolio_value (Some 0) (Some []) "s1" == 0
              /\ 0 <= max_leverage default_settings)
    by (repeat split; vm_compute; discriminate).
  split; [exact H|]. destruct H as (P & Z & L).
  split; [|split].
  - apply (proj1 (proj2 (leverage_bound default_settings None (Some []) (Some []) "s1"
                           500000)) P).
    vm_compute. discriminate.
  - destruct (approved (check_leverage default_settings None (Some []) (Some []) "s1"
                          600000)) eqn:A; [|reflexivity].
    exfalso.
    apply (proj1 (proj2 (leverage_bound default_settings None (Some []) (Some []) "s1"
                           600000)) P) in A.
    vm_compute in A. apply A. reflexivity.
  - exact (proj2 (proj2 (leverage_bound default_settings (Some 0) (Some []) (Some [])
                           "s1" 600000)) Z L).
Defined.

Lemma ascii_upper_idempotent c : ascii_upper (ascii_upper c) = ascii_upper c.
Proof. destruct c as [[] [] [] [] [] [] [] []]; reflexivity. Qed.

Lemma upper_idempotent s : upper (upper s) = upper s.
Proof.
  induction s as [|c s IH]; cbn; [reflexivity|].
  rewrite ascii_upper_idempotent, IH. reflexivity.
Qed.

Lemma fold_left_guarded {A} (g : A -> bool) (f : A -> Q) l : forall a,
  Forall (fun p => g p = true) l ->
  fold_left (fun total p => if g p then total + f p else total) l a
  = fold_left Qplus (map f l) a.
Proof.
  induction l as [|x l IH]; intros a H; cbn; [reflexivity|].
  inversion H as [|? ? Hx Hl]; subst. rewrite Hx. apply IH. exact Hl.
Qed.

(** X8.  On an instance that has [max_position_size_usd] bound, the
    position check approves exactly when the marked value of the rows
    counted for the symbol plus the new order is at most the limit, the
    bound included.  The rows counted are those of the strategy whose
    stored symbol equals the upper-cased symbol of the order: a row
    stored under another spelling of the symbol is not counted. *)
Theorem position_limit_counts rows self strategy_id symbol order_size_usd hi :
  instance_dict self !! "max_position_size_usd"%string = Some (VFloat hi) ->
  symbol <> ""%string ->
  let counted :=
    List.filter
      (fun p => String.eqb (pos_strategy_id p) strategy_id
                && String.eqb (pos_symbol p) (upper symbol)) rows in
  let held := sum (map (fun p => pos_amount p * mark_price p) counted) in
  exists r,
    check_position_limit (Some rows) self strategy_id symbol order_size_usd = Return r
    /\ (approved r = true <-> held + order_size_usd <= hi).
Proof.
  intros Hhi Hsym counted held. unfold check_position_limit, getattr. rewrite Hhi.
  cbn [Py.bind as_float]. unfold get_current_positions.
  assert (T : truthy_str symbol = true) by (destruct symbol; [contradiction|reflexivity]).
  rewrite T. unfold of_strategy. fold counted.
  rewrite (fold_left_guarded _ (fun p => pos_amount p * mark_price p)).
  2:{ apply List.Forall_forall. intros p Hp. apply filter_In in Hp. destruct Hp as [_ Hp].
      apply andb_true_iff in Hp. destruct Hp as [_ Hp]. apply String.eqb_eq in Hp.
      rewrite Hp, upper_idempotent. apply String.eqb_refl. }
  fold (sum (map (fun p => pos_amount p * mark_price p) counted)). fold held.
  destruct (Qltb hi (held + order_size_usd)) eqn:E; eexists; (split; [reflexivity|]);
    cbn [approved accept].
  - apply Qltb_lt in E. split; [discriminate|]. intros H. lra.
  - apply Qltb_ge in E. split; [|reflexivity]. intros _. exact E.
Qed.

(** Five SOL marked at 101 are held; with the default limit of
    1 000 000 an order of 999 495 for ["sol"] is approved. *)
Lemma position_limit_counts_witness :
  "sol"%string <> ""%string
  /\ exists r,
       check_position_limit (Some Scenario.local_table)
         (Scenario.with_limits default_settings) "s1" "sol" 999495 = Return r
       /\ approved r = true.
Proof.
  assert (N : "sol"%string <> ""%string) by discriminate.
  split; [exact N|].
  destruct (position_limit_counts Scenario.local_table
              (Scenario.with_limits default_settings) "s1" "sol" 999495 1000000
              eq_refl N) as (r & E & A).
  exists r. split; [exact E|]. apply A. vm_compute. discriminate.
Defined.

End RiskLaws.

(** ** Rounding and protective levels in the client *)

Module ClientLaws.
Import Py PyFacts Client ClientFacts.
Local Open Scope Q_scope.

(** *** The tick and lot grids *)

Lemma round_half_up_comp x y : x == y -> round_half_up x = round_half_up y.
Proof.
  intros H. unfold round_half_up.
  assert (E : Qltb x 0 = Qltb y 0).
  { destruct (Qltb y 0) eqn:Y;
      [apply Qltb_lt in Y; apply Qltb_lt|apply Qltb_ge in Y; apply Qltb_ge]; lra. }
  rewrite E. destruct (Qltb y 0).
  - f_equal. apply Qfloor_comp. rewrite H. reflexivity.
  - apply Qfloor_comp. rewrite H. reflexivity.
Qed.

Lemma Qfloor_half n : Qfloor (inject_Z n + (1 # 2)) = n.
Proof.
  pose proof (Qfloor_le (inject_Z n + (1 # 2))) as L.
  pose proof (Qlt_floor (inject_Z n + (1 # 2))) as U.
  rewrite inject_Z_plus in U. change (inject_Z 1) with 1 in U.
  assert (A : inject_Z (Qfloor (inject_Z n + (1 # 2))) < inject_Z (n + 1)).
  { rewrite inject_Z_plus. change (inject_Z 1) with 1. lra. }
  assert (B : inject_Z (n - 1) < inject_Z (Qfloor (inject_Z n + (1 # 2)))).
  { unfold Zminus. rewrite inject_Z_plus, inject_Z_opp. change (inject_Z 1) with 1. lra. }
  rewrite <- Zlt_Qlt in A, B. lia.
Qed.

Lemma round_half_up_Z n : round_half_up (inject_Z n) = n.
Proof.
  unfold round_half_up. destruct (Qltb (inject_Z n) 0).
  - rewrite <- inject_Z_opp, Qfloor_half. lia.
  - apply Qfloor_half.
Qed.

(** X9.  With the tick size of any symbol, [round_to_tick_size] returns
    a whole number of ticks, at most half a tick away from the price it
    is given, and rounding the result again changes nothing. *)
Theorem tick_rounding_idempotent symbol price :
  let tick_size := get_tick_size symbol in
  let rounded := round_to_tick_size price tick_size in
  (exists n, rounded == inject_Z n * tick_size)
  /\ round_to_tick_size rounded tick_size == rounded
  /\ price - tick_size / 2 <= rounded /\ rounded <= price + tick_size / 2.
Proof.
  intros t r. destruct (get_tick_size_decimal symbol) as [Ht Hd]. fold t in Ht, Hd.
  assert (N : Qleb t 0 = false) by (apply Qleb_gt; exact Ht).
  assert (R : r == inject_Z (round_half_up (price / t)) * t).
  { unfold r, round_to_tick_size. rewrite N. apply quantize_multiple. exact Hd. }
  split; [eexists; exact R|]. split.
  - unfold round_to_tick_size at 1. rewrite N.
    rewrite quantize_multiple by exact Hd.
    rewrite (round_half_up_comp (r / t) (inject_Z (round_half_up (price / t)))).
    + rewrite round_half_up_Z. symmetry. exact R.
    + rewrite R. field. lra.
  - apply round_to_tick_size_near; assumption.
Qed.




(** *** Validated stops and targets *)

Lemma validate_tpsl_stop_side symbol side entry_price sl tp v :
  fst (validate_tpsl symbol side entry_price sl tp) = Some v ->
  if String.eqb (lower side) "bid" then v < entry_price else entry_price < v.
Proof.
  destruct sl as [sl|]; [|destruct tp; discriminate].
  rewrite validate_tpsl_stop. cbv zeta.
  destruct (Qltb 0 sl); [|discriminate].
  destruct (String.eqb (lower side) "bid").
  - destruct (Qleb entry_price sl); [discriminate|].
    destruct (Qleb entry_price (round_to_tick_size sl _)) eqn:E; intros [= <-].
    + apply nudge_below.
    + apply Qleb_gt in E. exact E.
  - destruct (Qleb sl entry_price); [discriminate|].
    destruct (Qleb (round_to_tick_size sl _) entry_price) eqn:E; intros [= <-].
    + apply nudge_above.
    + apply Qleb_gt in E. exact E.
Qed.

Lemma validate_tpsl_target_side symbol side entry_price sl tp v :
  snd (validate_tpsl symbol side entry_price sl tp) = Some v ->
  if String.eqb (lower side) "bid" then entry_price < v else v < entry_price.
Proof.
  destruct tp as [tp|]; [|destruct sl; [unfold validate_tpsl; cbn|]; discriminate].
  rewrite validate_tpsl_target. cbv zeta.
  destruct (Qltb 0 tp); [|discriminate].
  destruct (String.eqb (lower side) "bid").
  - destruct (Qleb tp entry_price); [discriminate|].
    destruct (Qleb (round_to_tick_size tp _) entry_price) eqn:E; intros [= <-].
    + apply nudge_above.
    + apply Qleb_gt in E. exact E.
  - destruct (Qleb entry_price tp); [discriminate|].
    destruct (Qleb entry_price (round_to_tick_size tp _)) eqn:E; intros [= <-].
    + apply nudge_below.
    + apply Qleb_gt in E. exact E.
Qed.

(** X11.  Whatever is requested, a stop [validate_tpsl] returns for a
    long position (side [bid]) is strictly below the entry price and a
    target it returns is strictly above it; for any other side the stop
    is strictly above and the target strictly below. *)
Theorem validated_levels_straddle_entry symbol side entry_price stop_loss take_profit :
  let validated := validate_tpsl symbol side entry_price stop_loss take_profit in
  (lower side = "bid"%string ->
   (forall v, fst validated = Some v -> v < entry_price)
   /\ (forall v, snd validated = Some v -> entry_price < v))
  /\ (lower side <> "bid"%string ->
      (forall v, fst validated = Some v -> entry_price < v)
      /\ (forall v, snd validated = Some v -> v < entry_price)).
Proof.
  intros validated. split; intros Hside; split; intros v Hv.
  - apply validate_tpsl_stop_side in Hv. rewrite Hside in Hv. exact Hv.
  - apply validate_tpsl_target_side in Hv. rewrite Hside in Hv. exact Hv.
  - apply validate_tpsl_stop_side in Hv. apply String.eqb_neq in Hside.
    rewrite Hside in Hv. exact Hv.
  - apply validate_tpsl_target_side in Hv. apply String.eqb_neq in Hside.
    rewrite Hside in Hv. exact Hv.
Qed.

(** A long BTC position entered at 100 with a stop requested at 99.999
    and a target at 100.001: both round onto the entry and are moved to
    99.99 and 100.01. *)
Lemma validated_levels_straddle_entry_witness :
  lower "bid" = "bid"%string
  /\ (exists v, fst (validate_tpsl "BTC" "bid" 100 (Some 99.999) (Some 100.001)) = Some v
                /\ v < 100)
  /\ (exists v, snd (validate_tpsl "BTC" "bid" 100 (Some 99.999) (Some 100.001)) = Some v
                /\ 100 < v).
Proof.
  assert (S : lower "bid" = "bid"%string) by reflexivity.
  split; [exact S|].
  destruct (proj1 (validated_levels_straddle_entry "BTC" "bid" 100 (Some 99.999)
                     (Some 100.001)) S) as [Stop Target].
  split.
  - assert (E : exists v, fst (validate_tpsl "BTC" "bid" 100 (Some 99.999) (Some 100.001))
                          = Some v) by (vm_compute; eexists; reflexivity).
    destruct E as [v E]. exists v. split; [exact E|exact (Stop v E)].
  - assert (E : exists v, snd (validate_tpsl "BTC" "bid" 100 (Some 99.999) (Some 100.001))
                          = Some v) by (vm_compute; eexists; reflexivity).
    destruct E as [v E]. exists v. split; [exact E|exact (Target v E)].
Defined.

(** *** Protective orders on an existing position *)

Lemma round_half_even_bounds y :
  y - (1 # 2) <= inject_Z (round_half_even y)
  /\ inject_Z (round_half_even y) <= y + (1 # 2).
Proof.
  unfold round_half_even.
  pose proof (Qfloor_le y) as L. pose proof (Qlt_floor y) as U.
  rewrite inject_Z_plus in U. change (inject_Z 1) with 1 in U.
  destruct (Qltb (y - inject_Z (Qfloor y)) (1 # 2)) eqn:A.
  - apply Qltb_lt in A. split; lra.
  - apply Qltb_ge in A.
    destruct (Qltb (1 # 2) (y - inject_Z (Qfloor y))) eqn:B.
    + rewrite inject_Z_plus. change (inject_Z 1) with 1. split; lra.
    + apply Qltb_ge in B. destruct (Z.even (Qfloor y)).
      * split; lra.
      * rewrite inject_Z_plus. change (inject_Z 1) with 1. split; lra.
Qed.

Lemma round_6_near x : x - 0.0000005 <= round x 6 /\ round x 6 <= x + 0.0000005.
Proof.
  unfold round. destruct (round_half_even_bounds (x * pow10 6)) as [L U].
  change (pow10 6) with 1000000 in *.
  assert (A : (x * 1000000 - (1 # 2)) / 1000000
              <= inject_Z (round_half_even (x * 1000000)) / 1000000)
    by (apply Qmult_le_compat_r; [exact L|vm_compute; discriminate]).
  assert (B : inject_Z (round_half_even (x * 1000000)) / 1000000
              <= (x * 1000000 + (1 # 2)) / 1000000)
    by (apply Qmult_le_compat_r; [exact U|vm_compute; discriminate]).
  assert (X1 : (x * 1000000 - (1 # 2)) / 1000000 == x - 0.0000005) by field.
  assert (X2 : (x * 1000000 + (1 # 2)) / 1000000 == x + 0.0000005) by field.
  rewrite X1 in A. rewrite X2 in B. split; assumption.
Qed.

Lemma tpsl_level_inv side level so :
  tpsl_level side level = Some so ->
  provided level = Some (stop_price so)
  /\ limit_price so
     = round (if String.eqb side "bid" then stop_price so * (1 - 0.001)
              else stop_price so * (1 + 0.001)) 6.
Proof.
  unfold tpsl_level. destruct (provided level) as [v|]; [|discriminate].
  intros [= <-]. split; reflexivity.
Qed.

(** X12.  [set_position_tpsl] raises [ValueError] without sending
    anything when neither level is given, a level of 0.0 counting as not
    given.  A payload it builds carries at least one level, and for a
    level above 0.0005 the limit price lies on the far side of the stop
    price: below it when the side is [bid], above it otherwise. *)
Theorem tpsl_request_levels self http symbol side stop_loss take_profit :
  (provided stop_loss = None -> provided take_profit = None ->
   set_position_tpsl self http symbol side stop_loss take_profit = Raise ValueError)
  /\ forall payload,
       tpsl_payload self symbol side stop_loss take_profit = Return payload ->
       (tpsl_stop_loss payload <> None \/ tpsl_take_profit payload <> None)
       /\ forall so,
            tpsl_stop_loss payload = Some so \/ tpsl_take_profit payload = Some so ->
            0.0005 < stop_price so ->
            (side = "bid"%string -> limit_price so < stop_price so)
            /\ (side <> "bid"%string -> stop_price so < limit_price so).
Proof.
  split.
  - intros S T. unfold set_position_tpsl, tpsl_payload. rewrite S, T.
    destruct (negb (keypair self)); reflexivity.
  - intros payload. unfold tpsl_payload. destruct (negb (keypair self)); [discriminate|].
    intros H.
    assert (P : payload = {| tpsl_symbol := upper symbol; tpsl_side := lower side;
                             tpsl_stop_loss := tpsl_level side stop_loss;
                             tpsl_take_profit := tpsl_level side take_profit |}
                /\ (provided stop_loss <> None \/ provided take_profit <> None)).
    { destruct (provided stop_loss) as [s|];
        [injection H as <-; split; [reflexivity|left; discriminate]|].
      destruct (provided take_profit) as [t|]; [|discriminate].
      injection H as <-. split; [reflexivity|right; discriminate]. }
    destruct P as [-> P]. cbn [tpsl_stop_loss tpsl_take_profit]. split.
    + unfold tpsl_level.
      destruct P as [P|P]; [left; destruct (provided stop_loss)
                           |right; destruct (provided take_profit)];
        [discriminate|contradiction|discriminate|contradiction].
    + intros so Hso Hbig.
      assert (L : limit_price so
                  = round (if String.eqb side "bid" then stop_price so * (1 - 0.001)
                           else stop_price so * (1 + 0.001)) 6)
        by (destruct Hso as [Hso|Hso]; apply tpsl_level_inv in Hso; tauto).
      rewrite L. split; intros Hside.
      * apply String.eqb_eq in Hside. rewrite Hside.
        destruct (round_6_near (stop_price so * (1 - 0.001))) as [_ U]. lra.
      * apply String.eqb_neq in Hside. rewrite Hside.
        destruct (round_6_near (stop_price so * (1 + 0.001))) as [Lo _]. lra.
Qed.

(** A stop of 0.0 and no target: nothing is sent.  A stop at 950 on a
    long SOL position: the limit price is below 950. *)
Lemma tpsl_request_levels_witness :
  (provided (Some 0) = None /\ provided None = None)
  /\ set_position_tpsl {| keypair := true |} (fun _ => Timeout) "SOL" "bid" (Some 0) None
     = Raise ValueError
  /\ exists payload so,
       tpsl_payload {| keypair := true |} "SOL" "bid" (Some 950) None = Return payload
       /\ tpsl_stop_loss payload = Some so
       /\ 0.0005 < stop_price so
       /\ limit_price so < stop_price so.
Proof.
  assert (H : provided (Some 0) = None /\ provided None = None) by (split; reflexivity).
  split; [exact H|]. destruct H as [S T]. split.
  - exact (proj1 (tpsl_request_levels {| keypair := true |} (fun _ => Timeout)
                    "SOL" "bid" (Some 0) None) S T).
  - assert (E : exists payload so,
               tpsl_payload {| keypair := true |} "SOL" "bid" (Some 950) None
               = Return payload
               /\ tpsl_stop_loss payload = Some so /\ 0.0005 < stop_price so)
      by (vm_compute; eexists _, _; repeat split).
    destruct E as (payload & so & E & L & B).
    exists payload, so. split; [exact E|]. split; [exact L|]. split; [exact B|].
    destruct (proj2 (tpsl_request_levels {| keypair := true |} (fun _ => Timeout)
                       "SOL" "bid" (Some 950) None) payload E) as [_ Far].
    exact (proj1 (Far so (or_introl L) B) eq_refl).
Defined.

End ClientLaws.

(** ** The exposure ledger as a map *)

Module ExposureLaws.
Import Py PyFacts Exposure ExposureFacts.
Local Open Scope Q_scope.

Lemma calculate_exposure_with_positions self other m :
  portfolio_value other = portfolio_value self ->
  long_pnl_pct other = long_pnl_pct self ->
  (Qltb 0 (portfolio_value self) = false -> net_long other = net_long self) ->
  calculate_exposure (with_positions other m) = calculate_exposure (with_positions self m).
Proof.
  intros P L N. unfold calculate_exposure, with_positions.
  cbn [positions portfolio_value net_long long_pnl_pct].
  destruct (map_fold _ _ m) as [l s]. rewrite P, L.
  destruct (Qltb 0 (portfolio_value self)) eqn:E; [reflexivity|].
  rewrite (N eq_refl). reflexivity.
Qed.

Lemma calculate_exposure_fields self :
  portfolio_value (calculate_exposure self) = portfolio_value self
  /\ long_pnl_pct (calculate_exposure self) = long_pnl_pct self
  /\ (Qltb 0 (portfolio_value self) = false ->
      net_long (calculate_exposure self) = net_long self).
Proof.
  unfold calculate_exposure. destruct (map_fold _ _ _) as [l s].
  cbn. repeat split. intros ->. reflexivity.
Qed.

Lemma update_position_eq self symbol side0 size0 price0 :
  update_position self symbol side0 size0 price0
  = calculate_exposure
      (with_positions self (<[symbol := entry side0 size0 price0]> (positions self))).
Proof. reflexivity. Qed.

(** X13.  [update_position] replaces: recording a position for a symbol
    that already has one leaves the ledger exactly as if only the second
    had been recorded.  Sizes are not added up. *)
Theorem update_position_replaces self symbol side1 size1 price1 side2 size2 price2 :
  update_position (update_position self symbol side1 size1 price1) symbol side2 size2 price2
  = update_position self symbol side2 size2 price2.
Proof.
  rewrite (update_position_eq (update_position _ _ _ _ _)).
  rewrite update_position_positions, insert_insert_eq.
  rewrite (update_position_eq self symbol side2).
  rewrite (update_position_eq self symbol side1).
  destruct (calculate_exposure_fields
              (with_positions self (<[symbol := entry side1 size1 price1]> (positions self))))
    as (A & B & C).
  apply calculate_exposure_with_positions; [exact A|exact B|exact C].
Qed.

(** X14.  Removing a position that was just recorded for a symbol the
    ledger did not hold gives back the ledger of before, with its
    exposures recomputed. *)
Theorem remove_position_undoes_update self symbol side0 size0 price0 :
  positions self !! symbol = None ->
  remove_position (update_position self symbol side0 size0 price0) symbol
  = calculate_exposure self.
Proof.
  intros H. unfold remove_position. rewrite update_position_positions, lookup_insert_eq.
  rewrite delete_insert_eq, (delete_id _ _ H).
  rewrite update_position_eq.
  destruct (calculate_exposure_fields
              (with_positions self (<[symbol := entry side0 size0 price0]> (positions self))))
    as (A & B & C).
  transitivity (calculate_exposure (with_positions self (positions self))).
  - apply (calculate_exposure_with_positions self _ (positions self)); assumption.
  - destruct self; reflexivity.
Qed.

(** A new ledger: recording SOL and removing it gives the empty ledger. *)
Lemma remove_position_undoes_update_witness :
  positions (__init__ 100000) !! "SOL"%string = None
  /\ remove_position (update_position (__init__ 100000) "SOL" "buy" 2 150) "SOL"
     = calculate_exposure (__init__ 100000).
Proof.
  assert (H : positions (__init__ 100000) !! "SOL"%string = None) by reflexivity.
  split; [exact H|].
  exact (remove_position_undoes_update (__init__ 100000) "SOL" "buy" 2 150 H).
Defined.

Lemma fold_totals (l : list (string * Entry)) :
  let totals :=
    foldr (uncurry (fun (_ : string) position acc => add_position position acc)) (0, 0) l in
  fst totals + snd totals
  == foldr (uncurry (fun (_ : string) p total => total + value p)) 0 l.
Proof.
  induction l as [|[k p] l IH]; cbn zeta in *; [reflexivity|].
  cbn [foldr uncurry].
  set (totals := foldr _ (0, 0) l) in *. set (total := foldr _ 0 l) in *.
  unfold add_position.
  destruct (String.eqb (side p) "LONG"); cbn [fst snd]; rewrite <- IH; ring.
Qed.

(** X15.  [calculate_exposure] counts every position once: the long and
    the short exposure add up to the total value of the positions held,
    the net exposure is their difference, and with a positive portfolio
    value [net_long] is that difference as a fraction of the portfolio
    value. *)
Theorem exposure_counts_every_position_once self :
  let after := calculate_exposure self in
  long_exposure after + short_exposure after
  == map_fold (fun _ p total => total + value p) 0 (positions self)
  /\ net_exposure after = long_exposure after - short_exposure after
  /\ (0 < portfolio_value self ->
      net_long after * portfolio_value self == long_exposure after - short_exposure after).
Proof.
  intros after. pose proof (fold_totals (map_to_list (positions self))) as T.
  cbn zeta in T. rewrite <- !map_fold_foldr in T.
  unfold after, calculate_exposure.
  destruct (map_fold _ (0, 0) (positions self)) as [l s]. cbn [fst snd] in T.
  cbn [long_exposure short_exposure net_exposure net_long portfolio_value].
  split; [exact T|]. split; [reflexivity|].
  intros P. rewrite (proj2 (Qltb_lt _ _) P). field. lra.
Qed.

(** A ledger of 100 000 holding a ["LONG"] position worth 300. *)
Lemma exposure_counts_every_position_once_witness :
  let ledger := update_position (__init__ 100000) "SOL" "LONG" 2 150 in
  0 < portfolio_value ledger
  /\ net_long (calculate_exposure ledger) * portfolio_value ledger
     == long_exposure (calculate_exposure ledger)
        - short_exposure (calculate_exposure ledger).
Proof.
  intros ledger.
  assert (H : 0 < portfolio_value ledger) by (vm_compute; reflexivity).
  split; [exact H|].
  exact (proj2 (proj2 (exposure_counts_every_position_once ledger)) H).
Defined.

End ExposureLaws.

(** ** What an order request carries and what it leaves behind *)

Module EngineLaws.
Import Py PyFacts Engine EngineFacts.
Local Open Scope Q_scope.

(** The effects of [create_order], case by case: none; a request that
    raised; a request that was answered. *)
Lemma create_order_effects self w signal :
  let eff := snd (create_order self w signal) in
  eff = no_effects
  \/ (exists client,
        pacifica_client self = Some client /\ Client.keypair client = true
        /\ paper_trading self = false
        /\ requests eff = [request_of w signal]
        /\ ((exists e,
               Client.create_market_order client (uuid4 w 1%nat) (exchange w)
                 (symbol signal) (order_side signal) (round (amount signal) 2)
                 (is_closing signal) 0.5 (Some (uuid4 w 0%nat))
                 (if is_closing signal then None else positive (stop_loss signal))
                 (if is_closing signal then None else positive (take_profit signal))
                 (Some (price signal)) = Raise e
               /\ tpsl_requests eff = [] /\ orders eff = [] /\ new_positions eff = [])
            \/ (exists response,
                  exchange w (request_of w signal) = Client.Response 200 (Return response)
                  /\ tpsl_requests eff
                     = (if negb (is_closing signal)
                           && Json.truthy (extract_order_id response)
                           && (truthy_float (stop_loss signal)
                               || truthy_float (take_profit signal))
                        then [(symbol signal, order_side signal, stop_loss signal,
                               take_profit signal)]
                        else [])
                  /\ (orders eff, new_positions eff)
                     = save_order self (store w) (Risk.utcnow (risk_env w)) signal
                         (order_side signal) (uuid4 w 0%nat) (round (amount signal) 2)
                         (extract_order_id response) (is_closing signal)))).
Proof.
  cbv zeta. unfold create_order. fold (order_side signal). fold (is_closing signal).
  destruct (Risk.check_order _ _ _ _ _ _ _ _) as [[rc|e] rm]; [|left; reflexivity].
  destruct (negb (Risk.approved rc)); [left; reflexivity|].
  destruct (paper_trading self) eqn:P; [left; reflexivity|].
  destruct (pacifica_client self) as [client|]; [|left; reflexivity].
  destruct (Client.create_market_order _ _ _ _ _ _ _ _ _ _ _ _) as [response|e] eqn:E.
  - pose proof E as E'. apply create_market_order_returns in E'.
    destruct E' as (K & X & _). rewrite K.
    destruct (save_order _ _ _ _ _ _ _ _ _) as [so sp] eqn:S. cbn [snd requests].
    right. exists client.
    split; [reflexivity|]. split; [exact K|]. split; [reflexivity|].
    split; [reflexivity|].
    right. exists response. split; [exact X|]. split; [reflexivity|].
    cbn [snd orders new_positions]. symmetry. exact S.
  - destruct (Client.keypair client) eqn:K.
    + right. exists client.
      split; [reflexivity|]. split; [exact K|]. split; [reflexivity|].
      split; [reflexivity|]. left. exists e. split; [exact E|]. repeat split.
    + left. reflexivity.
Qed.

Lemma stop_order_inv symbol side validated so :
  Client.stop_order symbol side validated = Some so ->
  validated = Some (Client.stop_price so) /\ 0 < Client.stop_price so.
Proof.
  unfold Client.stop_order, Client.given. destruct validated as [v|]; [|discriminate].
  destruct (Qltb 0 v) eqn:E; [|discriminate]. intros [= <-]. cbn.
  apply Qltb_lt in E. auto.
Qed.

(** X16.  A closing signal is sent as a reduce-only order on the
    opposite side ([ask] for [close_long], [bid] for [close_short])
    without stop or target, even when the signal carries them; it
    triggers no follow-up request for protective orders and creates no
    position row. *)
Theorem closing_order_is_reduce_only self w signal :
  is_closing signal = true ->
  let eff := snd (create_order self w signal) in
  (forall payload,
     In payload (requests eff) ->
     Client.pl_reduce_only payload = true
     /\ Client.pl_side payload
        = match signal_type signal with CLOSE_LONG => "ask" | _ => "bid" end%string
     /\ Client.pl_stop_loss payload = None
     /\ Client.pl_take_profit payload = None)
  /\ tpsl_requests eff = []
  /\ new_positions eff = [].
Proof.
  intros C eff.
  destruct (create_order_effects self w signal) as [E|(client & _ & _ & _ & R & H)];
    fold eff in E || fold eff in R, H.
  - rewrite E. repeat split; contradiction.
  - split.
    + rewrite R. intros payload [<-|[]]. unfold request_of. rewrite C.
      unfold Client.market_order_payload. cbn [Client.given Client.stop_order
        Client.pl_reduce_only Client.pl_side Client.pl_stop_loss Client.pl_take_profit].
      repeat split. unfold order_side.
      unfold is_closing in C. destruct (signal_type signal); try discriminate; reflexivity.
    + destruct H as [(e & _ & T & _ & P)|(response & _ & T & S)].
      * split; assumption.
      * rewrite C in T, S. cbn [negb andb] in T. split; [exact T|].
        unfold save_order in S. rewrite andb_false_r in S.
        destruct (negb (order_commit (store w))); injection S as _ S; exact S.
Qed.

(** Closing the DOGE long: one reduce-only [ask] request without the
    stop of the signal. *)
Lemma closing_order_is_reduce_only_witness :
  is_closing Scenario.close_doge = true
  /\ exists payload,
       requests (snd (create_order Scenario.live_engine
                        (Scenario.world_of Scenario.accepted) Scenario.close_doge))
       = [payload]
       /\ Client.pl_reduce_only payload = true
       /\ Client.pl_side payload = "ask"%string
       /\ Client.pl_stop_loss payload = None.
Proof.
  assert (C : is_closing Scenario.close_doge = true) by reflexivity.
  split; [exact C|].
  assert (E : exists payload,
             requests (snd (create_order Scenario.live_engine
                              (Scenario.world_of Scenario.accepted) Scenario.close_doge))
             = [payload]) by (vm_compute; eexists; reflexivity).
  destruct E as [payload E]. exists payload. split; [exact E|].
  destruct (proj1 (closing_order_is_reduce_only Scenario.live_engine
                     (Scenario.world_of Scenario.accepted) Scenario.close_doge C)
              payload) as (R & S & L & _).
  - rewrite E. left. reflexivity.
  - repeat split; assumption.
Defined.

(** X17.  An opening signal is sent without [reduce_only], and the
    protective levels its request carries are on the correct side of the
    signal price: for a buy every stop is strictly below the price and
    every target strictly above it; for a sell the reverse. *)
Theorem opening_order_levels_straddle_price self w signal payload :
  is_closing signal = false ->
  In payload (requests (snd (create_order self w signal))) ->
  Client.pl_reduce_only payload = false
  /\ (signal_type signal = BUY ->
      (forall so, Client.pl_stop_loss payload = Some so ->
                  Client.stop_price so < price signal)
      /\ (forall so, Client.pl_take_profit payload = Some so ->
                     price signal < Client.stop_price so))
  /\ (signal_type signal = SELL ->
      (forall so, Client.pl_stop_loss payload = Some so ->
                  price signal < Client.stop_price so)
      /\ (forall so, Client.pl_take_profit payload = Some so ->
                     Client.stop_price so < price signal)).
Proof.
  intros C Hin.
  destruct (create_order_effects self w signal) as [E|(client & _ & _ & _ & R & _)].
  { rewrite E in Hin. contradiction. }
  rewrite R in Hin. destruct Hin as [<-|[]].
  unfold request_of. rewrite C. unfold Client.market_order_payload.
  set (levels := match Client.given (positive (stop_loss signal)),
                       Client.given (positive (take_profit signal)) with
                 | None, None => (None, None)
                 | _, _ => Client.validate_tpsl (symbol signal) (order_side signal)
                             (price signal) (positive (stop_loss signal))
                             (positive (take_profit signal))
                 end).
  assert (L : levels = (None, None)
              \/ levels = Client.validate_tpsl (symbol signal) (order_side signal)
                            (price signal) (positive (stop_loss signal))
                            (positive (take_profit signal))).
  { unfold levels. destruct (Client.given (positive (stop_loss signal)));
      [right; reflexivity|].
    destruct (Client.given (positive (take_profit signal))); [right|left]; reflexivity. }
  destruct levels as [vsl vtp].
  cbn [Client.pl_reduce_only Client.pl_stop_loss Client.pl_take_profit].
  split; [reflexivity|].
  assert (S : forall so,
             Client.stop_order (symbol signal) (order_side signal) vsl = Some so ->
             if String.eqb (lower (order_side signal)) "bid"
             then Client.stop_price so < price signal
             else price signal < Client.stop_price so).
  { intros so Hso. apply stop_order_inv in Hso. destruct Hso as [-> _].
    destruct L as [L|L]; [discriminate|].
    apply (ClientLaws.validate_tpsl_stop_side (symbol signal) _ _
             (positive (stop_loss signal)) (positive (take_profit signal))).
    rewrite <- L. reflexivity. }
  assert (T : forall so,
             Client.stop_order (symbol signal) (order_side signal) vtp = Some so ->
             if String.eqb (lower (order_side signal)) "bid"
             then price signal < Client.stop_price so
             else Client.stop_price so < price signal).
  { intros so Hso. apply stop_order_inv in Hso. destruct Hso as [-> _].
    destruct L as [L|L]; [discriminate|].
    apply (ClientLaws.validate_tpsl_target_side (symbol signal) _ _
             (positive (stop_loss signal)) (positive (take_profit signal))).
    rewrite <- L. reflexivity. }
  unfold order_side in S, T |- *.
  split; intros B; rewrite B in S, T |- *; split; intros so Hso;
    [exact (S so Hso)|exact (T so Hso)|exact (S so Hso)|exact (T so Hso)].
Qed.

(** The protected buy of SOL at 1000: the request carries a stop below
    1000. *)
Lemma opening_order_levels_straddle_price_witness :
  is_closing Scenario.buy_sol_protected = false
  /\ exists payload so,
       In payload (requests (snd (create_order Scenario.live_engine
                                    (Scenario.world_of Scenario.accepted)
                                    Scenario.buy_sol_protected)))
       /\ Client.pl_reduce_only payload = false
       /\ Client.pl_stop_loss payload = Some so
       /\ Client.stop_price so < 1000.
Proof.
  assert (C : is_closing Scenario.buy_sol_protected = false) by reflexivity.
  split; [exact C|].
  assert (E : exists payload so,
             requests (snd (create_order Scenario.live_engine
                              (Scenario.world_of Scenario.accepted)
                              Scenario.buy_sol_protected)) = [payload]
             /\ Client.pl_stop_loss payload = Some so)
    by (vm_compute; eexists _, _; split; reflexivity).
  destruct E as (payload & so & E & L).
  assert (Hin : In payload (requests (snd (create_order Scenario.live_engine
                                             (Scenario.world_of Scenario.accepted)
                                             Scenario.buy_sol_protected))))
    by (rewrite E; left; reflexivity).
  destruct (opening_order_levels_straddle_price Scenario.live_engine
              (Scenario.world_of Scenario.accepted) Scenario.buy_sol_protected payload
              C Hin) as (R & Buy & _).
  exists payload, so. split; [exact Hin|]. split; [exact R|]. split; [exact L|].
  exact (proj1 (Buy eq_refl) so L).
Defined.

(** X18.  The follow-up request for protective orders carries the stop
    of the signal as the strategy gave it.  For a buy whose stop is at or
    above the price, the order request carries no stop (the validation
    drops it), yet when the exchange accepts the order the engine asks it
    to attach that very stop to the position. *)
Theorem follow_up_carries_unvalidated_stop self w signal sl request :
  signal_type signal = BUY ->
  stop_loss signal = Some sl ->
  price signal <= sl ->
  ~ sl == 0 ->
  In request (tpsl_requests (snd (create_order self w signal))) ->
  (forall payload,
     In payload (requests (snd (create_order self w signal))) ->
     Client.pl_stop_loss payload = None)
  /\ request = (symbol signal, "bid"%string, Some sl, take_profit signal)
  /\ exists client payload so,
       pacifica_client self = Some client
       /\ Client.tpsl_payload client (symbol signal) "bid" (Some sl) (take_profit signal)
          = Return payload
       /\ Client.tpsl_stop_loss payload = Some so
       /\ Client.stop_price so = sl.
Proof.
  intros B Hsl Hwrong Hnz Hin.
  assert (C : is_closing signal = false) by (unfold is_closing; rewrite B; reflexivity).
  assert (O : order_side signal = "bid"%string)
    by (unfold order_side; rewrite B; reflexivity).
  destruct (create_order_effects self w signal) as [E|(client & Hc & K & _ & R & H)].
  { rewrite E in Hin. contradiction. }
  split.
  - rewrite R. intros payload [<-|[]]. unfold request_of. rewrite C, O, Hsl.
    unfold Client.market_order_payload.
    destruct (Client.given (positive (Some sl))) as [v|] eqn:G.
    + assert (V : positive (Some sl) = Some sl).
      { unfold positive, Client.given in *.
        destruct (Qltb 0 sl); [reflexivity|discriminate]. }
      pose proof (ClientFacts.validate_tpsl_stop (symbol signal) "bid" (price signal) sl
                    (positive (take_profit signal))) as F.
      cbv zeta in F. rewrite <- V in F at 1.
      change (lower "bid" =? "bid")%string with true in F.
      rewrite (proj2 (Qleb_le _ _) Hwrong) in F.
      destruct (Client.validate_tpsl _ _ _ _ _) as [vsl vtp]. cbn [fst] in F.
      cbn [Client.pl_stop_loss]. subst vsl. destruct (Qltb 0 sl); reflexivity.
    + destruct (Client.given (positive (take_profit signal))) as [v|] eqn:G2.
      * assert (V : positive (Some sl) = None).
        { unfold positive, Client.given in *.
          destruct (Qltb 0 sl) eqn:Q; [|reflexivity]. rewrite Q in G. discriminate. }
        rewrite V. unfold Client.validate_tpsl.
        destruct (positive (take_profit signal)); reflexivity.
      * reflexivity.
  - destruct H as [(e & _ & T & _)|(response & _ & T & _)];
      rewrite T in Hin; [contradiction|].
    destruct (_ && _); [|contradiction]. destruct Hin as [<-|[]].
    rewrite O, Hsl. split; [reflexivity|].
    assert (P : Client.provided (Some sl) = Some sl).
    { unfold Client.provided. rewrite (proj2 (Qeqb_neq _ _) Hnz). reflexivity. }
    exists client. unfold Client.tpsl_payload, Client.tpsl_level. rewrite K, P. cbn [negb].
    eexists _, _. split; [exact Hc|]. split; [reflexivity|]. split; reflexivity.
Qed.

(** A buy of DOGE at 0.1 with its stop at 0.2: the order goes out
    without a stop, and the follow-up asks for a stop at 0.2. *)
Lemma follow_up_carries_unvalidated_stop_witness :
  (signal_type Scenario.buy_doge_stop_above = BUY
   /\ stop_loss Scenario.buy_doge_stop_above = Some 0.2
   /\ price Scenario.buy_doge_stop_above <= 0.2
   /\ ~ 0.2 == 0)
  /\ exists request payload so,
       tpsl_requests (snd (create_order Scenario.live_engine
                             (Scenario.world_of Scenario.accepted)
                             Scenario.buy_doge_stop_above)) = [request]
       /\ request = ("DOGE"%string, "bid"%string, Some 0.2, None)
       /\ Client.tpsl_payload {| Client.keypair := true |} "DOGE" "bid" (Some 0.2) None
          = Return payload
       /\ Client.tpsl_stop_loss payload = Some so
       /\ Client.stop_price so = 0.2.
Proof.
  assert (H : signal_type Scenario.buy_doge_stop_above = BUY
              /\ stop_loss Scenario.buy_doge_stop_above = Some 0.2
              /\ price Scenario.buy_doge_stop_above <= 0.2
              /\ ~ 0.2 == 0)
    by (split; [reflexivity|]; split; [reflexivity|]; split; vm_compute; discriminate).
  split; [exact H|]. destruct H as (B & S & W & N).
  assert (E : exists request,
             tpsl_requests (snd (create_order Scenario.live_engine
                                   (Scenario.world_of Scenario.accepted)
                                   Scenario.buy_doge_stop_above)) = [request])
    by (vm_compute; eexists; reflexivity).
  destruct E as [request E].
  destruct (follow_up_carries_unvalidated_stop Scenario.live_engine
              (Scenario.world_of Scenario.accepted) Scenario.buy_doge_stop_above 0.2
              request B S W N) as (_ & Q & client & payload & so & Hc & P & L & V).
  - rewrite E. left. reflexivity.
  - injection Hc as <-. exists request, payload, so.
    split; [exact E|]. split; [exact Q|]. split; [exact P|]. split; [exact L|exact V].
Defined.

(** *** Paper trading and the hedge loops *)

Lemma create_order_risk_manager self w signal :
  snd (fst (create_order self w signal))
  = snd (Risk.check_order (risk_env w) (risk_manager self) (strategy_id self)
           (symbol signal) (order_side signal) (amount signal) (price signal) "market").
Proof.
  unfold create_order, order_side.
  destruct (Risk.check_order _ _ _ _ _ _ _ _) as [[rc|e] rm]; [|reflexivity].
  destruct (negb (Risk.approved rc)); [reflexivity|].
  destruct (paper_trading self); [reflexivity|].
  destruct (pacifica_client self); [|reflexivity].
  destruct (Client.create_market_order _ _ _ _ _ _ _ _ _ _ _ _); [|reflexivity].
  destruct (save_order _ _ _ _ _ _ _ _ _). reflexivity.
Qed.

Lemma create_order_paper self w signal :
  paper_trading self = true -> snd (create_order self w signal) = no_effects.
Proof.
  intros P. unfold create_order.
  destruct (Risk.check_order _ _ _ _ _ _ _ _) as [[rc|e] rm]; [|reflexivity].
  destruct (negb (Risk.approved rc)); [reflexivity|]. rewrite P. reflexivity.
Qed.

(** What no turn of a loop changes. *)
Lemma process_turn_static record acc t :
  paper_trading (fst (process_turn record acc t)) = paper_trading (fst acc)
  /\ strategy_id (fst (process_turn record acc t)) = strategy_id (fst acc)
  /\ pacifica_client (fst (process_turn record acc t)) = pacifica_client (fst acc)
  /\ hedge_trigger (fst (process_turn record acc t)) = hedge_trigger (fst acc).
Proof.
  destruct acc as [self log]. unfold process_turn. cbn [fst].
  destruct (negb (market_data t)); [repeat split|].
  destruct (generate_signal t) as [[signal|]|e]; [|repeat split..].
  destruct (create_order self (world t) signal) as [[[id|] rm] eff]; [|repeat split].
  destruct (truthy_str id); [|repeat split]. destruct record; repeat split.
Qed.

Lemma process_turn_paper record acc t :
  paper_trading (fst acc) = true ->
  Forall (fun eff => eff = no_effects) (snd acc) ->
  Forall (fun eff => eff = no_effects) (snd (process_turn record acc t)).
Proof.
  destruct acc as [self log]. cbn [fst snd]. intros P L. unfold process_turn.
  destruct (negb (market_data t)); [exact L|].
  destruct (generate_signal t) as [[signal|]|e]; [|exact L..].
  pose proof (create_order_paper self (world t) signal P) as E.
  destruct (create_order self (world t) signal) as [[order_id rm] eff]. cbn [snd] in E.
  assert (L' : Forall (fun eff => eff = no_effects) (log ++ [eff])).
  { apply Forall_app. split; [exact L|]. constructor; [exact E|constructor]. }
  destruct order_id as [id|]; [destruct (truthy_str id)|]; exact L'.
Qed.

Lemma process_turns_paper record turns : forall acc,
  paper_trading (fst acc) = true ->
  Forall (fun eff => eff = no_effects) (snd acc) ->
  paper_trading (fst (fold_left (process_turn record) turns acc)) = true
  /\ Forall (fun eff => eff = no_effects)
       (snd (fold_left (process_turn record) turns acc)).
Proof.
  induction turns as [|t turns IH]; intros acc P L; [split; assumption|].
  cbn [fold_left]. apply IH.
  - rewrite (proj1 (process_turn_static record acc t)). exact P.
  - apply process_turn_paper; assumption.
Qed.

(** X19.  A paper-trading engine never touches the exchange or the
    store: whatever the strategies signal in a round of
    [process_signals], no order request and no follow-up request is sent
    and no order or position row is committed. *)
Theorem paper_trading_has_no_effects self momentum mr_long_hedge mr_short_hedge :
  paper_trading self = true ->
  Forall (fun eff => eff = no_effects)
    (snd (process_signals self momentum mr_long_hedge mr_short_hedge)).
Proof.
  intros P. unfold process_signals.
  destruct (process_turns_paper true momentum (self, []) P (List.Forall_nil _))
    as [P1 L1].
  destruct (fold_left (process_turn true) momentum (self, [])) as [self1 log1].
  cbn [fst snd] in P1, L1.
  destruct (Hedge.add_circuit_breakers _ _).
  - exact (proj2 (process_turns_paper false mr_short_hedge (self1, log1) P1 L1)).
  - exact (proj2 (process_turns_paper false mr_long_hedge (self1, log1) P1 L1)).
  - exact L1.
Qed.

(** The buy of DOGE on the paper-trading engine. *)
Lemma paper_trading_has_no_effects_witness :
  paper_trading Scenario.paper_engine = true
  /\ Forall (fun eff => eff = no_effects)
       (snd (process_signals Scenario.paper_engine
               [Scenario.turn_of Scenario.accepted] [] [])).
Proof.
  assert (P : paper_trading Scenario.paper_engine = true) by reflexivity.
  split; [exact P|].
  exact (paper_trading_has_no_effects Scenario.paper_engine
           [Scenario.turn_of Scenario.accepted] [] [] P).
Defined.

Lemma process_turn_hedge_last_trade_time acc t :
  Risk.last_trade_time (risk_manager (fst (process_turn false acc t)))
  = Risk.last_trade_time (risk_manager (fst acc)).
Proof.
  destruct acc as [self log]. unfold process_turn. cbn [fst].
  destruct (negb (market_data t)); [reflexivity|].
  destruct (generate_signal t) as [[signal|]|e]; [|reflexivity..].
  pose proof (create_order_risk_manager self (world t) signal) as R.
  pose proof (check_order_last_trade_time (risk_env (world t)) (risk_manager self)
                (strategy_id self) (symbol signal) (order_side signal)
                (amount signal) (price signal) "market") as L.
  rewrite <- R in L.
  destruct (create_order self (world t) signal) as [[order_id rm] eff].
  cbn [fst snd] in L.
  destruct order_id as [id|]; [destruct (truthy_str id)|]; exact L.
Qed.

Lemma process_turns_hedge_last_trade_time turns : forall acc,
  Risk.last_trade_time (risk_manager (fst (fold_left (process_turn false) turns acc)))
  = Risk.last_trade_time (risk_manager (fst acc)).
Proof.
  induction turns as [|t turns IH]; intros acc; [reflexivity|].
  cbn [fold_left]. rewrite IH. apply process_turn_hedge_last_trade_time.
Qed.

(** X20.  Orders placed by the hedge strategies start no cooldown: after
    a round of [process_signals] the cooldown timers are those the
    momentum loop alone leaves, whichever hedge family ran and whatever
    it ordered. *)
Theorem hedge_orders_start_no_cooldown self momentum mr_long_hedge mr_short_hedge :
  Risk.last_trade_time
    (risk_manager (fst (process_signals self momentum mr_long_hedge mr_short_hedge)))
  = Risk.last_trade_time (risk_manager (fst (process_signals self momentum [] []))).
Proof.
  unfold process_signals.
  destruct (fold_left (process_turn true) momentum (self, [])) as [self1 log1].
  destruct (Hedge.add_circuit_breakers _ _); cbn [fold_left fst];
    [apply process_turns_hedge_last_trade_time
    |apply process_turns_hedge_last_trade_time
    |reflexivity].
Qed.

(** *** The position row of a new order *)

(** X21.  [create_order] commits a position row only for an opening
    order that the exchange accepted with an order id, committed as
    [submitted], on a symbol for which the strategy has no row yet.  The
    row holds the side of the order, the signal price as entry price, a
    zero unrealized PnL, and as amount the signal amount rounded to two
    decimals, which is at least the amount the request carries. *)
Theorem position_row_only_for_new_opening_order self w signal p :
  let eff := snd (create_order self w signal) in
  In p (new_positions eff) ->
  is_closing signal = false
  /\ new_positions eff = [p]
  /\ (exists o, orders eff = [o] /\ or_status o = "submitted"%string)
  /\ (exists rows, position_rows (store w) = Some rows
                   /\ rows_of self (symbol signal) rows = [])
  /\ pos_strategy_id p = strategy_id self
  /\ pos_symbol p = symbol signal
  /\ pos_side p = order_side signal
  /\ pos_amount p = round (amount signal) 2
  /\ pos_entry_price p = price signal
  /\ pos_unrealized_pnl p = Some 0
  /\ (forall payload, In payload (requests eff) -> Client.pl_amount payload <= pos_amount p).
Proof.
  intros eff Hin.
  destruct (create_order_effects self w signal) as [E|(client & _ & _ & _ & R & H)];
    fold eff in E || fold eff in R, H.
  { rewrite E in Hin. contradiction. }
  destruct H as [(e & _ & _ & _ & N)|(response & _ & _ & S)].
  { rewrite N in Hin. contradiction. }
  assert (A : forall payload, In payload (requests eff) ->
                Client.pl_amount payload <= round (amount signal) 2).
  { intros payload Hp.
    rewrite (create_order_request_amount self w signal payload Hp).
    apply ClientFacts.round_to_lot_size_floor. }
  revert Hin S. generalize (new_positions eff) (orders eff). intros ps os Hin S.
  unfold save_order in S.
  destruct (negb (order_commit (store w))); [injection S as _ ->; contradiction|].
  cbv zeta in S.
  destruct (Json.truthy (extract_order_id response)) eqn:T;
    [|injection S as _ ->; contradiction].
  destruct (is_closing signal) eqn:C; [injection S as _ ->; contradiction|].
  cbn [negb andb] in S.
  destruct (position_rows (store w)) as [rows|] eqn:Rows;
    [|injection S as _ ->; contradiction].
  destruct (List.filter _ rows) eqn:F; [|injection S as _ ->; contradiction].
  destruct (position_commit (store w)); [|injection S as _ ->; contradiction].
  injection S as -> ->. destruct Hin as [<-|[]].
  split; [reflexivity|]. split; [reflexivity|].
  split; [eexists; split; reflexivity|].
  split; [exists rows; split; [reflexivity|exact F]|].
  cbn. repeat split. exact A.
Qed.

(** The accepted buy of 999.996 DOGE: the row holds 1000. *)
Lemma position_row_only_for_new_opening_order_witness :
  exists p,
    In p (new_positions (snd (create_order Scenario.live_engine
                                (Scenario.world_of Scenario.accepted) Scenario.buy_doge)))
    /\ pos_symbol p = "DOGE"%string
    /\ pos_side p = "bid"%string
    /\ pos_amount p = round 999.996 2.
Proof.
  assert (E : exists p,
             new_positions (snd (create_order Scenario.live_engine
                                   (Scenario.world_of Scenario.accepted)
                                   Scenario.buy_doge)) = [p])
    by (vm_compute; eexists; reflexivity).
  destruct E as [p E].
  assert (Hin : In p (new_positions (snd (create_order Scenario.live_engine
                                            (Scenario.world_of Scenario.accepted)
                                            Scenario.buy_doge))))
    by (rewrite E; left; reflexivity).
  destruct (position_row_only_for_new_opening_order Scenario.live_engine
              (Scenario.world_of Scenario.accepted) Scenario.buy_doge p Hin)
    as (_ & _ & _ & _ & _ & Sy & Sd & Am & _).
  exists p. split; [exact Hin|]. split; [exact Sy|]. split; [exact Sd|exact Am].
Defined.

(** *** The hedge decision over the engine's ledger *)

Lemma update_position_long_pnl_pct em symbol side0 size0 price0 :
  Exposure.long_pnl_pct (Exposure.update_position em symbol side0 size0 price0)
  = Exposure.long_pnl_pct em.
Proof.
  unfold Exposure.update_position, Exposure.check_thresholds, Exposure.calculate_exposure.
  destruct (map_fold _ _ _). reflexivity.
Qed.

Lemma process_turn_long_pnl_pct record acc t :
  Exposure.long_pnl_pct (exposure_manager (fst (process_turn record acc t)))
  = Exposure.long_pnl_pct (exposure_manager (fst acc)).
Proof.
  destruct acc as [self log]. unfold process_turn. cbn [fst].
  destruct (negb (market_data t)); [reflexivity|].
  destruct (generate_signal t) as [[signal|]|e]; [|reflexivity..].
  destruct (create_order self (world t) signal) as [[[id|] rm] eff]; [|reflexivity].
  destruct (truthy_str id); [|reflexivity].
  destruct record; cbn; apply update_position_long_pnl_pct.
Qed.

Lemma process_turns_ledger record turns : forall acc,
  Exposure.long_pnl_pct (exposure_manager (fst (fold_left (process_turn record) turns acc)))
  = Exposure.long_pnl_pct (exposure_manager (fst acc))
  /\ hedge_trigger (fst (fold_left (process_turn record) turns acc))
     = hedge_trigger (fst acc).
Proof.
  induction turns as [|t turns IH]; intros acc; [split; reflexivity|].
  cbn [fold_left]. destruct (IH (process_turn record acc t)) as [A B].
  rewrite A, B, process_turn_long_pnl_pct.
  rewrite (proj2 (proj2 (proj2 (process_turn_static record acc t)))). split; reflexivity.
Qed.

(** X22.  Nothing the engine does writes [long_pnl_pct]: a round of
    [process_signals] leaves it, and the hedge trigger, as they were.  So
    an engine whose [long_pnl_pct] does not exceed the profit threshold,
    as after [__init__] (0.0 against 0.1), never activates the
    mean-reversion shorts: the round is the same whatever the short
    hedge strategies are. *)
Theorem short_hedges_never_run self momentum mr_long_hedge mr_short_hedge :
  Exposure.long_pnl_pct (exposure_manager self)
  <= Hedge.profit_threshold (hedge_trigger self) ->
  let run := process_signals self momentum mr_long_hedge mr_short_hedge in
  run = process_signals self momentum mr_long_hedge []
  /\ Exposure.long_pnl_pct (exposure_manager (fst run))
     = Exposure.long_pnl_pct (exposure_manager self)
  /\ hedge_trigger (fst run) = hedge_trigger self.
Proof.
  intros H run. unfold run, process_signals.
  destruct (process_turns_ledger true momentum (self, [])) as [A B].
  destruct (fold_left (process_turn true) momentum (self, [])) as [self1 log1].
  cbn [fst] in A, B.
  rewrite HedgeFacts.evaluate_snapshot, A, B.
  rewrite (proj2 (Qltb_ge _ _) H). cbn [andb].
  unfold Hedge.add_circuit_breakers.
  destruct (Qltb _ _).
  - destruct (process_turns_ledger false mr_long_hedge (self1, log1)) as [A' B'].
    cbn [fst] in A', B'. rewrite A', B', A, B. repeat split.
  - cbn [fst]. rewrite A, B. repeat split.
Qed.

(** The live engine of the scenarios after [__init__]. *)
Lemma short_hedges_never_run_witness :
  Exposure.long_pnl_pct (exposure_manager Scenario.live_engine)
  <= Hedge.profit_threshold (hedge_trigger Scenario.live_engine)
  /\ process_signals Scenario.live_engine [Scenario.turn_of Scenario.accepted] []
       [Scenario.turn_of Scenario.accepted]
     = process_signals Scenario.live_engine [Scenario.turn_of Scenario.accepted] [] [].
Proof.
  assert (H : Exposure.long_pnl_pct (exposure_manager Scenario.live_engine)
              <= Hedge.profit_threshold (hedge_trigger Scenario.live_engine))
    by (vm_compute; discriminate).
  split; [exact H|].
  exact (proj1 (short_hedges_never_run Scenario.live_engine
                  [Scenario.turn_of Scenario.accepted] []
                  [Scenario.turn_of Scenario.accepted] H)).
Defined.

End EngineLaws.

(** ** Marking positions to market *)

Module MarkLaws.
Import Py PyFacts Engine.
Local Open Scope Q_scope.

Lemma same_holding_refl p : same_holding p p.
Proof. repeat split. Qed.

Lemma update_rows_frame self utcnow market table : forall i,
  Forall2 (fun p q =>
             same_holding p q
             /\ (own self p = false -> q = p)
             /\ (~ priced market p -> q = p))
    table (update_rows self utcnow market i table).
Proof.
  induction table as [|p table IH]; intros i; cbn [update_rows]; [constructor|].
  destruct (String.eqb (pos_strategy_id p) (strategy_id self)) eqn:E.
  - constructor; [|apply IH].
    destruct (market (pos_symbol p)) as [m|] eqn:M.
    + destruct (Qleb m 0) eqn:L.
      * split; [apply same_holding_refl|]. split; reflexivity.
      * apply Qleb_gt in L. split; [repeat split|].
        split; [intros O; unfold own in O; rewrite E in O; discriminate|].
        intros X. exfalso. apply X. exists m. split; assumption.
    + split; [apply same_holding_refl|]. split; reflexivity.
  - constructor; [|apply IH].
    split; [apply same_holding_refl|]. split; reflexivity.
Qed.

(** X23.  [update_positions] adds and removes no row and writes only
    [current_price], [unrealized_pnl] and [updated_at]: every row keeps
    its strategy, symbol, side, amount, entry price, realized PnL and
    opening time.  A row of another strategy, and a row for whose symbol
    no positive market price is found, is left exactly as it was, with
    the PnL it had. *)
Theorem update_positions_frame self utcnow get_market_data table table' :
  update_positions self utcnow get_market_data (Some table) = Some table' ->
  Forall2 (fun p q =>
             same_holding p q
             /\ (own self p = false -> q = p)
             /\ (~ priced get_market_data p -> q = p))
    table table'.
Proof.
  unfold update_positions. destruct (List.filter _ table); [discriminate|].
  intros [= <-]. apply update_rows_frame.
Qed.

(** The table of the scenarios with a row of another strategy, every
    symbol quoted at 110: three rows before and after, the row of the
    other strategy untouched. *)
Lemma update_positions_frame_witness :
  exists table',
    update_positions Scenario.live_engine Scenario.clock Scenario.quotes
      (Some Scenario.shared_table) = Some table'
    /\ length table' = length Scenario.shared_table
    /\ nth_error table' 0 = Some Scenario.other_row.
Proof.
  assert (E : exists table',
             update_positions Scenario.live_engine Scenario.clock Scenario.quotes
               (Some Scenario.shared_table) = Some table')
    by (vm_compute; eexists; reflexivity).
  destruct E as [table' E]. exists table'. split; [exact E|].
  pose proof (update_positions_frame Scenario.live_engine Scenario.clock Scenario.quotes
                Scenario.shared_table table' E) as F.
  split.
  - symmetry. exact (Forall2_length _ _ _ F).
  - unfold Scenario.shared_table in F. inversion F as [|p q l l' (_ & Other & _) _]; subst.
    cbn [nth_error]. f_equal. apply Other. reflexivity.
Defined.

Lemma with_updated_at_id p : with_updated_at (pos_updated_at p) p = p.
Proof. destruct p; reflexivity. Qed.

Lemma update_rows_again self utcnow utcnow' market table : forall i,
  Forall2 (fun p q => q = with_updated_at (pos_updated_at q) p)
    (update_rows self utcnow market i table)
    (update_rows self utcnow' market i (update_rows self utcnow market i table)).
Proof.
  induction table as [|p table IH]; intros i; cbn [update_rows]; [constructor|].
  destruct (String.eqb (pos_strategy_id p) (strategy_id self)) eqn:E.
  - destruct (market (pos_symbol p)) as [m|] eqn:M.
    + destruct (Qleb m 0) eqn:L; cbn [update_rows mark_to_market pos_strategy_id pos_symbol];
        rewrite E, M, L; (constructor; [|apply IH]).
      * symmetry. apply with_updated_at_id.
      * reflexivity.
    + cbn [update_rows]. rewrite E, M. constructor; [|apply IH].
      symmetry. apply with_updated_at_id.
  - cbn [update_rows]. rewrite E. constructor; [|apply IH].
    symmetry. apply with_updated_at_id.
Qed.

Lemma update_rows_own self utcnow market table : forall i,
  List.filter (fun p => String.eqb (pos_strategy_id p) (strategy_id self))
    (update_rows self utcnow market i table) = []
  -> List.filter (fun p => String.eqb (pos_strategy_id p) (strategy_id self)) table = [].
Proof.
  induction table as [|p table IH]; intros i; cbn [update_rows]; [reflexivity|].
  destruct (String.eqb (pos_strategy_id p) (strategy_id self)) eqn:E.
  - cbn [List.filter].
    destruct (market (pos_symbol p)) as [m|]; [destruct (Qleb m 0)|];
      cbn [mark_to_market pos_strategy_id]; rewrite E; discriminate.
  - cbn [List.filter]. rewrite E. apply IH.
Qed.

(** X24.  Marking to market twice at the same prices changes nothing
    but the time stamps: a second run of [update_positions] commits the
    table the first run committed, each row with at most a new
    [updated_at]. *)
Theorem update_positions_twice self utcnow utcnow' get_market_data table table' :
  update_positions self utcnow get_market_data (Some table) = Some table' ->
  exists table'',
    update_positions self utcnow' get_market_data (Some table') = Some table''
    /\ Forall2 (fun p q => q = with_updated_at (pos_updated_at q) p) table' table''.
Proof.
  unfold update_positions.
  destruct (List.filter _ table) eqn:F; [discriminate|]. intros [= <-].
  destruct (List.filter _ (update_rows _ _ _ _ _)) eqn:F'.
  - apply update_rows_own in F'. rewrite F' in F. discriminate.
  - eexists. split; [reflexivity|]. apply update_rows_again.
Qed.

(** The table of the scenarios, marked at 110 twice, the second time a
    minute later. *)
Lemma update_positions_twice_witness :
  exists table' table'',
    update_positions Scenario.live_engine Scenario.clock Scenario.quotes
      (Some Scenario.shared_table) = Some table'
    /\ update_positions Scenario.live_engine (fun _ => (Scenario.t0 + 60000000)%Z)
         Scenario.quotes (Some table') = Some table''
    /\ Forall2 (fun p q => q = with_updated_at (pos_updated_at q) p) table' table''.
Proof.
  assert (E : exists table',
             update_positions Scenario.live_engine Scenario.clock Scenario.quotes
               (Some Scenario.shared_table) = Some table')
    by (vm_compute; eexists; reflexivity).
  destruct E as [table' E].
  destruct (update_positions_twice Scenario.live_engine Scenario.clock
              (fun _ => (Scenario.t0 + 60000000)%Z) Scenario.quotes
              Scenario.shared_table table' E) as (table'' & E' & F).
  exists table', table''. split; [exact E|]. split; [exact E'|exact F].
Defined.

End MarkLaws.

(** ** Reconciliation, whatever the exchange answers *)

Module SyncLaws.
Import Py PyFacts Engine.
Local Open Scope Q_scope.

Lemma filter_foreign_map self (g : Position -> Position) l :
  (forall p, own self p = false -> g p = p) ->
  (forall p, own self p = true -> own self (g p) = true) ->
  List.filter (foreign self) (map g l) = List.filter (foreign self) l.
Proof.
  intros H1 H2. induction l as [|p l IH]; [reflexivity|].
  cbn [map List.filter]. rewrite IH. unfold foreign.
  destruct (own self p) eqn:O.
  - rewrite (H2 p O). reflexivity.
  - rewrite (H1 p O), O. reflexivity.
Qed.

Lemma is_row_own_true self s p : is_row self s p = true -> own self p = true.
Proof. unfold is_row, own. intros H. apply andb_true_iff in H. tauto. Qed.

(** What the loop over the exchange's positions keeps, whatever the
    exchange lists. *)
Lemma sync_loop_invariant self now table xs : forall st st',
  sync_loop self now table st xs = Return st' ->
  List.filter (foreign self) (loaded st') = List.filter (foreign self) (loaded st)
  /\ length (loaded st') = length (loaded st)
  /\ (Forall (fun p => own self p = true) (added st) ->
      Forall (fun p => own self p = true) (added st'))
  /\ (length (added st') + n_created st = length (added st) + n_created st')%nat
  /\ (n_updated st' + n_created st'
      = n_updated st + n_created st + length (List.filter nonzero xs))%nat.
Proof.
  induction xs as [|x xs IH]; intros st st'; cbn [sync_loop].
  - intros [= <-]. cbn. repeat split; auto; lia.
  - destruct (sync_one self now table st x) as [st1|e] eqn:E; cbn [Py.bind];
      [|discriminate].
    intros H. destruct (IH _ _ H) as (A & B & C & D & F).
    revert E. unfold sync_one. cbn [List.filter]. unfold nonzero at 1.
    destruct (Qeqb (Client.xp_amount x) 0); cbn [negb].
    + intros [= <-]. repeat split; auto.
    + destruct (List.filter (is_row self (Client.xp_symbol x)) table) as [|r [|r' rest]];
        [| |discriminate]; intros [= <-]; cbn [loaded added n_updated n_created] in *.
      * split; [exact A|]. split; [exact B|]. split.
        -- intros O. apply C. apply Forall_app. split; [exact O|].
           constructor; [|constructor]. unfold own, new_position. cbn.
           apply String.eqb_refl.
        -- rewrite length_app in D. cbn [length] in *. split; lia.
      * rewrite filter_foreign_map in A.
        -- rewrite length_map in B. split; [exact A|]. split; [exact B|].
           split; [exact C|]. cbn [length] in *. split; lia.
        -- intros p O. destruct (is_row self (Client.xp_symbol x) p) eqn:R; [|reflexivity].
           apply is_row_own_true in R. congruence.
        -- intros p O. destruct (is_row self (Client.xp_symbol x) p); exact O.
Qed.

Lemma sync_loop_keys self now table xs : forall st st',
  sync_loop self now table st xs = Return st' ->
  map key (loaded st') = map key (loaded st).
Proof.
  induction xs as [|x xs IH]; intros st st'; cbn [sync_loop].
  - intros [= <-]. reflexivity.
  - destruct (sync_one self now table st x) as [st1|e] eqn:E; cbn [Py.bind];
      [|discriminate].
    intros H. rewrite (IH _ _ H). revert E. unfold sync_one.
    destruct (Qeqb (Client.xp_amount x) 0); [intros [= <-]; reflexivity|].
    destruct (List.filter (is_row self (Client.xp_symbol x)) table) as [|r [|r' rest]];
      [| |discriminate]; intros [= <-]; cbn [loaded]; [reflexivity|].
    rewrite map_map. apply map_ext. intros p.
    destruct (is_row self (Client.xp_symbol x) p); reflexivity.
Qed.

(** A run that commits: the answer, the state the loop ends in, the
    table and the report. *)
Lemma sync_synced self now http table table' report :
  sync_positions_from_pacifica self now http (Some table) = Synced table' report ->
  exists body st,
    http = Return body
    /\ sync_loop self now table
         {| loaded := table; added := []; n_updated := 0; n_created := 0 |}
         (exchange_positions body) = Return st
    /\ table' = List.filter (fun p => negb (is_ghost self (pacifica_symbols
                                                              (exchange_positions body)) p))
                  (loaded st) ++ added st
    /\ report = {| active := length (exchange_positions body);
                   updated_count := n_updated st;
                   created_count := n_created st;
                   deleted_count :=
                     length (List.filter (is_ghost self (pacifica_symbols
                                                           (exchange_positions body)))
                               table) |}.
Proof.
  unfold sync_positions_from_pacifica.
  destruct (pacifica_client self) as [client|]; [|discriminate].
  destruct (negb (Client.keypair client)) eqn:K; [discriminate|].
  unfold Client.get_positions. rewrite K.
  destruct http as [body|e]; [|discriminate].
  destruct (sync_loop _ _ _ _ _) as [st|e] eqn:L; [|discriminate].
  destruct (bool_decide _); [|discriminate].
  intros [= <- <-]. exists body, st.
  split; [reflexivity|]. split; [first [exact L|reflexivity]|]. split; reflexivity.
Qed.

Lemma filter_foreign_not_ghost self symbols l :
  List.filter (foreign self) (List.filter (fun p => negb (is_ghost self symbols p)) l)
  = List.filter (foreign self) l.
Proof.
  induction l as [|p l IH]; [reflexivity|]. cbn [List.filter].
  unfold is_ghost at 1. unfold foreign at 2. unfold own.
  destruct (String.eqb (pos_strategy_id p) (strategy_id self)) eqn:O; cbn [andb negb].
  - destruct (negb (negb _)); cbn [List.filter]; [unfold foreign at 1, own; rewrite O|];
      exact IH.
  - cbn [List.filter]. unfold foreign at 1, own. rewrite O. cbn [negb]. rewrite IH.
    reflexivity.
Qed.

Lemma filter_foreign_own self l :
  Forall (fun p => own self p = true) l -> List.filter (foreign self) l = [].
Proof.
  induction 1 as [|p l O _ IH]; [reflexivity|].
  cbn [List.filter]. unfold foreign at 1. rewrite O. exact IH.
Qed.

(** X25.  Reconciliation never touches another strategy: whatever the
    exchange answers, the rows of the other strategies are, after a run
    that commits, the rows of before, in the same order. *)
Theorem sync_leaves_other_strategies self now http table table' report :
  sync_positions_from_pacifica self now http (Some table) = Synced table' report ->
  List.filter (foreign self) table' = List.filter (foreign self) table.
Proof.
  intros H. destruct (sync_synced _ _ _ _ _ _ H) as (body & st & _ & L & -> & _).
  destruct (sync_loop_invariant _ _ _ _ _ _ L) as (A & _ & C & _).
  rewrite List.filter_app, filter_foreign_not_ghost, A.
  rewrite (filter_foreign_own self (added st)) by (apply C; constructor).
  apply app_nil_r.
Qed.

(** The reconciliation of the scenarios over a table that also holds a
    row of another strategy. *)
Lemma sync_leaves_other_strategies_witness :
  exists table' report,
    sync_positions_from_pacifica Scenario.live_engine Scenario.t0
      (Return Scenario.exchange_body) (Some Scenario.shared_table) = Synced table' report
    /\ List.filter (foreign Scenario.live_engine) table' = [Scenario.other_row].
Proof.
  assert (E : exists table' report,
             sync_positions_from_pacifica Scenario.live_engine Scenario.t0
               (Return Scenario.exchange_body) (Some Scenario.shared_table)
             = Synced table' report)
    by (vm_compute; eexists _, _; reflexivity).
  destruct E as (table' & report & E). exists table', report. split; [exact E|].
  rewrite (sync_leaves_other_strategies Scenario.live_engine Scenario.t0
             (Return Scenario.exchange_body) Scenario.shared_table table' report E).
  reflexivity.
Defined.

Lemma length_filter_split {A} (f : A -> bool) l :
  (length (List.filter f l) + length (List.filter (fun x => negb (f x)) l)
   = length l)%nat.
Proof.
  induction l as [|x l IH]; [reflexivity|]. cbn [List.filter].
  destruct (f x); cbn [negb length]; lia.
Qed.

Lemma ghosts_by_key self symbols : forall l l',
  map key l = map key l' ->
  length (List.filter (is_ghost self symbols) l)
  = length (List.filter (is_ghost self symbols) l').
Proof.
  induction l as [|p l IH]; intros [|q l'] H; try discriminate; [reflexivity|].
  cbn [map key] in H. injection H as K1 K2 H. cbn [List.filter].
  assert (G : is_ghost self symbols p = is_ghost self symbols q)
    by (unfold is_ghost; rewrite K1, K2; reflexivity).
  rewrite G. destruct (is_ghost self symbols q); cbn [length]; rewrite (IH l' H);
    reflexivity.
Qed.

(** X26.  The report of a run that commits adds up, whatever the
    exchange answers: [active] is the number of entries of the answer,
    the updates and creations together are its entries with a non-zero
    amount, and the table has as many rows as before, less the deleted
    and plus the created ones. *)
Theorem sync_report_accounts self now http table table' report :
  sync_positions_from_pacifica self now http (Some table) = Synced table' report ->
  exists body,
    http = Return body
    /\ active report = length (exchange_positions body)
    /\ (updated_count report + created_count report
        = length (List.filter nonzero (exchange_positions body)))%nat
    /\ (length table' + deleted_count report = length table + created_count report)%nat.
Proof.
  intros H. destruct (sync_synced _ _ _ _ _ _ H) as (body & st & Hb & L & -> & ->).
  exists body. split; [exact Hb|]. cbn [active updated_count created_count deleted_count].
  destruct (sync_loop_invariant _ _ _ _ _ _ L) as (_ & B & _ & D & F).
  cbn [loaded added n_updated n_created length] in B, D, F.
  split; [reflexivity|]. split; [lia|].
  rewrite length_app.
  rewrite <- (ghosts_by_key self _ (loaded st) table (sync_loop_keys _ _ _ _ _ _ L)).
  pose proof (length_filter_split
                (is_ghost self (pacifica_symbols (exchange_positions body))) (loaded st)).
  lia.
Qed.

(** The reconciliation of the scenarios: two entries, one update (SOL),
    one creation (ETH), one deletion (BTC), three rows before and after. *)
Lemma sync_report_accounts_witness :
  exists table' report,
    sync_positions_from_pacifica Scenario.live_engine Scenario.t0
      (Return Scenario.exchange_body) (Some Scenario.shared_table) = Synced table' report
    /\ (updated_count report + created_count report = 2)%nat
    /\ (length table' + deleted_count report = 3 + created_count report)%nat.
Proof.
  assert (E : exists table' report,
             sync_positions_from_pacifica Scenario.live_engine Scenario.t0
               (Return Scenario.exchange_body) (Some Scenario.shared_table)
             = Synced table' report)
    by (vm_compute; eexists _, _; reflexivity).
  destruct E as (table' & report & E). exists table', report. split; [exact E|].
  destruct (sync_report_accounts Scenario.live_engine Scenario.t0
              (Return Scenario.exchange_body) Scenario.shared_table table' report E)
    as (body & Hb & _ & U & T).
  injection Hb as <-. split; [exact U|exact T].
Defined.

(** X27.  An answer without positions deletes every position of the
    strategy.  When the body of the positions request is not a success
    (an object whose [success] is false, or neither an object nor a
    list) or lists nothing, the run commits: every row of the strategy is
    deleted, the rows of the other strategies stay, and the report counts
    the deletions. *)
Theorem empty_answer_deletes_every_position self now client body table :
  pacifica_client self = Some client ->
  Client.keypair client = true ->
  body = Client.BodyOther
  \/ (exists data, body = Client.BodyDict false data)
  \/ body = Client.BodyDict true None
  \/ body = Client.BodyDict true (Some [])
  \/ body = Client.BodyList [] ->
  sync_positions_from_pacifica self now (Return body) (Some table)
  = Synced (List.filter (foreign self) table)
      {| active := 0; updated_count := 0; created_count := 0;
         deleted_count := length (List.filter (own self) table) |}.
Proof.
  intros Hc K Hb.
  assert (E : exchange_positions body = [])
    by (destruct Hb as [->|[(data & ->)|[->|[->| ->]]]]; reflexivity).
  unfold sync_positions_from_pacifica, Client.get_positions.
  rewrite Hc, K. cbn [negb]. rewrite E.
  cbn [negb sync_loop added map length loaded n_updated n_created].
  rewrite bool_decide_eq_true_2 by constructor.
  rewrite app_nil_r. f_equal.
  - apply filter_ext. intros p. unfold is_ghost, foreign, own.
    change (pacifica_symbols []) with (∅ : gset string).
    rewrite bool_decide_eq_false_2 by set_solver. cbn [negb]. rewrite andb_true_r.
    reflexivity.
  - f_equal. f_equal. apply filter_ext. intros p. unfold is_ghost, own.
    change (pacifica_symbols []) with (∅ : gset string).
    rewrite bool_decide_eq_false_2 by set_solver. cbn [negb]. apply andb_true_r.
Qed.

(** The exchange answers [{"success": false}]: BTC and SOL are deleted. *)
Lemma empty_answer_deletes_every_position_witness :
  (pacifica_client Scenario.live_engine = Some {| Client.keypair := true |}
   /\ Client.keypair {| Client.keypair := true |} = true)
  /\ sync_positions_from_pacifica Scenario.live_engine Scenario.t0
       (Return (Client.BodyDict false None)) (Some Scenario.shared_table)
     = Synced [Scenario.other_row]
         {| active := 0; updated_count := 0; created_count := 0; deleted_count := 2 |}.
Proof.
  assert (H : pacifica_client Scenario.live_engine = Some {| Client.keypair := true |}
              /\ Client.keypair {| Client.keypair := true |} = true)
    by (split; reflexivity).
  split; [exact H|]. destruct H as [Hc K].
  rewrite (empty_answer_deletes_every_position Scenario.live_engine Scenario.t0
             {| Client.keypair := true |} (Client.BodyDict false None)
             Scenario.shared_table Hc K
             (or_intror (or_introl (ex_intro _ None eq_refl)))).
  reflexivity.
Defined.

End SyncLaws.

(** ** Position sizing *)

Module SizerFacts.
Import Py PyFacts Sizer.
Local Open Scope Q_scope.

Lemma clamp_bounds risk :
  0.005 <= max 0.005 (min risk 0.03) /\ max 0.005 (min risk 0.03) <= 0.03
  /\ (0.005 <= risk -> risk <= 0.03 -> max 0.005 (min risk 0.03) == risk).
Proof.
  unfold max, min.
  destruct (Qltb 0.03 risk) eqn:A; [apply Qltb_lt in A|apply Qltb_ge in A].
  - change (Qltb 0.005 0.03) with true. cbv iota. repeat split; lra.
  - destruct (Qltb 0.005 risk) eqn:B; [apply Qltb_lt in B|apply Qltb_ge in B];
      repeat split; lra.
Qed.

(** X28.  [calculate_position_size] returns 0.0 for a stop distance that
    is not positive.  Otherwise the amount at risk, the size times the
    stop distance, is the requested fraction of the balance clamped to
    between 0.5 % and 3 % of it. *)
Theorem position_size_risk_is_clamped self risk_per_trade stop_loss_pct :
  let size := calculate_position_size self risk_per_trade stop_loss_pct in
  (stop_loss_pct <= 0 -> size = 0)
  /\ (0 < stop_loss_pct -> 0 <= account_balance self ->
      0.005 * account_balance self <= size * stop_loss_pct
      /\ size * stop_loss_pct <= 0.03 * account_balance self
      /\ (0.005 <= risk_per_trade -> risk_per_trade <= 0.03 ->
          size * stop_loss_pct == risk_per_trade * account_balance self)).
Proof.
  intros size. unfold size, calculate_position_size. split.
  - intros H. rewrite (proj2 (Qleb_le _ _) H). reflexivity.
  - intros H B. rewrite (proj2 (Qleb_gt _ _) H).
    destruct (clamp_bounds risk_per_trade) as (L & U & E).
    set (pct := max 0.005 (min risk_per_trade 0.03)) in *.
    assert (X : account_balance self * pct / stop_loss_pct * stop_loss_pct
                == account_balance self * pct) by (field; lra).
    rewrite X.
    assert (L' : account_balance self * 0.005 <= account_balance self * pct)
      by (rewrite !(Qmult_comm (account_balance self));
          apply Qmult_le_compat_r; assumption).
    assert (U' : account_balance self * pct <= account_balance self * 0.03)
      by (rewrite !(Qmult_comm (account_balance self));
          apply Qmult_le_compat_r; assumption).
    split; [lra|]. split; [lra|]. intros R1 R2. rewrite (E R1 R2). ring.
Qed.

(** A balance of 100 000: asking to risk 50 % with a 2 % stop puts
    3 000 at risk; a stop of 0 gives size 0. *)
Lemma position_size_risk_is_clamped_witness :
  (0 < 0.02 /\ 0 <= account_balance (__init__ 100000) /\ 0 <= 0)
  /\ calculate_position_size (__init__ 100000) 0.5 0.02 * 0.02
     <= 0.03 * account_balance (__init__ 100000)
  /\ calculate_position_size (__init__ 100000) 0.5 0 = 0.
Proof.
  assert (H : 0 < 0.02 /\ 0 <= account_balance (__init__ 100000) /\ 0 <= 0)
    by (repeat split; vm_compute; discriminate).
  split; [exact H|]. destruct H as (S & B & Z). split.
  - exact (proj1 (proj2 (proj2 (position_size_risk_is_clamped (__init__ 100000) 0.5 0.02)
                           S B))).
  - exact (proj1 (position_size_risk_is_clamped (__init__ 100000) 0.5 0) Z).
Defined.

End SizerFacts.

(** ** The market regime *)

Module RegimeFacts.
Import Py PyFacts Regime.
Local Open Scope Q_scope.

Lemma sum_from (l : list Q) : forall a, fold_left Qplus l a == a + sum l.
Proof.
  unfold sum. induction l as [|x l IH]; intros a; cbn [fold_left]; [ring|].
  rewrite (IH (a + x)), (IH (0 + x)). ring.
Qed.

Lemma sum_cons x l : sum (x :: l) == x + sum l.
Proof. unfold sum at 1. cbn [fold_left]. rewrite sum_from. ring. Qed.

Lemma sum_app l1 l2 : sum (l1 ++ l2) == sum l1 + sum l2.
Proof.
  induction l1 as [|x l1 IH]; cbn [app]; [change (sum []) with 0; ring|].
  rewrite !sum_cons, IH. ring.
Qed.

Lemma sum_rev l : sum (rev l) == sum l.
Proof.
  induction l as [|x l IH]; cbn [rev]; [reflexivity|].
  rewrite sum_app, !sum_cons, IH. change (sum []) with 0. ring.
Qed.

Lemma last_n_app {A} (l1 l2 : list A) : last_n (length l2) (l1 ++ l2) = l2.
Proof.
  unfold last_n. rewrite length_app.
  replace (length l1 + length l2 - length l2)%nat with (length l1 + 0)%nat by lia.
  rewrite skipn_app, Nat.add_0_r, skipn_all.
  replace (length l1 - length l1)%nat with 0%nat by lia. reflexivity.
Qed.

Lemma last_n_rev {A} n (l : list A) :
  (n <= length l)%nat -> last_n n (rev l) = rev (firstn n l).
Proof.
  intros H. unfold last_n. rewrite length_rev, skipn_rev. do 2 f_equal. lia.
Qed.

Lemma floats_present l : floats (map Some l) = Return l.
Proof. induction l as [|x l IH]; cbn; [reflexivity|]. rewrite IH. reflexivity. Qed.

Lemma floats_raises data e : floats data = Raise e -> e = TypeError.
Proof.
  induction data as [|[v|] data IH]; cbn [floats];
    [discriminate| |intros [= <-]; reflexivity].
  destruct (floats data); cbn [Py.bind]; [discriminate|exact IH].
Qed.

Lemma floats_missing data : In None data -> floats data = Raise TypeError.
Proof.
  induction data as [|[v|] data IH]; cbn [floats In]; [contradiction| |reflexivity].
  intros [H|H]; [discriminate|]. rewrite (IH H). reflexivity.
Qed.

Lemma mean_present l :
  l <> [] -> mean (map Some l) = Return (sum l / inject_Z (Z.of_nat (length l))).
Proof.
  intros H. unfold mean. destruct l as [|x l]; [contradiction|].
  rewrite floats_present. reflexivity.
Qed.

Lemma mean_raises data e : data <> [] -> mean data = Raise e -> e = TypeError.
Proof.
  intros N. unfold mean. destruct data as [|c data]; [contradiction|].
  destruct (floats (c :: data)) eqn:F; cbn [Py.bind]; [discriminate|].
  intros [= <-]. exact (floats_raises _ _ F).
Qed.

Lemma mean_missing data : In None data -> mean data = Raise TypeError.
Proof.
  intros H. unfold mean. destruct data as [|c data]; [contradiction|].
  rewrite (floats_missing _ H). reflexivity.
Qed.

Lemma close_of_present l :
  Forall (fun v => ~ v == 0) l -> map close_of (map Some l) = map Some l.
Proof.
  induction 1 as [|x l Hx _ IH]; [reflexivity|]. cbn [map close_of].
  rewrite (proj2 (Qeqb_neq _ _) Hx), IH. reflexivity.
Qed.

(** X29.  On at least fifty candles with usable closes the regime is a
    comparison of two averages: [BULL] exactly when the average close of
    the 20 newest candles is above the average of the 30 before them,
    [BEAR] exactly when it is below, [SIDEWAYS] when they are equal.
    Candles older than the 50 newest play no part. *)
Theorem regime_is_a_crossover recent older rest :
  length recent = 20%nat -> length older = 30%nat ->
  Forall (fun v => ~ v == 0) (recent ++ older) ->
  exists regime,
    detect_regime (Some (map Some recent ++ map Some older ++ rest)) = Return regime
    /\ (regime = BULL <-> sum older / 30 < sum recent / 20)
    /\ (regime = BEAR <-> sum recent / 20 < sum older / 30).
Proof.
  intros Hr Ho Hnz. apply Forall_app in Hnz. destruct Hnz as [Nr No].
  unfold detect_regime, get_candles.
  rewrite !map_app, !rev_app_distr, (close_of_present _ Nr), (close_of_present _ No).
  rewrite <- !map_rev.
  set (old := map close_of (rev rest)).
  assert (Len : (length ((old ++ map Some (rev older)) ++ map Some (rev recent)) <? 50)%nat
                = false).
  { apply Nat.ltb_ge. rewrite !length_app, !length_map, !length_rev. lia. }
  rewrite Len.
  assert (L20 : last_n 20 ((old ++ map Some (rev older)) ++ map Some (rev recent))
                = map Some (rev recent)).
  { rewrite <- (last_n_app (old ++ map Some (rev older)) (map Some (rev recent))) at 2.
    rewrite length_map, length_rev, Hr. reflexivity. }
  assert (L50 : last_n 50 ((old ++ map Some (rev older)) ++ map Some (rev recent))
                = map Some (rev older ++ rev recent)).
  { rewrite <- app_assoc, map_app.
    rewrite <- (last_n_app old (map Some (rev older) ++ map Some (rev recent))) at 2.
    rewrite length_app, !length_map, !length_rev, Hr, Ho. reflexivity. }
  rewrite L20, L50.
  rewrite !mean_present.
  2:{ intros E. apply (f_equal (@length Q)) in E. rewrite length_app, !length_rev in E.
      cbn in E. lia. }
  2:{ intros E. apply (f_equal (@length Q)) in E. rewrite length_rev in E. cbn in E. lia. }
  cbn [Py.bind]. rewrite length_app, !length_rev, Hr, Ho.
  change (inject_Z (Z.of_nat 20)) with 20. change (inject_Z (Z.of_nat (30 + 20))) with 50.
  set (ma_20 := sum (rev recent) / 20). set (ma_50 := sum (rev older ++ rev recent) / 50).
  assert (E20 : ma_20 == sum recent / 20) by (unfold ma_20; rewrite sum_rev; reflexivity).
  assert (E50 : ma_50 == (sum older + sum recent) / 50)
    by (unfold ma_50; rewrite sum_app, !sum_rev; reflexivity).
  assert (X : ma_50 == (3 # 5) * (sum older / 30) + (2 # 5) * ma_20)
    by (rewrite E50, E20; field).
  destruct (Qltb ma_50 ma_20) eqn:A; [apply Qltb_lt in A|apply Qltb_ge in A].
  - exists BULL. split; [reflexivity|].
    split; split; try discriminate; intros; try reflexivity; lra.
  - destruct (Qltb ma_20 ma_50) eqn:B; [apply Qltb_lt in B|apply Qltb_ge in B].
    + exists BEAR. split; [reflexivity|].
      split; split; try discriminate; intros; try reflexivity; lra.
    + exists SIDEWAYS. split; [reflexivity|].
      split; split; try discriminate; intros; exfalso; lra.
Qed.

(** Twenty closes at 110 after thirty at 100: a bull market. *)
Lemma regime_is_a_crossover_witness :
  (length Scenario.recent_closes = 20%nat /\ length Scenario.older_closes = 30%nat
   /\ Forall (fun v => ~ v == 0) (Scenario.recent_closes ++ Scenario.older_closes))
  /\ detect_regime (Some (map Some Scenario.recent_closes
                          ++ map Some Scenario.older_closes ++ []))
     = Return BULL.
Proof.
  assert (H : length Scenario.recent_closes = 20%nat
              /\ length Scenario.older_closes = 30%nat
              /\ Forall (fun v => ~ v == 0)
                   (Scenario.recent_closes ++ Scenario.older_closes))
    by (split; [reflexivity|]; split; [reflexivity|];
        repeat constructor; vm_compute; discriminate).
  split; [exact H|]. destruct H as (Hr & Ho & Hnz).
  destruct (regime_is_a_crossover Scenario.recent_closes Scenario.older_closes [] Hr Ho Hnz)
    as (regime & E & Bull & _).
  rewrite E. f_equal. apply Bull. vm_compute. reflexivity.
Defined.

(** X30.  [detect_regime] answers [SIDEWAYS] when the candles cannot be
    read or fewer than fifty are returned.  With fifty or more, one
    candle among the 50 newest whose close is NULL or 0 makes it raise
    [TypeError]. *)
Theorem regime_needs_fifty_closes rows :
  detect_regime None = Return SIDEWAYS
  /\ ((length rows < 50)%nat -> detect_regime (Some rows) = Return SIDEWAYS)
  /\ ((50 <= length rows)%nat ->
      (exists column, In column (firstn 50 rows) /\ close_of column = None) ->
      detect_regime (Some rows) = Raise TypeError).
Proof.
  split; [reflexivity|]. split.
  - intros H. unfold detect_regime, get_candles. rewrite length_rev, length_map.
    rewrite (proj2 (Nat.ltb_lt _ _) H). reflexivity.
  - intros H (column & Hin & Hc). unfold detect_regime, get_candles.
    rewrite length_rev, length_map. rewrite (proj2 (Nat.ltb_ge _ _) H).
    rewrite !last_n_rev by (rewrite length_map; lia).
    assert (M : mean (rev (firstn 50 (map close_of rows))) = Raise TypeError).
    { apply mean_missing. apply in_rev. rewrite rev_involutive, firstn_map.
      rewrite <- Hc. apply in_map. exact Hin. }
    rewrite M.
    destruct (mean (rev (firstn 20 (map close_of rows)))) as [ma_20|e] eqn:E;
      cbn [Py.bind]; [reflexivity|].
    f_equal. refine (mean_raises _ _ _ E).
    intros X. apply (f_equal (@length _)) in X.
    rewrite length_rev, length_firstn, length_map in X.
    change (length (@nil (option Q))) with 0%nat in X. lia.
Qed.

(** Forty-nine candles; and fifty of which the oldest has a close of 0. *)
Lemma regime_needs_fifty_closes_witness :
  ((length (repeat (Some 100) 49) < 50)%nat
   /\ (50 <= length (repeat (Some 100) 49 ++ [Some 0]))%nat
   /\ exists column,
        In column (firstn 50 (repeat (Some 100) 49 ++ [Some 0]))
        /\ close_of column = None)
  /\ detect_regime (Some (repeat (Some 100) 49)) = Return SIDEWAYS
  /\ detect_regime (Some (repeat (Some 100) 49 ++ [Some 0])) = Raise TypeError.
Proof.
  assert (H : (length (repeat (Some 100) 49) < 50)%nat
              /\ (50 <= length (repeat (Some 100) 49 ++ [Some 0]))%nat
              /\ exists column,
                   In column (firstn 50 (repeat (Some 100) 49 ++ [Some 0]))
                   /\ close_of column = None).
  { split; [vm_compute; lia|]. split; [vm_compute; lia|].
    exists (Some 0). split; [|reflexivity].
    apply in_rev. vm_compute. left. reflexivity. }
  split; [exact H|]. destruct H as (Short & Long & Missing). split.
  - exact (proj1 (proj2 (regime_needs_fifty_closes (repeat (Some 100) 49))) Short).
  - exact (proj2 (proj2 (regime_needs_fifty_closes (repeat (Some 100) 49 ++ [Some 0])))
             Long Missing).
Defined.

End RegimeFacts.
